(** * processingpack.chipcollections: series, quantifications and assays

    A shallow embedding of [processing_pack/processingpack/chipcollections.py].
    The classes of the file become records, their methods functions that
    return the updated object next to the outcome of the call, and the
    collaborators the file only calls (the [os] and [pathlib] modules, the
    [pandas] tables, [chip.ChipImage]) are modelled as far as the methods
    read them. *)

From stdpp Require Import base gmap sets list strings sorting pretty.
From Stdlib Require Import ZArith Lia Ascii.

Local Open Scope Z_scope.

(** * Python: exceptions, outcomes, truth values *)
Module Py.

(** The errors of the operating system the file system calls end in, each
    with the text of the path it names. *)
Inductive oserror :=
| FileNotFoundError (p : string)
| IsADirectoryError (p : string)
| FileExistsError (p : string)
| NotADirectoryError (p : string).

Inductive exn :=
| ValueError (msg : string)
| TypeError (msg : string)
| KeyError (key : string)
| IndexError (msg : string)
| NameError (msg : string)
| AttributeError (msg : string)
| NotImplementedError (msg : string)
| OSError (e : oserror).

(** The outcome of a call: a value, or the exception that left it. *)
Inductive res (A : Type) :=
| Ok (a : A)
| Raise (e : exn).
Arguments Ok {A} a.
Arguments Raise {A} e.

#[global] Instance res_ret : MRet res := λ A a, Ok a.
#[global] Instance res_bind : MBind res := λ A B f r,
  match r with Ok a => f a | Raise e => Raise e end.
#[global] Instance res_fmap : FMap res := λ A B f r,
  match r with Ok a => Ok (f a) | Raise e => Raise e end.

Definition is_ok {A} (r : res A) : bool :=
  match r with Ok _ => true | Raise _ => false end.

(** [bool(x)] of an optional string: [None] and [''] are false. *)
Definition truthy_str (o : option string) : bool :=
  match o with
  | None | Some EmptyString => false
  | Some _ => true
  end.

(** [bool(x)] of an optional list or tuple: [None] and the empty one are false. *)
Definition truthy_list {A} (o : option (list A)) : bool :=
  match o with
  | None | Some [] => false
  | Some _ => true
  end.

(** [l[-1]] *)
Definition last_item {A} (l : list A) : res A :=
  match last l with
  | Some a => Ok a
  | None => Raise (IndexError "list index out of range")
  end.

(** ** Strings *)

(** [s.split(sep)] for a separator of one character. *)
Fixpoint split (sep : ascii) (s : string) : list string :=
  match s with
  | EmptyString => [EmptyString]
  | String c s' =>
      if Ascii.eqb c sep then EmptyString :: split sep s'
      else match split sep s' with
           | [] => [String c EmptyString]
           | w :: ws => String c w :: ws
           end
  end.

(** [s.replace(a, b)] for single characters. *)
Fixpoint replace (a b : ascii) (s : string) : string :=
  match s with
  | EmptyString => EmptyString
  | String c s' => String (if Ascii.eqb c a then b else c) (replace a b s')
  end.

(** [sub in s] *)
Fixpoint contains (sub s : string) : bool :=
  String.prefix sub s
  || match s with
     | EmptyString => false
     | String _ s' => contains sub s'
     end.

(** A text between double quotes. *)
Definition quoted (s : string) : string :=
  String (ascii_of_nat 34) (s +:+ String (ascii_of_nat 34) EmptyString).

(** [sep.join(l)] *)
Fixpoint join (sep : string) (l : list string) : string :=
  match l with
  | [] => EmptyString
  | [x] => x
  | x :: l' => x +:+ sep +:+ join sep l'
  end.

Definition endswith (s suffix : string) : bool :=
  let n := String.length s in
  let m := String.length suffix in
  (m <=? n)%nat && String.eqb (String.substring (n - m) m s) suffix.

(** ** [repr(s)]

    A text is a sequence of code points below 256.  [repr] puts it between
    single quotes, or between double quotes when it has a single quote and
    no double one; the quote in use and the backslash are escaped, and so
    is every code point that is not printable: the controls, [0x7f] to
    [0xa0], and [0xad]. *)

Definition double_quote : ascii := ascii_of_nat 34.

Definition hex_digit (n : nat) : ascii :=
  nth n (String.list_ascii_of_string "0123456789abcdef") "0"%char.

Definition escaped (quote c : ascii) : string :=
  let n := nat_of_ascii c in
  if Ascii.eqb c quote || (n =? 92)%nat then String (ascii_of_nat 92) (String c EmptyString)
  else if (n =? 9)%nat then String (ascii_of_nat 92) "t"
  else if (n =? 10)%nat then String (ascii_of_nat 92) "n"
  else if (n =? 13)%nat then String (ascii_of_nat 92) "r"
  else if ((n <? 32) || (127 <=? n) && (n <=? 160) || (n =? 173))%nat
  then String (ascii_of_nat 92)
         (String "x" (String (hex_digit (n / 16)) (String (hex_digit (n mod 16)) EmptyString)))
  else String c EmptyString.

Fixpoint escape (quote : ascii) (s : string) : string :=
  match s with
  | EmptyString => EmptyString
  | String c s' => escaped quote c +:+ escape quote s'
  end.

Definition repr (s : string) : string :=
  let quote :=
    if contains "'" s && negb (contains (String double_quote EmptyString) s)
    then double_quote else "'"%char in
  String quote (escape quote s +:+ String quote EmptyString).

(** ** [int(s)]

    Decimal literals as [int] reads them from text, in CPython 3.11:
    blanks around, an optional sign, then digits, which single underscores
    may group.  The blanks are the ASCII ones, [0x09] to [0x0d] and [0x20],
    and, of the code points from 128 on, the two that count as space:
    [0x85] and [0xa0]; the separators [0x1c] to [0x1f] are no blanks to
    [int].  No code point from 128 to 255 is a decimal digit.  A literal of
    more than 4300 digits is refused with an error of its own, also when
    something that is no digit follows it. *)

Definition is_space (c : ascii) : bool :=
  let n := nat_of_ascii c in
  ((9 <=? n) && (n <=? 13) || (n =? 32) || (n =? 133) || (n =? 160))%nat.

Definition digit (c : ascii) : option Z :=
  let n := nat_of_ascii c in
  if ((48 <=? n) && (n <=? 57))%nat then Some (Z.of_nat n - 48) else None.

Fixpoint lstrip (s : string) : string :=
  match s with
  | String c s' => if is_space c then lstrip s' else s
  | EmptyString => EmptyString
  end.

Fixpoint rstrip (s : string) : string :=
  match s with
  | EmptyString => EmptyString
  | String c s' =>
      match rstrip s' with
      | EmptyString => if is_space c then EmptyString else String c EmptyString
      | t => String c t
      end
  end.

(** How the scan of a literal ends. *)
Inductive scanned :=
| Invalid
| TooLong (n : nat)
| Value (z : Z).

Definition max_str_digits : nat := 4300.

(** The scan of the digits after the sign: [acc] is the value and [n] the
    number of the digits read, [prev] tells whether the character before
    was a digit.  The run of digits and underscores is read to its end; an
    underscore needs a digit on both sides; the run is then measured, and
    only then is what follows it looked at. *)
Fixpoint digits (acc : Z) (n : nat) (prev : bool) (s : string) : scanned :=
  let finish (rest : string) :=
    if negb prev then Invalid
    else if (max_str_digits <? n)%nat then TooLong n
    else match rest with
         | EmptyString => Value acc
         | _ => Invalid
         end in
  match s with
  | EmptyString => finish s
  | String c s' =>
      if Ascii.eqb c "_" then (if prev then digits acc n false s' else Invalid)
      else match digit c with
           | Some d => digits (10 * acc + d) (S n) true s'
           | None => finish s
           end
  end.

Definition unsigned (s : string) : scanned := digits 0 0 false s.

Definition int_error (s : string) : exn :=
  ValueError ("invalid literal for int() with base 10: "
              +:+ String.substring 0 200 (repr s)).

Definition int_limit_error (n : nat) : exn :=
  ValueError ("Exceeds the limit (4300 digits) for integer string conversion: value has "
              +:+ pretty n
              +:+ " digits; use sys.set_int_max_str_digits() to increase the limit").

Definition int (s : string) : res Z :=
  let body := rstrip (lstrip s) in
  let '(negative, scan) :=
    match body with
    | String "-" t => (true, unsigned t)
    | String "+" t => (false, unsigned t)
    | _ => (false, unsigned body)
    end in
  match scan with
  | Value z => Ok (if negative then - z else z)
  | TooLong n => Raise (int_limit_error n)
  | Invalid => Raise (int_error s)
  end.

(** ** Dictionaries in insertion order

    A [dict] (and an [OrderedDict]) keeps its keys in the order they were
    first inserted; assigning to a key that is present replaces the value in
    place. *)
Section dict.
Context {K V : Type} `{EqDecision K}.

Definition dict := list (K * V).

Definition keys (d : dict) : list K := d.*1.
Definition values (d : dict) : list V := d.*2.

Fixpoint get (d : dict) (k : K) : option V :=
  match d with
  | [] => None
  | (k', v) :: d' => if decide (k' = k) then Some v else get d' k
  end.

(** [d[k] = v] *)
Fixpoint set (d : dict) (k : K) (v : V) : dict :=
  match d with
  | [] => [(k, v)]
  | (k', v') :: d' =>
      if decide (k' = k) then (k, v) :: d' else (k', v') :: set d' k v
  end.

(** [{k: v for k, v in items}] *)
Definition of_items (items : list (K * V)) : dict :=
  foldl (λ d kv, set d kv.1 kv.2) [] items.

(** The same assignments, made one after the other on a dictionary that
    already holds entries. *)
Definition fill (acc : dict) (items : list (K * V)) : dict :=
  foldl (λ d kv, set d kv.1 kv.2) acc items.
End dict.
Arguments dict : clear implicits.

End Py.


(** * [pathlib.Path] on a POSIX system

    A path is its anchor and its components; the empty and the [.]
    components of the text are dropped, [..] is kept.  A text that starts
    with exactly two slashes is read like one that starts with one. *)
Module Path.

Record t := mk { anchored : bool; parts : list string }.

#[global] Instance eq_dec : EqDecision t.
Proof. solve_decision. Defined.

Definition kept (p : string) : bool :=
  negb (String.eqb p "") && negb (String.eqb p ".").

(** [Path(s)] *)
Definition of_str (s : string) : t :=
  mk (String.prefix "/" s) (List.filter kept (Py.split "/" s)).

(** [str(p)] *)
Definition str (p : t) : string :=
  if anchored p then "/" +:+ Py.join "/" (parts p)
  else match parts p with
       | [] => "."
       | _ => Py.join "/" (parts p)
       end.

(** [p.parent] *)
Definition parent (p : t) : t :=
  match parts p with
  | [] => p
  | _ => mk (anchored p) (removelast (parts p))
  end.

(** [p.name] *)
Definition name (p : t) : string := default "" (last (parts p)).

(** [p / child] for a child of one component. *)
Definition child (p : t) (n : string) : t :=
  mk (anchored p) (parts p ++ [n]).

(** [s.rfind(c)] *)
Fixpoint rfind (c : ascii) (s : string) : option nat :=
  match s with
  | EmptyString => None
  | String d s' =>
      match rfind c s' with
      | Some i => Some (S i)
      | None => if Ascii.eqb d c then Some 0%nat else None
      end
  end.

(** [p.stem]: the name without its last suffix; a leading or a final dot
    starts no suffix. *)
Definition stem_of_name (n : string) : string :=
  match rfind "." n with
  | Some i =>
      if ((0 <? i) && (i <? String.length n - 1))%nat
      then String.substring 0 i n
      else n
  | None => n
  end.

Definition stem (p : t) : string := stem_of_name (name p).

(** ** [fnmatch] on one component

    The match of [fnmatch.translate], case included: [*] stands for any run
    of characters and [?] for one, [[...]] for one character of a class,
    and every other character for itself.  A class ends at the first [[]]]
    after its first character ([!] apart); without one the bracket stands
    for itself.  A leading [!] negates the class; [x-y] is the range from
    [x] to [y], empty when [y] comes before [x]. *)

Inductive class_item :=
| One (c : ascii)
| Range (lo hi : ascii).

Inductive token :=
| Star
| Any
| Lit (c : ascii)
| Class (negated : bool) (items : list class_item).

(** The characters up to the first [[]]], and those after it. *)
Fixpoint until_bracket (s : list ascii) : option (list ascii * list ascii) :=
  match s with
  | [] => None
  | c :: s' =>
      if Ascii.eqb c "]" then Some ([], s')
      else match until_bracket s' with
           | Some (before, after) => Some (c :: before, after)
           | None => None
           end
  end.

(** The members of a class read from left to right. *)
Fixpoint class_items (fuel : nat) (s : list ascii) : list class_item :=
  match fuel with
  | O => []
  | S fuel =>
      match s with
      | lo :: dash :: hi :: rest =>
          if Ascii.eqb dash "-" then Range lo hi :: class_items fuel rest
          else One lo :: class_items fuel (dash :: hi :: rest)
      | c :: rest => One c :: class_items fuel rest
      | [] => []
      end
  end.

(** What follows an opening bracket: the class and the rest of the
    pattern, when the bracket is closed. *)
Definition bracket (s : list ascii) : option (token * list ascii) :=
  let '(negated, s1) :=
    match s with
    | c :: s' => if Ascii.eqb c "!" then (true, s') else (false, s)
    | [] => (false, s)
    end in
  let '(first, s2) :=
    match s1 with
    | c :: s' => if Ascii.eqb c "]" then ([c], s') else ([], s1)
    | [] => ([], s1)
    end in
  match until_bracket s2 with
  | Some (before, after) =>
      let body := first ++ before in
      Some (Class negated (class_items (length body) body), after)
  | None => None
  end.

Fixpoint tokens (fuel : nat) (pat : list ascii) : list token :=
  match fuel with
  | O => []
  | S fuel =>
      match pat with
      | [] => []
      | c :: rest =>
          if Ascii.eqb c "*" then Star :: tokens fuel rest
          else if Ascii.eqb c "?" then Any :: tokens fuel rest
          else if Ascii.eqb c "[" then
            match bracket rest with
            | Some (cls, after) => cls :: tokens fuel after
            | None => Lit c :: tokens fuel rest
            end
          else Lit c :: tokens fuel rest
      end
  end.

Definition in_item (c : ascii) (i : class_item) : bool :=
  match i with
  | One d => Ascii.eqb c d
  | Range lo hi =>
      ((nat_of_ascii lo <=? nat_of_ascii c) && (nat_of_ascii c <=? nat_of_ascii hi))%nat
  end.

Definition matches_one (t : token) (c : ascii) : bool :=
  match t with
  | Star => false
  | Any => true
  | Lit d => Ascii.eqb d c
  | Class negated items => xorb negated (existsb (in_item c) items)
  end.

Fixpoint fnmatch_tokens (pat : list token) (name : list ascii) : bool :=
  match pat with
  | [] => match name with [] => true | _ => false end
  | Star :: pat' =>
      (fix star (n : list ascii) : bool :=
         fnmatch_tokens pat' n
         || match n with
            | [] => false
            | _ :: n' => star n'
            end) name
  | t :: pat' =>
      match name with
      | [] => false
      | c :: name' => matches_one t c && fnmatch_tokens pat' name'
      end
  end.

Definition fnmatch (pat name : string) : bool :=
  let p := String.list_ascii_of_string pat in
  fnmatch_tokens (tokens (length p) p) (String.list_ascii_of_string name).

(** A component as [of_str] keeps it: without a separator in it, neither
    empty nor [.]. *)
Definition component (s : string) : Prop :=
  Py.split "/" s = [s] ∧ kept s = true.

(** A path as [of_str] makes it. *)
Definition well_formed (p : t) : Prop := Forall component (parts p).

End Path.

(** * The [os] module and the file system *)
Module Os.

(** The directories and the files that exist, each under the text of its
    path, a file with a description of its content. *)
Record FileSystem := mkfs {
  directories : list string;
  files : list (string * string)
}.

(** The members of [os] the source reads. *)
Inductive member := path | makedirs.

(** [os.<name>], for the names the source reads from the module: [path]
    and [makedirs] are members of [os]; [isdir] is a member of [os.path]
    and not of [os]. *)
Definition getattr (name : string) : Py.res member :=
  if String.eqb name "path" then Py.Ok path
  else if String.eqb name "makedirs" then Py.Ok makedirs
  else Py.Raise (Py.AttributeError ("module 'os' has no attribute '" +:+ name +:+ "'")).

(** [os.path.join(a, b)] *)
Definition path_join (a b : string) : string :=
  if String.prefix "/" b then b
  else if String.eqb a "" || Py.endswith a "/" then a +:+ b
  else a +:+ "/" +:+ b.

(** [os.path.isdir(p)] *)
Definition path_isdir (fs : FileSystem) (p : string) : bool :=
  bool_decide (Path.str (Path.of_str p) ∈ directories fs).

(** The entries of a directory, in the order the file system lists them. *)
Definition listdir (fs : FileSystem) (d : Path.t) : list string :=
  omap (λ p, let q := Path.of_str p in
             if bool_decide (Path.parts q ≠ [] ∧ Path.parent q = d)
             then Some (Path.name q) else None)
       (directories fs ++ (files fs).*1).

(** [p.is_dir()], and whether [p] is a regular file *)
Definition is_dir (fs : FileSystem) (p : Path.t) : bool :=
  bool_decide (Path.str p ∈ directories fs).

Definition is_file (fs : FileSystem) (p : Path.t) : bool :=
  bool_decide (Path.str p ∈ (files fs).*1).

(** [p.exists()] *)
Definition exists_ (fs : FileSystem) (p : Path.t) : bool :=
  is_dir fs p || is_file fs p.

(** ** [Path.glob], as [pathlib] of Python 3.11 has it

    Symbolic links and [..] are not modelled: the file system lists
    neither. *)

(** The components of a pattern; a pattern that ends in a slash gets an
    empty one at its end. *)
Definition pattern_parts (pattern : string) : list string :=
  Path.parts (Path.of_str pattern)
  ++ (if Py.endswith pattern "/" then [EmptyString] else []).

(** What [glob] raises for a pattern before it looks at the file system:
    the empty pattern and the absolute ones are refused, a pattern without
    components fails where its first component is read, [**] may only be a
    whole component, and a pattern that is only a slash after dots selects
    with an object that cannot. *)
Definition glob_error (pattern : string) : option Py.exn :=
  if String.eqb pattern "" then Some (Py.ValueError "Unacceptable pattern: ''")
  else if String.prefix "/" pattern
  then Some (Py.NotImplementedError "Non-relative patterns are unsupported")
  else
    match pattern_parts pattern with
    | [] => Some (Py.IndexError "tuple index out of range")
    | [EmptyString] =>
        Some (Py.AttributeError
                "'_TerminatingSelector' object has no attribute 'select_from'")
    | parts =>
        if existsb (λ pat, Py.contains "**" pat && negb (String.eqb pat "**")) parts
        then Some (Py.ValueError
                     "Invalid pattern: '**' can only be an entire path component")
        else None
    end.

(** Whether a component is matched against the entries of a directory,
    or looked up by its name. *)
Definition is_wildcard_pattern (pat : string) : bool :=
  Py.contains "*" pat || Py.contains "?" pat || Py.contains "[" pat.

(** The directory [d] and the directories below it, each before the ones
    it holds.  A chain of directories one in the other has at most as many
    members as the file system lists directories, which is the depth the
    descent is given. *)
Fixpoint iterate_directories (depth : nat) (fs : FileSystem) (d : Path.t) : list Path.t :=
  d :: match depth with
       | O => []
       | S depth =>
           List.filter (is_dir fs) (Path.child d <$> listdir fs d)
             ≫= iterate_directories depth fs
       end.

(** The paths in the order they come, each once. *)
Definition first_occurrences (l : list Path.t) : list Path.t :=
  foldl (λ seen p, if bool_decide (p ∈ seen) then seen else seen ++ [p]) [] l.

(** The selectors of the components [parts], run from the directory [d]. *)
Fixpoint select (fs : FileSystem) (parts : list string) (d : Path.t) : list Path.t :=
  match parts with
  | [] => [d]
  | pat :: rest =>
      if String.eqb pat "" then [d]
      else
        let dironly := match rest with [] => false | _ => true end in
        if String.eqb pat "**" then
          first_occurrences
            (iterate_directories (length (directories fs)) fs d ≫= select fs rest)
        else if is_wildcard_pattern pat then
          List.filter (λ name, (negb dironly || is_dir fs (Path.child d name))
                               && Path.fnmatch pat name)
                      (listdir fs d)
            ≫= (λ name, select fs rest (Path.child d name))
        else
          let path := Path.child d pat in
          if (if dironly then is_dir fs path else exists_ fs path)
          then select fs rest path
          else []
  end.

(** [list(Path(d).glob(pattern))]: the paths found, none when [d] is no
    directory. *)
Definition glob (fs : FileSystem) (d : Path.t) (pattern : string) : Py.res (list Path.t) :=
  match glob_error pattern with
  | Some e => Py.Raise e
  | None =>
      Py.Ok (if path_isdir fs (Path.str d) then select fs (pattern_parts pattern) d else [])
  end.

(** ** [os.makedirs] *)

(** [os.mkdir(p)]: [p] must not exist, and the directory it lies in must
    be one; the root and the working directory, the paths without
    components, are there. *)
Definition mkdir (fs : FileSystem) (p : Path.t) : FileSystem * option Py.oserror :=
  let s := Path.str p in
  let up := Path.parent p in
  if exists_ fs p then (fs, Some (Py.FileExistsError s))
  else if is_file fs up then (fs, Some (Py.NotADirectoryError s))
  else if match Path.parts up with [] => false | _ => negb (is_dir fs up) end
  then (fs, Some (Py.FileNotFoundError s))
  else (mkfs (directories fs ++ [s]) (files fs), None).

(** [os.makedirs(name, exist_ok=True)] for the path of the first [n]
    components of [p]: the directory above is made first when it does not
    exist, an error of it other than [FileExistsError] leaves the call,
    then the directory itself is made, and the error of that is passed
    over when the path is a directory. *)
Fixpoint makedirs_upto (fs : FileSystem) (p : Path.t) (n : nat)
  : FileSystem * option Py.oserror :=
  match n with
  | O => (fs, None)
  | S m =>
      let name := Path.mk (Path.anchored p) (take (S m) (Path.parts p)) in
      let head := Path.mk (Path.anchored p) (take m (Path.parts p)) in
      let '(fs, above) :=
        if (0 <? m)%nat && negb (exists_ fs head)
        then makedirs_upto fs p m else (fs, None) in
      match above with
      | Some (Py.FileExistsError _) | None =>
          match mkdir fs name with
          | (fs, Some e) => if is_dir fs name then (fs, None) else (fs, Some e)
          | (fs, None) => (fs, None)
          end
      | Some e => (fs, Some e)
      end
  end.

(** [os.makedirs(p, exist_ok=True)] *)
Definition makedirs_exist_ok (fs : FileSystem) (p : string)
  : FileSystem * option Py.oserror :=
  makedirs_upto fs (Path.of_str p) (length (Path.parts (Path.of_str p))).

(** The file system with the file [p] created or replaced. *)
Definition imsave (fs : FileSystem) (p : string) (image : string) : FileSystem :=
  mkfs (directories fs) (Py.set (files fs) (Path.str (Path.of_str p)) image).

(** Opening [p] for writing and writing [content], as [to_csv] and
    [tifffile.imsave] do: [p] must not be a directory, and the directory
    it lies in must be one. *)
Definition write_file (fs : FileSystem) (p : string) (content : string)
  : FileSystem * option Py.oserror :=
  let up := Path.parent (Path.of_str p) in
  if path_isdir fs p then (fs, Some (Py.IsADirectoryError p))
  else if path_isdir fs (Path.str up)
  then (imsave fs p content, None)
  else if is_file fs up then (fs, Some (Py.NotADirectoryError p))
  else (fs, Some (Py.FileNotFoundError p)).

End Os.

(** * [pandas.DataFrame]

    A table is its column labels and its rows, each row under its index
    label with one value per column.  The operations follow the documented
    behaviour of the library for the calls the source makes. *)
Module Frame.

Inductive value :=
| VInt (z : Z)
| VStr (s : string)
| NaN.

#[global] Instance value_eq_dec : EqDecision value.
Proof. solve_decision. Defined.

Definition row : Type := Z * list value.

Record t := mk { columns : list string; rows : list row }.

#[global] Instance eq_dec : EqDecision t.
Proof. solve_decision. Defined.

(** Every row has one value per column. *)
Definition aligned (df : t) : Prop :=
  Forall (λ r : row, length r.2 = length (columns df)) (rows df).

(** A table as the library builds it from named measurements: distinct
    labels, aligned rows. *)
Definition well_formed (df : t) : Prop := NoDup (columns df) ∧ aligned df.

#[global] Instance well_formed_dec df : Decision (well_formed df).
Proof. unfold well_formed, aligned. apply _. Defined.

(** The value of a row under a label: the first column of that label. *)
Fixpoint cell (cols : list string) (vals : list value) (c : string) : value :=
  match cols, vals with
  | col :: cols', v :: vals' => if bool_decide (col = c) then v else cell cols' vals' c
  | _, _ => NaN
  end.

Fixpoint assign (cols : list string) (vals : list value) (c : string) (v : value)
  : list value :=
  match cols, vals with
  | col :: cols', x :: vals' =>
      (if bool_decide (col = c) then v else x) :: assign cols' vals' c v
  | _, _ => vals
  end.

(** [df[c] = v] for a scalar [v]: the column is overwritten where it
    exists and added as the last one where it does not. *)
Definition set_column (df : t) (c : string) (v : value) : t :=
  if bool_decide (c ∈ columns df)
  then mk (columns df) ((λ r : row, (r.1, assign (columns df) r.2 c v)) <$> rows df)
  else mk (columns df ++ [c]) ((λ r : row, (r.1, r.2 ++ [v])) <$> rows df).

Fixpoint without (cols : list string) (vals : list value) (labels : list string)
  : list value :=
  match cols, vals with
  | col :: cols', x :: vals' =>
      if bool_decide (col ∈ labels) then without cols' vals' labels
      else x :: without cols' vals' labels
  | _, _ => []
  end.

(** [df.drop(columns=labels)]: a new table; a label that names no column
    is a [KeyError]. *)
Definition drop (df : t) (labels : list string) : Py.res t :=
  match List.find (λ l, negb (bool_decide (l ∈ columns df))) labels with
  | Some l => Py.Raise (Py.KeyError ("['" +:+ l +:+ "'] not found in axis"))
  | None =>
      Py.Ok (mk (List.filter (λ c, negb (bool_decide (c ∈ labels))) (columns df))
                ((λ r : row, (r.1, without (columns df) r.2 labels)) <$> rows df))
  end.

(** [df.add_suffix(s)]: a new table with every label extended. *)
Definition add_suffix (df : t) (s : string) : t :=
  mk ((λ c, c +:+ s) <$> columns df) (rows df).

(** The labels of several tables, each once, in the order they first appear. *)
Definition union_columns (objs : list t) : list string :=
  foldl (λ acc df, acc ++ List.filter (λ c, negb (bool_decide (c ∈ acc))) (columns df))
        [] objs.

Definition reindex (cols : list string) (df : t) : list row :=
  (λ r : row, (r.1, cell (columns df) r.2 <$> cols)) <$> rows df.

(** [pd.concat(objs)]: the rows of the tables one after the other.  Tables
    of the same columns are stacked as they are; otherwise every table is
    laid out on the union of the columns, which needs the labels of each
    table to be distinct. *)
Definition concat (objs : list t) : Py.res t :=
  match objs with
  | [] => Py.Raise (Py.ValueError "No objects to concatenate")
  | df :: rest =>
      if forallb (λ d, bool_decide (columns d = columns df)) rest
      then Py.Ok (mk (columns df) (objs ≫= rows))
      else if forallb (λ d, bool_decide (NoDup (columns d))) objs
      then Py.Ok (mk (union_columns objs) (objs ≫= reindex (union_columns objs)))
      else Py.Raise (Py.ValueError "Reindexing only valid with uniquely valued Index objects")
  end.

Definition index_le (r1 r2 : row) : Prop := r1.1 ≤ r2.1.

#[global] Instance index_le_dec : RelDecision index_le.
Proof. intros r1 r2. unfold index_le. apply _. Defined.

(** [df.sort_index()]: the rows in the order of their index labels.  The
    library leaves the order of rows of one label open; here it is the one
    a merge sort gives them. *)
Definition sort_index (df : t) : t :=
  mk (columns df) (merge_sort index_le (rows df)).

(** [pd.merge(l, r, how='left', left_index=True, right_index=True)]: every
    row of [l], in order, once with each row of [r] of its label, or with
    blanks when there is none; a label both tables have gets [_x] on the
    left and [_y] on the right. *)
Definition merge_left (l r : t) : t :=
  let both c := bool_decide (c ∈ columns l) && bool_decide (c ∈ columns r) in
  mk (((λ c, if both c then c +:+ "_x" else c) <$> columns l)
      ++ ((λ c, if both c then c +:+ "_y" else c) <$> columns r))
     (rows l ≫= λ lr : row,
        match List.filter (λ rr : row, bool_decide (rr.1 = lr.1)) (rows r) with
        | [] => [(lr.1, lr.2 ++ replicate (length (columns r)) NaN)]
        | hits => (λ rr : row, (lr.1, lr.2 ++ rr.2)) <$> hits
        end).

Definition index_unique (df : t) : bool := bool_decide (NoDup (rows df).*1).

(** [df.join(others, how='left', lsuffix=..., rsuffix=...)] for a list of
    tables, as [pandas] has it from version 1.5 on: a suffix is refused for
    a list, before a table is looked at.  Without suffixes the join is on
    the index: when every index is unique the tables are put side by side,
    which refuses a label that occurs twice; otherwise they are merged one
    after the other. *)
Definition join_left (df : t) (others : list t) (lsuffix rsuffix : string) : Py.res t :=
  if Py.truthy_str (Some rsuffix) || Py.truthy_str (Some lsuffix)
  then Py.Raise (Py.ValueError "Suffixes not supported when joining multiple DataFrames")
  else if forallb index_unique (df :: others)
          && negb (bool_decide (NoDup ((df :: others) ≫= columns)))
  then Py.Raise (Py.ValueError "Indexes have overlapping values")
  else Py.Ok (foldl merge_left df others).

(** The text [df.to_csv(path, compression='bz2')] writes. *)
Class Writer := { csv_bz2 : t → string }.

End Frame.

(** * The collaborators: [experiment.Device] and [chip.ChipImage] *)
Module Chip.

Record Device := mkDevice {
  setup : string;
  dname : string;
  corners : list (Z * Z);
  pinlist : list string
}.

(** [ChipImage(device, raster, ids, corners, pinlist, channel, exposure)]:
    the object as its constructor received it. *)
Record ChipImage := mk {
  device : Device;
  data_ref : Path.t;
  ids : list (string * Z);
  image_corners : list (Z * Z);
  image_pinlist : list string;
  channel : string;
  exposure : Z
}.

(** What the source asks of a chip image besides its fields: the table
    [summarize()] returns and the picture [summary_image(featuretype)]
    renders. *)
Class Library := {
  chip_summarize : ChipImage → Frame.t;
  summary_image : ChipImage → string → string
}.

(** The calls that change a chip image, on the chip named by [H]. *)
Inductive call (H : Type) :=
| Stamp (target : H)
| FindButtons (target : H)
| FindChambers (target : H)
| MapTo (reference target : H) (kwargs : list (string * string)).
Arguments Stamp {H} target.
Arguments FindButtons {H} target.
Arguments FindChambers {H} target.
Arguments MapTo {H} reference target kwargs.

#[global] Instance device_eq_dec : EqDecision Device.
Proof. solve_decision. Defined.

#[global] Instance image_eq_dec : EqDecision ChipImage.
Proof. solve_decision. Defined.

#[global] Instance call_eq_dec `{EqDecision H} : EqDecision (call H).
Proof. solve_decision. Defined.

End Chip.

(** * Outcomes of the methods that write files *)
Module Io.

(** How such a call ends: it returns, or an exception of the program or an
    error of the operating system leaves it. *)
Inductive outcome :=
| Returned
| Raised (e : Py.exn)
| Failed (e : Py.oserror).

(** [os.path.join(target, fn)] for a target that may be [None]. *)
Definition join_target (target : option string) (fn : string) : Py.res string :=
  match target with
  | Some t => Py.Ok (Os.path_join t fn)
  | None =>
      Py.Raise (Py.TypeError "expected str, bytes or os.PathLike object, not NoneType")
  end.

(** [df.to_csv(os.path.join(target, fn), compression='bz2')] *)
Definition to_csv `{Frame.Writer} (fs : Os.FileSystem) (target : option string)
    (fn : string) (df : Frame.t) : Os.FileSystem * outcome :=
  match join_target target fn with
  | Py.Raise e => (fs, Raised e)
  | Py.Ok p =>
      match Os.write_file fs p (Frame.csv_bz2 df) with
      | (fs, None) => (fs, Returned)
      | (fs, Some e) => (fs, Failed e)
      end
  end.

End Io.

(** * The names a function of the module can read

    A name that is neither a parameter nor assigned in a function body is
    looked up among the names bound at the top of [chipcollections.py],
    then among the builtins. *)
Module Globals.

Inductive object :=
| Module_ (name : string)
| Class_ (name : string)
| Function_ (name : string)
| Text (s : string).

(** The imports and the classes of the file, and what every module holds. *)
Definition module_globals : list (string * object) :=
  [ ("__name__", Text "chipcollections"); ("__doc__", Text "");
    ("__package__", Text ""); ("__loader__", Text "");
    ("__spec__", Text ""); ("__file__", Text "chipcollections.py");
    ("__cached__", Text ""); ("__builtins__", Module_ "builtins");
    ("os", Module_ "os"); ("logging", Module_ "logging");
    ("glob", Function_ "glob.glob"); ("Path", Class_ "pathlib.Path");
    ("namedtuple", Function_ "collections.namedtuple");
    ("OrderedDict", Class_ "collections.OrderedDict");
    ("pd", Module_ "pandas"); ("tqdm", Class_ "tqdm.tqdm");
    ("external", Module_ "skimage.external");
    ("ChipImage", Class_ "chip.ChipImage");
    ("ChipSeries", Class_ "ChipSeries");
    ("StandardSeries", Class_ "StandardSeries");
    ("Timecourse", Class_ "Timecourse"); ("Titration", Class_ "Titration");
    ("ChipQuant", Class_ "ChipQuant"); ("Assay", Class_ "Assay");
    ("TurnoverAssay", Class_ "TurnoverAssay");
    ("AssaySeries", Class_ "AssaySeries") ].

(** The names of the [builtins] module of Python 3.6. *)
Definition builtins : list string :=
  [ "ArithmeticError"; "AssertionError"; "AttributeError"; "BaseException";
    "BlockingIOError"; "BrokenPipeError"; "BufferError"; "BytesWarning";
    "ChildProcessError"; "ConnectionAbortedError"; "ConnectionError";
    "ConnectionRefusedError"; "ConnectionResetError"; "DeprecationWarning";
    "EOFError"; "Ellipsis"; "EnvironmentError"; "Exception"; "False";
    "FileExistsError"; "FileNotFoundError"; "FloatingPointError";
    "FutureWarning"; "GeneratorExit"; "IOError"; "ImportError";
    "ImportWarning"; "IndentationError"; "IndexError"; "InterruptedError";
    "IsADirectoryError"; "KeyError"; "KeyboardInterrupt"; "LookupError";
    "MemoryError"; "ModuleNotFoundError"; "NameError"; "None";
    "NotADirectoryError"; "NotImplemented"; "NotImplementedError"; "OSError";
    "OverflowError"; "PendingDeprecationWarning"; "PermissionError";
    "ProcessLookupError"; "RecursionError"; "ReferenceError";
    "ResourceWarning"; "RuntimeError"; "RuntimeWarning";
    "StopAsyncIteration"; "StopIteration"; "SyntaxError"; "SyntaxWarning";
    "SystemError"; "SystemExit"; "TabError"; "TimeoutError"; "True";
    "TypeError"; "UnboundLocalError"; "UnicodeDecodeError";
    "UnicodeEncodeError"; "UnicodeError"; "UnicodeTranslateError";
    "UnicodeWarning"; "UserWarning"; "ValueError"; "Warning";
    "ZeroDivisionError"; "__build_class__"; "__debug__"; "__doc__";
    "__import__"; "__loader__"; "__name__"; "__package__"; "__spec__";
    "abs"; "all"; "any"; "ascii"; "bin"; "bool"; "bytearray"; "bytes";
    "callable"; "chr"; "classmethod"; "compile"; "complex"; "copyright";
    "credits"; "delattr"; "dict"; "dir"; "divmod"; "enumerate"; "eval";
    "exec"; "exit"; "filter"; "float"; "format"; "frozenset"; "getattr";
    "globals"; "hasattr"; "hash"; "help"; "hex"; "id"; "input"; "int";
    "isinstance"; "issubclass"; "iter"; "len"; "license"; "list"; "locals";
    "map"; "max"; "memoryview"; "min"; "next"; "object"; "oct"; "open";
    "ord"; "pow"; "print"; "property"; "quit"; "range"; "repr"; "reversed";
    "round"; "set"; "setattr"; "slice"; "sorted"; "staticmethod"; "str";
    "sum"; "super"; "tuple"; "type"; "vars"; "zip" ].

(** Reading a global name. *)
Definition load_global (name : string) : Py.res object :=
  match Py.get module_globals name with
  | Some o => Py.Ok o
  | None =>
      if bool_decide (name ∈ builtins) then Py.Ok (Function_ ("builtins." +:+ name))
      else Py.Raise (Py.NameError ("name '" +:+ name +:+ "' is not defined"))
  end.

(** [str(o)] *)
Definition str (o : object) : string :=
  match o with
  | Module_ n => "<module '" +:+ n +:+ "'>"
  | Class_ n => "<class '" +:+ n +:+ "'>"
  | Function_ n => "<function " +:+ n +:+ ">"
  | Text s => s
  end.

End Globals.

(** * [ChipSeries] and the classes derived from it *)
Module ChipSeries.

(** The class an object was made by. *)
Inductive kind := Plain | Standard | Time | Titr.

Record t := mk {
  cls : kind;
  device : Chip.Device;
  attrs : option (list (string * string));
  series_indexer : string;
  description : string;
  chips : option (Py.dict Z Chip.ChipImage);
  series_root : option string
}.

Definition set_chips (self : t) (c : option (Py.dict Z Chip.ChipImage)) : t :=
  mk (cls self) (device self) (attrs self) (series_indexer self)
     (description self) c (series_root self).

Definition set_series_root (self : t) (r : option string) : t :=
  mk (cls self) (device self) (attrs self) (series_indexer self)
     (description self) (chips self) r.

(** [ChipSeries.__init__(self, device, series_index, attrs)] (lines 27-47),
    run for the class [c]: [description] is no parameter of it and is assigned nowhere
    in its body, so the fourth assignment reads a global name. *)
Definition __init__ (c : kind) (device : Chip.Device) (series_index : string)
    (attrs : option (list (string * string))) : Py.res t :=
  description ← Globals.load_global "description";
  Py.Ok (mk c device attrs series_index (Globals.str description) (Some []) None).

Definition default_glob : string := "*StitchedImg*.tif".

(** The key of a file: the text after the last underscore of its stem, as
    an integer. *)
Definition index_of (path : Path.t) : Py.res Z :=
  Py.last_item (Py.split "_" (Path.stem path)) ≫= Py.int.

Definition new_chip (self : t) (identifier : Z) (source : Path.t)
    (channel : string) (exposure : Z) : Chip.ChipImage :=
  Chip.mk (device self) source [(series_indexer self, identifier)]
          (Chip.corners (device self)) (Chip.pinlist (device self))
          channel exposure.

(** [add_file(self, identifier, path, channel, exposure)] (lines 50-68) *)
Definition add_file (self : t) (identifier : Z) (path channel : string)
    (exposure : Z) : t * Py.res unit :=
  match chips self with
  | None =>
      (self, Py.Raise (Py.TypeError "'NoneType' object does not support item assignment"))
  | Some d =>
      (set_chips self
         (Some (Py.set d identifier
                  (new_chip self identifier (Path.of_str path) channel exposure))),
       Py.Ok ())
  end.

(** [load_files(self, root, channel, exposure, indexes, custom_glob)]
    (lines 71-102): the object after the call and the outcome. *)
Definition load_files (fs : Os.FileSystem) (self : t) (root channel : string)
    (exposure : Z) (indexes : option (list Z)) (custom_glob : option string)
  : t * Py.res unit :=
  let self := set_series_root self (Some root) in
  let glob_pattern :=
    if Py.truthy_str custom_glob then default "" custom_glob else default_glob in
  if negb (Py.truthy_list indexes) then
    let r := Path.of_str root in
    match Os.glob fs r glob_pattern with
    | Py.Raise e => (self, Py.Raise e)
    | Py.Ok found =>
        let img_files :=
          List.filter (λ i, negb (Py.contains "ChamberBorders" (Path.stem i))
                            || Py.contains "Summary" (Path.stem i))
                      found in
        let img_paths :=
          (λ img, Path.of_str (Os.path_join (Path.str (Path.parent r)) (Path.str img)))
            <$> img_files in
        match mapM (λ path, k ← index_of path; Py.Ok (k, path)) img_paths with
        | Py.Raise e => (self, Py.Raise e)
        | Py.Ok items =>
            let record := Py.of_items items in
            (set_chips self
               (Some (Py.of_items
                        (List.map
                           (λ '(identifier, source),
                              (identifier, new_chip self identifier source channel exposure))
                           record))),
             Py.Ok ())
        end
    end
  else (self, Py.Ok ()).

(** [summarize(self)] (lines 105-123) *)
Definition summarize `{Chip.Library} (self : t) : Py.res Frame.t :=
  match chips self with
  | None => Py.Raise (Py.AttributeError "'NoneType' object has no attribute 'items'")
  | Some d =>
      let summaries :=
        List.map
          (λ '(i, r), Frame.set_column (Chip.chip_summarize r) (series_indexer self)
                                       (Frame.VInt i)) d in
      Frame.sort_index <$> Frame.concat summaries
  end.

(** What the summary of a series is said to hold for the row [r] of the
    summary [src] of the chip under the key [i], laid out on the columns
    [cols]: the key in the column of the indexer, the values of [r] in the
    other columns. *)
Definition stamped_row (indexer : string) (cols : list string) (i : Z)
    (src : Frame.t) (r : Frame.row) : Frame.row :=
  (r.1, (λ col, if bool_decide (col = indexer) then Frame.VInt i
                else Frame.cell (Frame.columns src) r.2 col) <$> cols).

(** The local [img_paths] of [load_files] (lines 89-96): the files of
    [root] the pattern finds and the filter on [ChamberBorders] keeps, each
    joined to the parent of [root] again; none when the pattern is
    refused. *)
Definition img_paths (fs : Os.FileSystem) (root : string) (custom_glob : option string)
  : list Path.t :=
  let glob_pattern :=
    if Py.truthy_str custom_glob then default "" custom_glob else default_glob in
  let r := Path.of_str root in
  match Os.glob fs r glob_pattern with
  | Py.Raise _ => []
  | Py.Ok found =>
      let img_files :=
        List.filter (λ i, negb (Py.contains "ChamberBorders" (Path.stem i))
                          || Py.contains "Summary" (Path.stem i))
                    found in
      (λ img, Path.of_str (Os.path_join (Path.str (Path.parent r)) (Path.str img)))
        <$> img_files
  end.

(** The name of the summary file: [dname_description_kind.csv.bz2]. *)
Definition summary_name (self : t) (kind : string) : string :=
  Chip.dname (device self) +:+ "_" +:+ description self +:+ "_" +:+ kind +:+ ".csv.bz2".

(** [ChipSeries.save_summary(self, outPath)] (lines 157-174) and
    [StandardSeries.save_summary(self, outPath)] (lines 343-361), which
    differ in the [kind] of the file name: the file system after the call
    and the outcome. *)
Definition save_summary_as `{Chip.Library} `{Frame.Writer} (kind : string) (self : t)
    (outPath : option string) (fs : Os.FileSystem) : Os.FileSystem * Io.outcome :=
  let target := if Py.truthy_str outPath then outPath else series_root self in
  match summarize self with
  | Py.Raise e => (fs, Io.Raised e)
  | Py.Ok df => Io.to_csv fs target (summary_name self kind) df
  end.

(** The file [save_summary_images] writes for one chip under [target]. *)
Definition summary_image_path (target : string) (c : Chip.ChipImage) : string :=
  Os.path_join target ("Summary" +:+ "_" +:+ Path.stem (Chip.data_ref c) +:+ ".tif").

(** The loop of [save_summary_images] over the chips. *)
Fixpoint save_images `{Chip.Library} (target featuretype : string)
    (cs : list Chip.ChipImage) (fs : Os.FileSystem) : Os.FileSystem * Py.res unit :=
  match cs with
  | [] => (fs, Py.Ok ())
  | c :: cs =>
      match Os.write_file fs (summary_image_path target c)
                          (Chip.summary_image c featuretype) with
      | (fs, Some e) => (fs, Py.Raise (Py.OSError e))
      | (fs, None) => save_images target featuretype cs fs
      end
  end.

(** [save_summary_images(self, outPath, featuretype)] (lines 177-200): the
    file system after the call and the outcome. *)
Definition save_summary_images `{Chip.Library} (self : t) (outPath : option string)
    (featuretype : string) (fs : Os.FileSystem) : Os.FileSystem * Py.res unit :=
  let target_root := if Py.truthy_str outPath then outPath else series_root self in
  match target_root with
  | None =>
      (fs, Py.Raise (Py.TypeError "expected str, bytes or os.PathLike object, not NoneType"))
  | Some target_root =>
      let target := Os.path_join target_root "SummaryImages" in
      match Os.makedirs_exist_ok fs target with
      | (fs, Some e) => (fs, Py.Raise (Py.OSError e))
      | (fs, None) =>
          match chips self with
          | None =>
              (fs, Py.Raise (Py.AttributeError "'NoneType' object has no attribute 'values'"))
          | Some d => save_images target featuretype (Py.values d) fs
          end
      end
  end.

(** The keys of the chips of a series, as a set. *)
Definition key_set (self : t) : gset Z :=
  list_to_set (Py.keys (default [] (chips self))).

End ChipSeries.

Module StandardSeries.

(** [StandardSeries.__init__(self, device, description, attrs)] (lines 243-263) *)
Definition __init__ (device : Chip.Device) (description : string)
    (attrs : option (list (string * string))) : ChipSeries.t :=
  ChipSeries.mk ChipSeries.Standard device attrs "concentration_uM" description
                None None.

(** [get_hs_key(self)] (lines 265-266): [max(self.chips.keys())] *)
Definition get_hs_key (self : ChipSeries.t) : Py.res Z :=
  match ChipSeries.chips self with
  | None => Py.Raise (Py.AttributeError "'NoneType' object has no attribute 'keys'")
  | Some d =>
      match Py.keys d with
      | [] => Py.Raise (Py.ValueError "max() arg is an empty sequence")
      | k :: ks => Py.Ok (foldl Z.max k ks)
      end
  end.

(** [get_highstandard(self)] (lines 268-281): the chip under the greatest key, named here by
    that key. *)
Definition get_highstandard (self : ChipSeries.t) : Py.res Z :=
  k ← get_hs_key self;
  match ChipSeries.chips self ≫= λ d, Py.get d k with
  | Some _ => Py.Ok k
  | None => Py.Raise (Py.KeyError (pretty k))
  end.

(** [map_from_hs(self, mapto_args)] (lines 284-303): the calls made on the chips, each
    chip named by its key, and the outcome. *)
Definition map_from_hs (self : ChipSeries.t) (mapto_args : list (string * string))
  : list (Chip.call Z) * Py.res unit :=
  match get_hs_key self with
  | Py.Raise e => ([], Py.Raise e)
  | Py.Ok k =>
      let reference_key : gset Z := {[ k ]} in
      let all_keys : gset Z :=
        list_to_set (Py.keys (default [] (ChipSeries.chips self))) in
      match get_highstandard self with
      | Py.Raise e => ([], Py.Raise e)
      | Py.Ok hs =>
          (elements (all_keys ∖ reference_key)
             ≫= (λ key, [Chip.Stamp key; Chip.MapTo hs key mapto_args]),
           Py.Ok ())
      end
  end.

(** [process(self, featuretype)] (lines 306-323) *)
Definition process (self : ChipSeries.t) (featuretype : string)
  : list (Chip.call Z) * Py.res unit :=
  match get_highstandard self with
  | Py.Raise e => ([], Py.Raise e)
  | Py.Ok hs =>
      let '(calls, r) := map_from_hs self [("features", featuretype)] in
      ([Chip.Stamp hs; Chip.FindChambers hs] ++ calls, r)
  end.

End StandardSeries.

Module Timecourse.

(** [Timecourse.__init__(self, device, description, attrs)] (lines 366-386) *)
Definition __init__ (device : Chip.Device) (description : string)
    (attrs : option (list (string * string))) : ChipSeries.t :=
  ChipSeries.mk ChipSeries.Time device attrs "time_s" description None None.

(** [Timecourse.save_summary(self, outPath)] (lines 424-441): the test of
    the directory is written [os.isdir(outPath)], and is reached for a
    truthy [outPath] only. *)
Definition save_summary `{Chip.Library} `{Frame.Writer} (self : ChipSeries.t)
    (outPath : option string) (fs : Os.FileSystem) : Os.FileSystem * Io.outcome :=
  let chosen : Py.res (option string) :=
    if Py.truthy_str outPath then
      _ ← Os.getattr "isdir";
      Py.Ok (if Os.path_isdir fs (default "" outPath) then outPath
             else ChipSeries.series_root self)
    else Py.Ok (ChipSeries.series_root self) in
  match chosen with
  | Py.Raise e => (fs, Io.Raised e)
  | Py.Ok target =>
      match ChipSeries.summarize self with
      | Py.Raise e => (fs, Io.Raised e)
      | Py.Ok df => Io.to_csv fs target (ChipSeries.summary_name self "Timecourse") df
      end
  end.

End Timecourse.

Module Titration.

(** The class has no body of its own (lines 445-447): its constructor is
    the inherited one. *)
Definition __init__ : Chip.Device → string → option (list (string * string))
                      → Py.res ChipSeries.t :=
  ChipSeries.__init__ ChipSeries.Titr.

End Titration.

(** * [ChipQuant] *)
Module ChipQuant.

Record t := mk {
  device : Chip.Device;
  description : string;
  attrs : option (list (string * string));
  chip : option Chip.ChipImage;
  processed : bool
}.

(** [ChipQuant.__init__(self, device, description, attrs)] (lines 452-471) *)
Definition __init__ (device : Chip.Device) (description : string)
    (attrs : option (list (string * string))) : t :=
  mk device description attrs None false.

(** [load_file(self, path, channel, exposure)] (lines 474-491) *)
Definition load_file (self : t) (path channel : string) (exposure : Z) : t :=
  mk (device self) (description self) (attrs self)
     (Some (Chip.mk (device self) (Path.of_str path) []
                    (Chip.corners (device self)) (Chip.pinlist (device self))
                    channel exposure))
     (processed self).

(** [process(self, reference, mapped_features)] (lines 494-522): the object after the call,
    the calls made on chips, and the outcome. *)
Definition process (self : t) (reference : option Chip.ChipImage)
    (mapped_features : string)
  : t * list (Chip.call Chip.ChipImage) * Py.res unit :=
  match chip self with
  | None =>
      (self, [], Py.Raise (Py.AttributeError "'NoneType' object has no attribute 'stamp'"))
  | Some c =>
      let done calls :=
        (mk (device self) (description self) (attrs self) (chip self) true,
         Chip.Stamp c :: calls, Py.Ok ()) in
      match reference with
      | None =>
          if String.eqb mapped_features "button" then done [Chip.FindButtons c]
          else if String.eqb mapped_features "chamber" then done [Chip.FindChambers c]
          else if String.eqb mapped_features "all"
          then done [Chip.FindButtons c; Chip.FindChambers c]
          else (self, [Chip.Stamp c],
                Py.Raise (Py.ValueError
                  ("Must specify valid feature name to map ("
                   +:+ Py.quoted "button" +:+ ", " +:+ Py.quoted "chamber"
                   +:+ ", or " +:+ Py.quoted "all")))
      | Some ref =>
          done [Chip.MapTo ref c [("features", mapped_features)]]
      end
  end.

(** [summarize(self)] (lines 525-541): the object after the call and the
    outcome. *)
Definition summarize `{Chip.Library} (self : t) : t * Py.res Frame.t :=
  if processed self then
    match chip self with
    | Some c => (self, Py.Ok (Chip.chip_summarize c))
    | None =>
        (self, Py.Raise (Py.AttributeError "'NoneType' object has no attribute 'summarize'"))
    end
  else (self, Py.Raise (Py.ValueError "Must first Process ChipQuant")).

(** [save_summary_image(self, outPath_root)] (lines 561-588): the file system after the
    call and the outcome.  The test of the export root is written
    [os.isdir(outPath_root)]; were that name to resolve, the test is read as
    the one of [os.path]. *)
Definition save_summary_image `{Chip.Library} (self : t)
    (outPath_root : option string) (fs : Os.FileSystem)
  : Os.FileSystem * Py.res unit :=
  match chip self with
  | None =>
      (fs, Py.Raise (Py.AttributeError "'NoneType' object has no attribute 'data_ref'"))
  | Some c =>
      let outPath : Py.res Path.t :=
        if Py.truthy_str outPath_root then
          let root := default "" outPath_root in
          _ ← Os.getattr "isdir";
          if negb (Os.path_isdir fs root)
          then Py.Raise (Py.ValueError ("Export directory does not exist: " +:+ root))
          else Py.Ok (Path.of_str root)
        else Py.Ok (Path.parent (Chip.data_ref c)) in
      match outPath with
      | Py.Raise e => (fs, Py.Raise e)
      | Py.Ok outPath =>
          let target := Os.path_join (Path.str outPath) "SummaryImages" in
          match Os.makedirs_exist_ok fs target with
          | (fs, Some e) => (fs, Py.Raise (Py.OSError e))
          | (fs, None) =>
              let image := Chip.summary_image c "button" in
              let name := "Summary" +:+ "_" +:+ Path.stem (Chip.data_ref c) +:+ ".tif" in
              let outDir := Os.path_join target name in
              match Os.write_file fs outDir image with
              | (fs, Some e) => (fs, Py.Raise (Py.OSError e))
              | (fs, None) => (fs, Py.Ok ())
              end
          end
      end
  end.

(** The keyword arguments [process(reference=reference, **process_kwrds)]
    is called with, bound in the order of the dictionary: [reference] is
    given twice, [self] is taken already, [mapped_features] is the one
    parameter left, and any other name is unknown to [process].  The value
    is the one for [mapped_features], its default when the dictionary has
    none. *)
Definition bind_process_kwrds (process_kwrds : Py.dict string string) : Py.res string :=
  if bool_decide ("reference" ∈ Py.keys process_kwrds) then
    Py.Raise (Py.TypeError "process() got multiple values for keyword argument 'reference'")
  else
    match List.find (λ k, negb (String.eqb k "mapped_features")) (Py.keys process_kwrds) with
    | Some k =>
        if String.eqb k "self"
        then Py.Raise (Py.TypeError "process() got multiple values for argument 'self'")
        else Py.Raise (Py.TypeError
                         ("process() got an unexpected keyword argument '" +:+ k +:+ "'"))
    | None => Py.Ok (default "button" (Py.get process_kwrds "mapped_features"))
    end.

(** [process_summarize(self, reference, process_kwrds)] (lines 544-558): the
    object after the call, the calls made on chips, and the outcome. *)
Definition process_summarize `{Chip.Library} (self : t)
    (reference : option Chip.ChipImage) (process_kwrds : Py.dict string string)
  : t * list (Chip.call Chip.ChipImage) * Py.res Frame.t :=
  match bind_process_kwrds process_kwrds with
  | Py.Raise e => (self, [], Py.Raise e)
  | Py.Ok mapped_features =>
      match process self reference mapped_features with
      | (self, calls, Py.Raise e) => (self, calls, Py.Raise e)
      | (self, calls, Py.Ok _) =>
          let '(self, r) := summarize self in (self, calls, r)
      end
  end.

(** The objects the constructor and the methods of the class lead to. *)
Inductive reachable : t → Prop :=
| reach_init device description attrs :
    reachable (__init__ device description attrs)
| reach_load_file q path channel exposure :
    reachable q →
    reachable (load_file q path channel exposure)
| reach_process q reference mapped_features :
    reachable q →
    reachable (process q reference mapped_features).1.1.

End ChipQuant.

(** * [Assay] and [TurnoverAssay] *)
Module Assay.

Record t := mk {
  device : Chip.Device;
  attrs : option (list (string * string));
  description : string;
  series : option ChipSeries.t;
  quants : list ChipQuant.t
}.

(** [Assay.__init__(self, device, description, attrs)] (lines 615-633) *)
Definition __init__ (device : Chip.Device) (description : string)
    (attrs : option (list (string * string))) : t :=
  mk device attrs description None [].

(** [self.series = c] *)
Definition set_series (self : t) (c : ChipSeries.t) : t :=
  mk (device self) (attrs self) (description self) (Some c) (quants self).

(** [add_quant(self, c)] (lines 652-664) *)
Definition add_quant (self : t) (c : ChipQuant.t) : t :=
  mk (device self) (attrs self) (description self) (series self)
     (quants self ++ [c]).

End Assay.

Module TurnoverAssay.

(** What the loop of [merge_summarize] appends for one quant (lines
    683-687).  The table without its [id] column is computed, and bound to
    [toAdd]; the table that is suffixed and appended is [summary]. *)
Definition cleaned `{Chip.Library} (quant : ChipQuant.t) : Py.res Frame.t :=
  let desc := ChipQuant.description quant in
  match ChipQuant.chip quant with
  | None => Py.Raise (Py.AttributeError "'NoneType' object has no attribute 'summarize'")
  | Some c =>
      let summary := Chip.chip_summarize c in
      toAdd ← Frame.drop summary ["id"];
      Py.Ok (Frame.add_suffix summary ("_" +:+ Py.replace " " "_" desc))
  end.

(** [merge_summarize(self)] (lines 669-691) *)
Definition merge_summarize `{Chip.Library} (self : Assay.t) : Py.res Frame.t :=
  quants_cleaned ← mapM cleaned (Assay.quants self);
  match Assay.series self with
  | None => Py.Raise (Py.AttributeError "'NoneType' object has no attribute 'summarize'")
  | Some series =>
      kinSummary ← ChipSeries.summarize series;
      Frame.join_left kinSummary quants_cleaned "_kinetic" "_buttonquant"
  end.

End TurnoverAssay.

(** * [AssaySeries] *)
Module AssaySeries.

Record t := mk {
  device : Chip.Device;
  assays : Py.dict string Assay.t;
  chamber_ref : Chip.ChipImage;
  button_ref : Chip.ChipImage;
  chamber_root : option string;
  button_root : option string;
  attrs : option (list (string * string))
}.

Definition set_assays (self : t) (a : Py.dict string Assay.t) : t :=
  mk (device self) a (chamber_ref self) (button_ref self)
     (chamber_root self) (button_root self) (attrs self).

(** [AssaySeries.__init__(self, device, descriptions, chamber_ref,
    button_ref, attrs)] (lines 696-724) *)
Definition __init__ (device : Chip.Device) (descriptions : list string)
    (chamber_ref button_ref : Chip.ChipImage)
    (attrs : option (list (string * string))) : t :=
  mk device
     (Py.of_items (List.map (λ description, (description, Assay.__init__ device description None))
                            descriptions))
     chamber_ref button_ref None None attrs.

(** [list(zip(a, b, [c]*n, [d]*n))] *)
Definition refs (a b : list string) (c : string) (d : Z) (n : nat)
  : list (string * string * string * Z) :=
  zip (zip (zip a b) (replicate n c)) (replicate n d).

(** The timecourse [load_kin] makes of one directory: the object of
    [Timecourse(self.device, desc)] after [load_files(p, chan, exp)], and
    the outcome of that call. *)
Definition new_timecourse (fs : Os.FileSystem) (device : Chip.Device)
    (desc p chan : string) (exp : Z) : ChipSeries.t * Py.res unit :=
  let t := Timecourse.__init__ device desc None in
  ChipSeries.load_files fs t p chan exp None None.

(** The loop of [load_kin] over [kin_refs]. *)
Fixpoint load_kin_loop (fs : Os.FileSystem) (self : t)
    (kin_refs : list (string * string * string * Z)) : t * Py.res unit :=
  match kin_refs with
  | [] => (self, Py.Ok ())
  | (desc, p, chan, exp) :: rest =>
      match new_timecourse fs (device self) desc p chan exp with
      | (_, Py.Raise e) => (self, Py.Raise e)
      | (t, Py.Ok _) =>
          match Py.get (assays self) desc with
          | None => (self, Py.Raise (Py.KeyError desc))
          | Some a =>
              load_kin_loop fs
                (set_assays self (Py.set (assays self) desc (Assay.set_series a t)))
                rest
          end
      end
  end.

Definition load_kin_error : Py.exn :=
  Py.ValueError
    "Descriptions and series of different lengths. Number of assays and descriptions must match.".

(** [load_kin(self, descriptions, paths, channel, exposure)] (lines 727-755):
    the object after the call and the outcome. *)
Definition load_kin (fs : Os.FileSystem) (self : t) (descriptions paths : list string)
    (channel : string) (exposure : Z) : t * Py.res unit :=
  let len_series := length (assays self) in
  let len_descriptions := length descriptions in
  if negb (len_descriptions =? len_series)%nat
  then (self, Py.Raise load_kin_error)
  else load_kin_loop fs self (refs descriptions paths channel exposure len_series).

(** The quant [load_quants] makes of one path. *)
Definition new_quant (self : t) (p chan : string) (exp : Z) : ChipQuant.t :=
  ChipQuant.load_file (ChipQuant.__init__ (device self) "Button_Quant" None) p chan exp.

(** The loop of [load_quants] over [bq_refs]. *)
Fixpoint load_quants_loop (self : t)
    (bq_refs : list (string * string * string * Z)) : t * Py.res unit :=
  match bq_refs with
  | [] => (self, Py.Ok ())
  | (desc, p, chan, exp) :: rest =>
      let q := new_quant self p chan exp in
      match Py.get (assays self) desc with
      | None => (self, Py.Raise (Py.KeyError desc))
      | Some a =>
          load_quants_loop
            (set_assays self (Py.set (assays self) desc (Assay.add_quant a q)))
            rest
      end
  end.

Definition load_quants_error : Py.exn :=
  Py.ValueError "Descriptions and paths must be of same length".

(** [load_quants(self, descriptions, paths, channel, exposure)] (lines
    758-786): the object after the call and the outcome. *)
Definition load_quants (self : t) (descriptions paths : list string)
    (channel : string) (exposure : Z) : t * Py.res unit :=
  if negb (length descriptions =? length paths)%nat
  then (self, Py.Raise load_quants_error)
  else
    let len_series := length (assays self) in
    let '(descriptions, paths) :=
      if (length descriptions =? 1)%nat
      then (Py.keys (assays self), mjoin (replicate len_series paths))
      else (descriptions, paths) in
    load_quants_loop self (refs descriptions paths channel exposure len_series).

(** [summarize(self)] (lines 853-870) *)
Definition summarize `{Chip.Library} (self : t) : Py.res Frame.t :=
  summaries ← mapM (λ tc, s ← TurnoverAssay.merge_summarize tc;
                          Py.Ok (Frame.set_column s "series_index"
                                                  (Frame.VStr (Assay.description tc))))
                   (Py.values (assays self));
  Frame.sort_index <$> Frame.concat summaries.

(** [save_summary(self, outPath)] (lines 920-936) *)
Definition save_summary `{Chip.Library} `{Frame.Writer} (self : t)
    (outPath : option string) (fs : Os.FileSystem) : Os.FileSystem * Io.outcome :=
  let outPath := if Py.truthy_str outPath then outPath else chamber_root self in
  match summarize self with
  | Py.Raise e => (fs, Io.Raised e)
  | Py.Ok df =>
      Io.to_csv fs outPath
                (Chip.dname (device self) +:+ "_" +:+ "TitrationSeries_Analysis"
                 +:+ ".csv.bz2") df
  end.

(** The two library calls the folder parsers make besides [os.path.join]:
    [pattern.format(handle)] and [glob(path)]. *)
Class Finder := {
  format : string → string → Py.res string;
  glob_glob : Os.FileSystem → string → list string
}.

Definition set_chamber_root (self : t) (r : option string) : t :=
  mk (device self) (assays self) (chamber_ref self) (button_ref self)
     r (button_root self) (attrs self).

(** The local [p] of the parsers:
    [glob(os.path.join(root, pattern.format(f)))[0]]. *)
Definition first_match `{Finder} (fs : Os.FileSystem) (root pattern f : string)
  : Py.res string :=
  formatted ← format pattern f;
  match glob_glob fs (Os.path_join root formatted) with
  | m :: _ => Py.Ok m
  | [] => Py.Raise (Py.IndexError "list index out of range")
  end.

(** The local [files] of the parsers:
    [{(handle, desc): p(handle) for handle, desc in zip(file_handles, descriptors)}]. *)
Definition matched_files `{Finder} (fs : Os.FileSystem) (root pattern : string)
    (file_handles descriptors : list string) : Py.res (Py.dict (string * string) string) :=
  Py.of_items <$> mapM (λ '(handle, desc),
                          m ← first_match fs root pattern handle;
                          Py.Ok ((handle, desc), m))
                       (zip file_handles descriptors).

Definition kinetics_pattern : string := "*_{}*/*/StitchedImages".

(** [parse_kineticsFolders(self, root, file_handles, descriptors, channel,
    exposure, pattern)] (lines 789-817) *)
Definition parse_kineticsFolders `{Finder} (fs : Os.FileSystem) (self : t) (root : string)
    (file_handles descriptors : list string) (channel : string) (exposure : Z)
    (pattern : option string) : t * Py.res unit :=
  let self := set_chamber_root self (Some root) in
  let pattern := if Py.truthy_str pattern then default "" pattern else kinetics_pattern in
  match matched_files fs root pattern file_handles descriptors with
  | Py.Raise e => (self, Py.Raise e)
  | Py.Ok files => load_kin fs self descriptors (Py.values files) channel exposure
  end.

(** [load_quants] as it runs when [paths] is the values view of a
    dictionary: a view has a length and can be zipped, and cannot be
    repeated with [*], which the broadcast of one path does. *)
Definition load_quants_of_view (self : t) (descriptions paths : list string)
    (channel : string) (exposure : Z) : t * Py.res unit :=
  if negb (length descriptions =? length paths)%nat
  then (self, Py.Raise load_quants_error)
  else if (length descriptions =? 1)%nat
  then (self, Py.Raise (Py.TypeError
                          "unsupported operand type(s) for *: 'dict_values' and 'int'"))
  else load_quants self descriptions paths channel exposure.

Definition quantification_pattern : string :=
  "*_{}*/*/StitchedImages/BGSubtracted_StitchedImg*.tif".

Definition parse_error (pattern : string) : Py.exn :=
  Py.ValueError ("Error parsing filenames for quantifications. Glob pattern is: "
                 +:+ pattern).

(** [parse_quantificationFolders(self, root, file_handles, descriptors,
    channel, exposure, pattern)] (lines 820-850) *)
Definition parse_quantificationFolders `{Finder} (fs : Os.FileSystem) (self : t)
    (root : string) (file_handles descriptors : list string) (channel : string)
    (exposure : Z) (pattern : option string) : t * Py.res unit :=
  let pattern :=
    if Py.truthy_str pattern then default "" pattern else quantification_pattern in
  match matched_files fs root pattern file_handles descriptors with
  | Py.Raise _ => (self, Py.Raise (parse_error pattern))
  | Py.Ok files => load_quants_of_view self descriptors (Py.values files) channel exposure
  end.

Definition set_quants (a : Assay.t) (quants : list ChipQuant.t) : Assay.t :=
  Assay.mk (Assay.device a) (Assay.attrs a) (Assay.description a) (Assay.series a) quants.

(** The inner loop of [process_quants] over the quants of one assay: the
    quants and the file system after it, the calls made on chips, and the
    outcome. *)
Fixpoint process_quant_list `{Chip.Library} (button_ref : Chip.ChipImage)
    (quants : list ChipQuant.t) (fs : Os.FileSystem)
  : list ChipQuant.t * Os.FileSystem * list (Chip.call Chip.ChipImage) * Py.res unit :=
  match quants with
  | [] => ([], fs, [], Py.Ok ())
  | quant :: rest =>
      match ChipQuant.process quant (Some button_ref) "button" with
      | (quant, calls, Py.Raise e) => (quant :: rest, fs, calls, Py.Raise e)
      | (quant, calls, Py.Ok _) =>
          match ChipQuant.save_summary_image quant None fs with
          | (fs, Py.Raise e) => (quant :: rest, fs, calls, Py.Raise e)
          | (fs, Py.Ok _) =>
              let '(rest, fs, more, r) := process_quant_list button_ref rest fs in
              (quant :: rest, fs, calls ++ more, r)
          end
      end
  end.

(** The outer loop of [process_quants] over the keys of [subset]. *)
Fixpoint process_quants_loop `{Chip.Library} (self : t) (subset : list string)
    (fs : Os.FileSystem)
  : t * Os.FileSystem * list (Chip.call Chip.ChipImage) * Py.res unit :=
  match subset with
  | [] => (self, fs, [], Py.Ok ())
  | key :: rest =>
      match Py.get (assays self) key with
      | None => (self, fs, [], Py.Raise (Py.KeyError key))
      | Some a =>
          let '(quants, fs, calls, r) :=
            process_quant_list (button_ref self) (Assay.quants a) fs in
          let self := set_assays self (Py.set (assays self) key (set_quants a quants)) in
          match r with
          | Py.Raise e => (self, fs, calls, Py.Raise e)
          | Py.Ok _ =>
              let '(self, fs, more, r) := process_quants_loop self rest fs in
              (self, fs, calls ++ more, r)
          end
      end
  end.

(** [process_quants(self, subset)] (lines 873-891) *)
Definition process_quants `{Chip.Library} (self : t) (subset : option (list string))
    (fs : Os.FileSystem)
  : t * Os.FileSystem * list (Chip.call Chip.ChipImage) * Py.res unit :=
  let subset := if Py.truthy_list subset then default [] subset else Py.keys (assays self) in
  process_quants_loop self subset fs.

(** What [load_quants] may do to an assay: quants of [Button_Quant], loaded
    and not processed, added at the end, and nothing else. *)
Definition quants_added (a a' : Assay.t) : Prop :=
  ∃ new,
    a' = Assay.mk (Assay.device a) (Assay.attrs a) (Assay.description a)
                  (Assay.series a) (Assay.quants a ++ new)
    ∧ Forall (λ q, is_Some (ChipQuant.chip q)
                   ∧ ChipQuant.processed q = false
                   ∧ ChipQuant.description q = "Button_Quant") new.

(** What [load_kin] may do to an assay: a timecourse of its description in
    place of its series, and nothing else. *)
Definition series_assigned (fs : Os.FileSystem) (self : t) (k : string)
    (a a' : Assay.t) : Prop :=
  a' = a
  ∨ ∃ p chan exp,
      a' = Assay.set_series a (new_timecourse fs (device self) k p chan exp).1.

End AssaySeries.

(** * Objects to run the methods on *)
Module Fixture.

Definition device : Chip.Device :=
  Chip.mkDevice "s1" "d1" [(0, 0); (7000, 7000)] ["pin_a"; "pin_b"].

(** A chip library whose summary has two rows per chip, with an [id]
    column and a measurement read off the exposure. *)
Definition library : Chip.Library :=
  {| Chip.chip_summarize c :=
       Frame.mk ["id"; "median"]
                [(1, [Frame.VStr "pin_b"; Frame.VInt (Chip.exposure c + 1)]);
                 (0, [Frame.VStr "pin_a"; Frame.VInt (Chip.exposure c)])];
     Chip.summary_image c featuretype :=
       featuretype +:+ " overlay of " +:+ Path.str (Chip.data_ref c) |}.

(** A directory [/data] with the three images [img_1.tif], [img_2.tif]
    and [img_5.tif], and an empty directory [/export]. *)
Definition fs : Os.FileSystem :=
  Os.mkfs ["/data"; "/export"]
          [("/data/img_1.tif", "raster"); ("/data/img_2.tif", "raster");
           ("/data/img_5.tif", "raster")].

Definition timecourse : ChipSeries.t := Timecourse.__init__ device "kinetics" None.

(** A quantification of [/data/img_1.tif], loaded and processed. *)
Definition quant : ChipQuant.t :=
  (ChipQuant.process
     (ChipQuant.load_file (ChipQuant.__init__ device "Button Quant" None)
                          "/data/img_1.tif" "egfp" 500)
     None "button").1.1.

(** The series of the three images of [/data]. *)
Definition loaded : ChipSeries.t :=
  (ChipSeries.load_files fs timecourse "/data" "egfp" 500 None (Some "*.tif")).1.

(** Two directories of stitched kinetic images. *)
Definition kinetics_fs : Os.FileSystem :=
  Os.mkfs ["/k"; "/k/wt"; "/k/mut"]
          [("/k/wt/StitchedImg_0.tif", "raster"); ("/k/wt/StitchedImg_30.tif", "raster");
           ("/k/mut/StitchedImg_0.tif", "raster")].

Definition reference : Chip.ChipImage :=
  Chip.mk device (Path.of_str "/ref/chambers.tif") [] [] [] "bf" 10.

(** An assay of the series of [/data] with one quantification. *)
Definition turnover : Assay.t :=
  Assay.add_quant (Assay.set_series (Assay.__init__ device "wt" None) loaded) quant.

(** A series of two assays. *)
Definition assay_series : AssaySeries.t :=
  AssaySeries.__init__ device ["wt"; "mut"] reference reference None.

(** A directory with one image whose name ends in no number. *)
Definition unnumbered_fs : Os.FileSystem :=
  Os.mkfs ["/data"] [("/data/StitchedImg_final.tif", "raster")].

(** A chip library whose summary has no [id] column. *)
Definition bare_library : Chip.Library :=
  {| Chip.chip_summarize c :=
       Frame.mk ["median"] [(0, [Frame.VInt (Chip.exposure c)])];
     Chip.summary_image c featuretype := featuretype |}.

(** A writer that gives the header line of a table. *)
Definition writer : Frame.Writer :=
  {| Frame.csv_bz2 df := Py.join "," (Frame.columns df) |}.

(** [pattern.format(handle)] for a pattern whose fields are all [{}]. *)
Fixpoint substitute (pattern handle : string) : string :=
  match pattern with
  | String "{" (String "}" rest) => handle +:+ substitute rest handle
  | String c rest => String c (substitute rest handle)
  | EmptyString => EmptyString
  end.

(** Whether a path matches a pattern, component by component. *)
Definition matches (pattern p : string) : bool :=
  let ps := Py.split "/" pattern in
  let cs := Py.split "/" p in
  (length ps =? length cs)%nat
  && forallb (λ pc, Path.fnmatch pc.1 pc.2) (zip ps cs).

(** A finder over the directories and the files of the file system, in the
    order the file system lists them. *)
Definition finder : AssaySeries.Finder :=
  {| AssaySeries.format pattern handle := Py.Ok (substitute pattern handle);
     AssaySeries.glob_glob fs p :=
       List.filter (matches p) (Os.directories fs ++ (Os.files fs).*1) |}.

(** The folders of two assays: kinetic images under [/run], and one
    quantification image each under [/bq]. *)
Definition folders_fs : Os.FileSystem :=
  Os.mkfs ["/run"; "/run/1_wt_a"; "/run/1_wt_a/r1"; "/run/1_wt_a/r1/StitchedImages";
           "/run/2_mut_a"; "/run/2_mut_a/r1"; "/run/2_mut_a/r1/StitchedImages";
           "/bq"; "/bq/1_wt_a"; "/bq/1_wt_a/r1"; "/bq/1_wt_a/r1/StitchedImages";
           "/bq/2_mut_a"; "/bq/2_mut_a/r1"; "/bq/2_mut_a/r1/StitchedImages"]
          [("/run/1_wt_a/r1/StitchedImages/StitchedImg_0.tif", "raster");
           ("/run/1_wt_a/r1/StitchedImages/StitchedImg_30.tif", "raster");
           ("/run/2_mut_a/r1/StitchedImages/StitchedImg_0.tif", "raster");
           ("/bq/1_wt_a/r1/StitchedImages/BGSubtracted_StitchedImg_1.tif", "raster");
           ("/bq/2_mut_a/r1/StitchedImages/BGSubtracted_StitchedImg_1.tif", "raster")].

(** The series of two assays with one quantification each. *)
Definition quantified : AssaySeries.t :=
  (AssaySeries.load_quants assay_series ["wt"; "mut"] ["/q/wt.tif"; "/q/mut.tif"]
                           "egfp" 100).1.

(** The series of two assays with the timecourses of [/k/wt] and [/k/mut]. *)
Definition kinetic : AssaySeries.t :=
  (AssaySeries.load_kin kinetics_fs assay_series ["wt"; "mut"] ["/k/wt"; "/k/mut"]
                        "egfp" 100).1.

End Fixture.

(** * Proof steps *)

(** Closes a decidable goal over closed terms by running its decision. *)
Ltac by_decision := apply (bool_decide_unpack _); vm_compute; exact I.

(** Replaces the scrutinee of the goal by its value. *)
Ltac run_scrutinee :=
  match goal with
  | |- match ?X with _ => _ end =>
      let v := eval vm_compute in X in
      replace X with v by (vm_compute; reflexivity)
  end.

(** * Properties of dictionaries *)
Section dict_facts.
Context {K V : Type} `{EqDecision K}.
Implicit Types (d : Py.dict K V) (k : K) (v : V).

Lemma get_is_Some d k : is_Some (Py.get d k) ↔ k ∈ Py.keys d.
Proof.
  induction d as [|[k' v'] d IH]; simpl.
  - split; [intros [? [=]] | intros Hin; by apply elem_of_nil in Hin].
  - destruct (decide (k' = k)) as [->|Hne].
    + split; [intros _; left | eauto].
    + rewrite IH. unfold Py.keys. simpl. rewrite elem_of_cons.
      split; [by right | by intros [->|?]].
Qed.

Lemma get_None d k : Py.get d k = None ↔ k ∉ Py.keys d.
Proof. rewrite <-get_is_Some, eq_None_not_Some. done. Qed.

Lemma keys_set d k v : k ∈ Py.keys d → Py.keys (Py.set d k v) = Py.keys d.
Proof.
  unfold Py.keys. induction d as [|[k' v'] d IH]; simpl; intros Hin.
  - by apply elem_of_nil in Hin.
  - destruct (decide (k' = k)) as [->|Hne]; simpl; [done|].
    apply elem_of_cons in Hin as [->|Hin]; [done|]. f_equal. by apply IH.
Qed.

Lemma get_set_eq d k v : Py.get (Py.set d k v) k = Some v.
Proof.
  induction d as [|[k' v'] d IH]; simpl.
  - by rewrite decide_True.
  - destruct (decide (k' = k)) as [->|Hne]; simpl.
    + by rewrite decide_True.
    + by rewrite decide_False.
Qed.

Lemma get_set_ne d k k' v : k ≠ k' → Py.get (Py.set d k v) k' = Py.get d k'.
Proof.
  intros Hne. induction d as [|[k0 v0] d IH]; simpl.
  - by rewrite decide_False.
  - destruct (decide (k0 = k)) as [->|Hne0]; simpl.
    + by rewrite !decide_False.
    + by rewrite IH.
Qed.

Lemma length_set d k v : k ∈ Py.keys d → length (Py.set d k v) = length d.
Proof.
  intros Hin. rewrite <-(length_fmap fst (Py.set d k v)), <-(length_fmap fst d).
  change (length (Py.keys (Py.set d k v)) = length (Py.keys d)).
  by rewrite keys_set.
Qed.

End dict_facts.

(** * Properties of tables *)
Section frame_facts.
Implicit Types (cols : list string) (vals : list Frame.value) (df : Frame.t).

Lemma length_assign cols vals c v : length (Frame.assign cols vals c v) = length vals.
Proof.
  revert vals. induction cols as [|c0 cols IH]; intros [|x vals]; simpl; auto.
Qed.

Lemma cell_assign cols vals c v col :
  length vals = length cols → c ∈ cols →
  Frame.cell cols (Frame.assign cols vals c v) col
  = if bool_decide (col = c) then v else Frame.cell cols vals col.
Proof.
  revert vals. induction cols as [|c0 cols IH]; intros [|x vals] Hlen Hin;
    simpl in *; try discriminate.
  - by apply elem_of_nil in Hin.
  - injection Hlen as Hlen.
    destruct (decide (c0 = col)) as [->|Hne0].
    + rewrite !bool_decide_eq_true_2 by done. by repeat case_bool_decide.
    + rewrite !(bool_decide_eq_false_2 (c0 = col)) by done.
      destruct (decide (c ∈ cols)) as [Hc|Hc]; [by apply IH|].
      apply elem_of_cons in Hin as [->|Hin]; [|done].
      rewrite (bool_decide_eq_false_2 (col = c0)) by done.
      clear IH Hne0. revert vals Hlen.
      induction cols as [|c1 cols IH]; intros [|y vals] Hlen; simpl in *;
        try discriminate; [done|].
      apply not_elem_of_cons in Hc as [Hc1 Hc].
      rewrite (bool_decide_eq_false_2 (c1 = c0)) by done.
      case_bool_decide; [done|]. apply IH; [done | congruence].
Qed.

Lemma cell_snoc cols vals c v col :
  length vals = length cols → c ∉ cols →
  Frame.cell (cols ++ [c]) (vals ++ [v]) col
  = if bool_decide (col = c) then v else Frame.cell cols vals col.
Proof.
  revert vals. induction cols as [|c0 cols IH]; intros [|x vals] Hlen Hin;
    simpl in *; try discriminate.
  - repeat case_bool_decide; congruence.
  - injection Hlen as Hlen. apply not_elem_of_cons in Hin as [Hne Hin].
    destruct (decide (c0 = col)) as [->|Hc0].
    + rewrite bool_decide_eq_true_2 by done.
      by rewrite (bool_decide_eq_false_2 (col = c)) by congruence.
    + rewrite !(bool_decide_eq_false_2 (c0 = col)) by done. by apply IH.
Qed.

Lemma reindex_self cols vals :
  NoDup cols → length vals = length cols → Frame.cell cols vals <$> cols = vals.
Proof.
  intros Hnd. revert vals.
  induction Hnd as [|c cols Hc Hnd IH]; intros [|x vals] Hlen;
    simpl in *; try discriminate; [done|].
  injection Hlen as Hlen. rewrite bool_decide_eq_true_2 by done. f_equal.
  transitivity (Frame.cell cols vals <$> cols); [|by apply IH].
  apply list_fmap_ext. intros i col Hcol%list_elem_of_lookup_2.
  rewrite bool_decide_eq_false_2; [done | congruence].
Qed.

Lemma list_bind_ext_in {A B} (f g : A → list B) (l : list A) :
  Forall (λ x, f x = g x) l → l ≫= f = l ≫= g.
Proof.
  induction 1 as [|x l Hx Hl IH]; [done|]. by rewrite !bind_cons, Hx, IH.
Qed.

Lemma set_column_well_formed df c v :
  Frame.well_formed df → Frame.well_formed (Frame.set_column df c v).
Proof.
  intros [Hnd Hal]. unfold Frame.set_column. case_bool_decide as Hc.
  - split; [done|]. unfold Frame.aligned in *. simpl.
    apply Forall_fmap. eapply Forall_impl; [exact Hal|].
    intros r Hr. simpl. by rewrite length_assign.
  - split; simpl.
    + apply NoDup_app. split_and!; [done | | apply NoDup_singleton].
      intros x Hx ->%list_elem_of_singleton. done.
    + unfold Frame.aligned in *. simpl.
      apply Forall_fmap. eapply Forall_impl; [exact Hal|].
      intros r Hr. simpl. rewrite !length_app, Hr. done.
Qed.

Lemma set_column_columns df c v col :
  col ∈ Frame.columns (Frame.set_column df c v) ↔ col = c ∨ col ∈ Frame.columns df.
Proof.
  unfold Frame.set_column. case_bool_decide as Hc; simpl.
  - split; [by right | by intros [->|?]].
  - rewrite elem_of_app, list_elem_of_singleton. tauto.
Qed.

Lemma set_column_reindex df c v cols :
  Frame.aligned df →
  Frame.reindex cols (Frame.set_column df c v)
  = (λ r : Frame.row,
       (r.1, (λ col, if bool_decide (col = c) then v
                     else Frame.cell (Frame.columns df) r.2 col) <$> cols))
      <$> Frame.rows df.
Proof.
  intros Hal. unfold Frame.reindex, Frame.set_column.
  case_bool_decide as Hc; simpl; rewrite <-list_fmap_compose;
    apply Forall_fmap_ext; (eapply Forall_impl; [exact Hal|]);
    intros r Hr; simpl; f_equal; apply list_fmap_ext; intros i col _.
  - by apply cell_assign.
  - by apply cell_snoc.
Qed.

Lemma union_columns_elem (acc : list string) (objs : list Frame.t) col :
  col ∈ foldl (λ acc df,
                 acc ++ List.filter (λ c, negb (bool_decide (c ∈ acc))) (Frame.columns df))
              acc objs
  ↔ col ∈ acc ∨ ∃ f, f ∈ objs ∧ col ∈ Frame.columns f.
Proof.
  revert acc. induction objs as [|f objs IH]; intros acc; simpl.
  - split; [by left | intros [?|(f & Hf & _)]; [done | by apply elem_of_nil in Hf]].
  - rewrite IH, elem_of_app, !list_elem_of_In, filter_In, <-!list_elem_of_In.
    rewrite negb_true_iff, bool_decide_eq_false.
    split.
    + intros [[?|[? ?]]|(g & Hg & ?)]; [by left | right; exists f | right; exists g];
        (split; [|done]); [left | by right].
    + intros [?|(g & [->|Hg]%elem_of_cons & ?)]; [by left; left | | right; by exists g].
      destruct (decide (col ∈ acc)); left; [by left | by right].
Qed.

Lemma concat_well_formed (objs : list Frame.t) :
  objs ≠ [] → Forall Frame.well_formed objs →
  ∃ df, Frame.concat objs = Py.Ok df
        ∧ (∀ col, col ∈ Frame.columns df ↔ ∃ f, f ∈ objs ∧ col ∈ Frame.columns f)
        ∧ Frame.rows df = objs ≫= Frame.reindex (Frame.columns df).
Proof.
  intros Hne Hwf. destruct objs as [|f rest]; [done|]. unfold Frame.concat.
  destruct (forallb _ rest) eqn:Hsame.
  - eexists. split; [done|]. cbn [Frame.columns Frame.rows].
    assert (Hcols : Forall (λ g, Frame.columns g = Frame.columns f) (f :: rest)).
    { constructor; [done|]. apply Forall_forall. intros g Hg%list_elem_of_In.
      rewrite forallb_forall in Hsame. by apply (bool_decide_eq_true_1 _), Hsame. }
    split.
    + intros col. split; [intros ?; exists f; split; [left | done]|].
      intros (g & Hg & Hcol). rewrite Forall_forall in Hcols.
      by rewrite <-(Hcols g Hg).
    + apply list_bind_ext_in. apply Forall_forall. intros g Hg.
      rewrite Forall_forall in Hcols, Hwf.
      destruct (Hwf g Hg) as [Hnd Hal]. unfold Frame.reindex.
      rewrite <-(Hcols g Hg). rewrite <-(list_fmap_id (Frame.rows g)) at 1.
      apply Forall_fmap_ext. eapply Forall_impl; [exact Hal|].
      intros [i vals] Hr. simpl in *. by rewrite reindex_self.
  - assert (Hnd : forallb (λ d, bool_decide (NoDup (Frame.columns d))) (f :: rest) = true).
    { apply forallb_forall. intros g Hg%list_elem_of_In. apply bool_decide_eq_true_2.
      rewrite Forall_forall in Hwf. by apply Hwf. }
    rewrite Hnd. eexists. split; [done|]. cbn [Frame.columns Frame.rows].
    split; [|done]. intros col. unfold Frame.union_columns.
    rewrite union_columns_elem. split; [intros [Hnil|?]; [by apply elem_of_nil in Hnil | done] | by right].
Qed.

End frame_facts.

(** * Properties of [ChipSeries] *)

(** C9: the constructor of [ChipSeries] ends in a [NameError] whatever it
    is given, also when [Titration] inherits it; [StandardSeries] and
    [Timecourse], which have constructors of their own, make their objects. *)
Theorem chip_series_init_name_error
    (device : Chip.Device) (series_index : string)
    (attrs : option (list (string * string))) :
  (∀ c, ChipSeries.__init__ c device series_index attrs
        = Py.Raise (Py.NameError "name 'description' is not defined"))
  ∧ Titration.__init__ device series_index attrs
    = Py.Raise (Py.NameError "name 'description' is not defined")
  ∧ ChipSeries.description (StandardSeries.__init__ device series_index attrs)
    = series_index
  ∧ ChipSeries.description (Timecourse.__init__ device series_index attrs)
    = series_index.
Proof.
  assert (Hname : Globals.load_global "description"
                  = Py.Raise (Py.NameError "name 'description' is not defined"))
    by (vm_compute; reflexivity).
  split_and!; [intros c | | done | done];
    unfold Titration.__init__, ChipSeries.__init__; rewrite Hname; reflexivity.
Qed.

(** C10: with a truthy [indexes] argument [load_files] sets [series_root]
    and nothing else: the chips and every other field stay, the file system
    is not read, the call returns. *)
Theorem load_files_indexes_frame fs (self : ChipSeries.t) (root channel : string)
    (exposure : Z) (indexes : option (list Z)) (custom_glob : option string) :
  Py.truthy_list indexes = true →
  let '(self', r) :=
    ChipSeries.load_files fs self root channel exposure indexes custom_glob in
  r = Py.Ok ()
  ∧ ChipSeries.series_root self' = Some root
  ∧ ChipSeries.chips self' = ChipSeries.chips self
  ∧ ChipSeries.cls self' = ChipSeries.cls self
  ∧ ChipSeries.device self' = ChipSeries.device self
  ∧ ChipSeries.attrs self' = ChipSeries.attrs self
  ∧ ChipSeries.series_indexer self' = ChipSeries.series_indexer self
  ∧ ChipSeries.description self' = ChipSeries.description self.
Proof.
  intros Hidx. unfold ChipSeries.load_files. rewrite Hidx. simpl. done.
Qed.

Lemma load_files_indexes_frame_witness :
  let '(self', r) :=
    ChipSeries.load_files Fixture.fs Fixture.timecourse "/data" "egfp" 500
                          (Some [1; 2; 5]) None in
  r = Py.Ok ()
  ∧ ChipSeries.series_root self' = Some "/data"
  ∧ ChipSeries.chips self' = ChipSeries.chips Fixture.timecourse
  ∧ ChipSeries.cls self' = ChipSeries.cls Fixture.timecourse
  ∧ ChipSeries.device self' = ChipSeries.device Fixture.timecourse
  ∧ ChipSeries.attrs self' = ChipSeries.attrs Fixture.timecourse
  ∧ ChipSeries.series_indexer self' = ChipSeries.series_indexer Fixture.timecourse
  ∧ ChipSeries.description self' = ChipSeries.description Fixture.timecourse.
Proof.
  apply (load_files_indexes_frame Fixture.fs Fixture.timecourse "/data" "egfp" 500
                                  (Some [1; 2; 5]) None).
  reflexivity.
Defined.

(** C3 as stated fails: under the default pattern [*StitchedImg*.tif] none
    of [img_1.tif], [img_2.tif], [img_5.tif] is found, and the chips of the
    series are the empty mapping. *)
Lemma load_files_default_glob_finds_none :
  let '(self', r) :=
    ChipSeries.load_files Fixture.fs Fixture.timecourse "/data" "egfp" 500 None None in
  r = Py.Ok () ∧ ChipSeries.chips self' = Some [] ∧ ChipSeries.key_set self' ≠ {[ 1; 2; 5 ]}.
Proof.
  vm_compute. split_and!; [reflexivity | reflexivity |].
  intros Heq. discriminate Heq.
Qed.

Lemma bind_singleton {A B} (f : A → B) (l : list A) : l ≫= (λ x, [f x]) = f <$> l.
Proof. induction l as [|x l IH]; [reflexivity|]. rewrite bind_cons, fmap_cons, IH. reflexivity. Qed.

Lemma filter_ext_bool {A} (f g : A → bool) (l : list A) :
  (∀ x, f x = g x) → List.filter f l = List.filter g l.
Proof.
  intros Hfg. induction l as [|x l IH]; [reflexivity|].
  simpl. rewrite Hfg, IH. reflexivity.
Qed.

(** A pattern of one component with a wildcard in it is matched against
    the entries of the directory. *)
Lemma glob_of_listing fs (d : Path.t) (pattern : string) :
  Os.glob_error pattern = None →
  Os.pattern_parts pattern = [pattern] →
  String.eqb pattern "**" = false →
  Os.is_wildcard_pattern pattern = true →
  Os.path_isdir fs (Path.str d) = true →
  Os.glob fs d pattern
  = Py.Ok (Path.child d <$> List.filter (Path.fnmatch pattern) (Os.listdir fs d)).
Proof.
  intros Herr Hparts Hrec Hwild Hdir. unfold Os.glob. rewrite Herr, Hdir, Hparts.
  cbn [Os.select]. rewrite Hrec, Hwild.
  destruct (String.eqb pattern "") eqn:Hempty.
  { apply String.eqb_eq in Hempty. subst pattern. discriminate Hwild. }
  apply (f_equal Py.Ok). rewrite bind_singleton.
  rewrite (filter_ext_bool _ (Path.fnmatch pattern)); [reflexivity|].
  intros name. reflexivity.
Qed.

(** C3, amended: of a directory [/data] that lists exactly [img_1.tif],
    [img_2.tif] and [img_5.tif], in whatever order, [load_files] with
    [indexes] left out and the pattern [*.tif] makes chips under exactly the
    keys 1, 2 and 5, each key the integer read after the last underscore of
    the stem of the file of its chip; with the pattern left out as well it
    makes no chip at all. *)
Theorem load_files_img_keys fs (self : ChipSeries.t) (channel : string) (exposure : Z) :
  Os.path_isdir fs "/data" = true →
  Os.listdir fs (Path.of_str "/data") ≡ₚ ["img_1.tif"; "img_2.tif"; "img_5.tif"] →
  (let '(self', r) :=
     ChipSeries.load_files fs self "/data" channel exposure None (Some "*.tif") in
   r = Py.Ok ()
   ∧ ChipSeries.key_set self' = {[ 1; 2; 5 ]}
   ∧ length (default [] (ChipSeries.chips self')) = 3%nat
   ∧ Forall (λ '(k, c), ChipSeries.index_of (Chip.data_ref c) = Py.Ok k)
            (default [] (ChipSeries.chips self')))
  ∧ (let '(self', r) :=
       ChipSeries.load_files fs self "/data" channel exposure None None in
     r = Py.Ok () ∧ ChipSeries.chips self' = Some []).
Proof.
  intros Hdir Hperm.
  unfold ChipSeries.load_files. cbv zeta. cbn [Py.truthy_str Py.truthy_list negb default].
  rewrite (glob_of_listing fs _ "*.tif") by first [exact Hdir | vm_compute; reflexivity].
  rewrite (glob_of_listing fs _ ChipSeries.default_glob)
    by first [exact Hdir | vm_compute; reflexivity].
  symmetry in Hperm. apply permutations_Permutation in Hperm.
  set (names := Os.listdir fs (Path.of_str "/data")) in *.
  clearbody names.
  vm_compute in Hperm.
  repeat (apply elem_of_cons in Hperm as [-> | Hperm]);
    [.. | by apply elem_of_nil in Hperm];
    (split; [| vm_compute; done]);
    run_scrutinee;
    (split_and!; [reflexivity | vm_compute; reflexivity | reflexivity |]);
    repeat constructor.
Qed.

Lemma load_files_img_keys_witness :
  (let '(self', r) :=
     ChipSeries.load_files Fixture.fs Fixture.timecourse "/data" "egfp" 500 None
                           (Some "*.tif") in
   r = Py.Ok ()
   ∧ ChipSeries.key_set self' = {[ 1; 2; 5 ]}
   ∧ length (default [] (ChipSeries.chips self')) = 3%nat
   ∧ Forall (λ '(k, c), ChipSeries.index_of (Chip.data_ref c) = Py.Ok k)
            (default [] (ChipSeries.chips self')))
  ∧ (let '(self', r) :=
       ChipSeries.load_files Fixture.fs Fixture.timecourse "/data" "egfp" 500 None None in
     r = Py.Ok () ∧ ChipSeries.chips self' = Some []).
Proof.
  apply (load_files_img_keys Fixture.fs Fixture.timecourse "egfp" 500).
  - reflexivity.
  - vm_compute. reflexivity.
Defined.

(** ** The summary of a series *)
Section chip_series_summary.
Context `{Chip.Library}.

#[local] Instance index_le_trans : Transitive Frame.index_le.
Proof. intros x y z. unfold Frame.index_le. lia. Qed.

#[local] Instance index_le_total : Total Frame.index_le.
Proof. intros x y. unfold Frame.index_le. lia. Qed.

Lemma map_is_fmap {A B} (f : A → B) (l : list A) : List.map f l = f <$> l.
Proof. induction l as [|x l IH]; [done|]. simpl. by rewrite IH. Qed.

Lemma bind_fmap_list {A B C} (f : A → B) (g : B → list C) (l : list A) :
  (f <$> l) ≫= g = l ≫= (g ∘ f).
Proof.
  induction l as [|x l IH]; [done|].
  by rewrite fmap_cons, !bind_cons, IH.
Qed.

(** C8: a series without chips fails to summarize, with the error of
    concatenating no tables; a series with chips returns a table whose rows
    are in the order of their index labels and are, up to that order, the
    rows of the summaries of its chips, each with the key of its chip in
    the column named by [series_indexer] and its own values elsewhere. *)
Theorem chip_series_summarize (self : ChipSeries.t) (d : Py.dict Z Chip.ChipImage) :
  ChipSeries.chips self = Some d →
  Forall (λ ic, Frame.well_formed (Chip.chip_summarize ic.2)) d →
  (d = [] →
   ChipSeries.summarize self = Py.Raise (Py.ValueError "No objects to concatenate"))
  ∧ (d ≠ [] →
     ∃ df,
       ChipSeries.summarize self = Py.Ok df
       ∧ StronglySorted Frame.index_le (Frame.rows df)
       ∧ (∀ col, col ∈ Frame.columns df
                 ↔ col = ChipSeries.series_indexer self
                   ∨ ∃ ic, ic ∈ d ∧ col ∈ Frame.columns (Chip.chip_summarize ic.2))
       ∧ Frame.rows df
         ≡ₚ d ≫= λ ic,
              ChipSeries.stamped_row (ChipSeries.series_indexer self) (Frame.columns df)
                                     ic.1 (Chip.chip_summarize ic.2)
                <$> Frame.rows (Chip.chip_summarize ic.2)).
Proof.
  intros Hchips Hwf. unfold ChipSeries.summarize. rewrite Hchips. split.
  { intros ->. reflexivity. }
  intros Hne. rewrite map_is_fmap.
  set (stamp := λ '(i, r), Frame.set_column (Chip.chip_summarize r)
                             (ChipSeries.series_indexer self) (Frame.VInt i)).
  destruct (concat_well_formed (stamp <$> d)) as (df & Hdf & Hcols & Hrows).
  { destruct d; [done | discriminate]. }
  { apply Forall_fmap. eapply Forall_impl; [exact Hwf|].
    intros [i c] Hc. by apply set_column_well_formed. }
  rewrite Hdf. exists (Frame.sort_index df). split_and!.
  - reflexivity.
  - apply (StronglySorted_merge_sort _).
  - intros col. cbn [Frame.sort_index Frame.columns]. rewrite Hcols. split.
    + intros (f & ([i c] & -> & Hic)%list_elem_of_fmap & Hcol).
      apply set_column_columns in Hcol as [->|Hcol]; [by left|].
      right. by exists (i, c).
    + intros [->|([i c] & Hic & Hcol)].
      * destruct d as [|[i c] d']; [done|]. exists (stamp (i, c)).
        split; [apply list_elem_of_fmap_2; left|].
        apply set_column_columns. by left.
      * exists (stamp (i, c)). split; [by apply list_elem_of_fmap_2|].
        apply set_column_columns. by right.
  - cbn [Frame.sort_index Frame.columns Frame.rows].
    rewrite merge_sort_Permutation, Hrows, bind_fmap_list.
    apply reflexive_eq, list_bind_ext_in.
    eapply Forall_impl; [exact Hwf|]. intros [i c] [_ Hal]. simpl.
    by rewrite set_column_reindex.
Qed.

End chip_series_summary.

Lemma chip_series_summarize_witness :
  (default [] (ChipSeries.chips Fixture.loaded) = [] →
   @ChipSeries.summarize Fixture.library Fixture.loaded
   = Py.Raise (Py.ValueError "No objects to concatenate"))
  ∧ (default [] (ChipSeries.chips Fixture.loaded) ≠ [] →
     ∃ df,
       @ChipSeries.summarize Fixture.library Fixture.loaded = Py.Ok df
       ∧ StronglySorted Frame.index_le (Frame.rows df)
       ∧ (∀ col, col ∈ Frame.columns df
                 ↔ col = ChipSeries.series_indexer Fixture.loaded
                   ∨ ∃ ic, ic ∈ default [] (ChipSeries.chips Fixture.loaded)
                           ∧ col ∈ Frame.columns (@Chip.chip_summarize Fixture.library ic.2))
       ∧ Frame.rows df
         ≡ₚ default [] (ChipSeries.chips Fixture.loaded) ≫= λ ic,
              ChipSeries.stamped_row (ChipSeries.series_indexer Fixture.loaded)
                                     (Frame.columns df) ic.1
                                     (@Chip.chip_summarize Fixture.library ic.2)
                <$> Frame.rows (@Chip.chip_summarize Fixture.library ic.2)).
Proof.
  apply (@chip_series_summarize Fixture.library Fixture.loaded
           (default [] (ChipSeries.chips Fixture.loaded))).
  - vm_compute. reflexivity.
  - by_decision.
Defined.

Example chip_series_summarize_run :
  @ChipSeries.summarize Fixture.library Fixture.loaded
  = Py.Ok (Frame.mk ["id"; "median"; "time_s"]
             [(0, [Frame.VStr "pin_a"; Frame.VInt 500; Frame.VInt 5]);
              (0, [Frame.VStr "pin_a"; Frame.VInt 500; Frame.VInt 1]);
              (0, [Frame.VStr "pin_a"; Frame.VInt 500; Frame.VInt 2]);
              (1, [Frame.VStr "pin_b"; Frame.VInt 501; Frame.VInt 5]);
              (1, [Frame.VStr "pin_b"; Frame.VInt 501; Frame.VInt 1]);
              (1, [Frame.VStr "pin_b"; Frame.VInt 501; Frame.VInt 2])]).
Proof. vm_compute. reflexivity. Qed.

(** * Properties of [StandardSeries] *)

Lemma foldl_max_ge (k : Z) (ks : list Z) :
  k ≤ foldl Z.max k ks ∧ ∀ x, x ∈ ks → x ≤ foldl Z.max k ks.
Proof.
  revert k. induction ks as [|y ks IH]; intros k; simpl.
  - split; [lia | intros x Hx; by apply elem_of_nil in Hx].
  - destruct (IH (Z.max k y)) as [H1 H2]. split; [lia|].
    intros x [->|Hx]%elem_of_cons; [lia | auto].
Qed.

Lemma foldl_max_elem (k : Z) (ks : list Z) : foldl Z.max k ks ∈ k :: ks.
Proof.
  revert k. induction ks as [|y ks IH]; intros k; simpl.
  - left.
  - specialize (IH (Z.max k y)). apply elem_of_cons in IH as [Heq|Hin].
    + rewrite Heq. destruct (Z.max_spec k y) as [[_ ->]|[_ ->]];
        [right; left | left].
    + right; right; done.
Qed.

(** C5: on a series with chips, [get_hs_key] is the greatest key, and
    [process] stamps the chip under it, finds its chambers, and then stamps
    and maps onto each other key once: the keys [rest] mapped onto are the
    keys of the series without the greatest, and the chip under the greatest
    key is the reference of every mapping and the target of none. *)
Theorem standard_series_process (self : ChipSeries.t)
    (d : Py.dict Z Chip.ChipImage) (featuretype : string) :
  ChipSeries.chips self = Some d → d ≠ [] →
  ∃ hs rest,
    StandardSeries.get_hs_key self = Py.Ok hs
    ∧ hs ∈ Py.keys d
    ∧ (∀ k, k ∈ Py.keys d → k ≤ hs)
    ∧ StandardSeries.process self featuretype
      = ([Chip.Stamp hs; Chip.FindChambers hs]
           ++ (rest ≫= λ key,
                 [Chip.Stamp key; Chip.MapTo hs key [("features", featuretype)]]),
         Py.Ok ())
    ∧ NoDup rest
    ∧ ∀ k, k ∈ rest ↔ k ∈ Py.keys d ∧ k ≠ hs.
Proof.
  intros Hchips Hne.
  destruct (Py.keys d) as [|k ks] eqn:Hkeys.
  { destruct d; [done | discriminate]. }
  set (hs := foldl Z.max k ks).
  assert (Hkey : StandardSeries.get_hs_key self = Py.Ok hs).
  { unfold StandardSeries.get_hs_key. rewrite Hchips, Hkeys. done. }
  assert (Hin : hs ∈ Py.keys d) by (rewrite Hkeys; apply foldl_max_elem).
  assert (Hhigh : StandardSeries.get_highstandard self = Py.Ok hs).
  { unfold StandardSeries.get_highstandard. rewrite Hkey, Hchips. simpl.
    apply get_is_Some in Hin as [c ->]. done. }
  exists hs, (elements ((list_to_set (Py.keys d) : gset Z) ∖ {[ hs ]})).
  split_and!.
  - done.
  - by rewrite <-Hkeys.
  - destruct (foldl_max_ge k ks) as [Hk Hks].
    intros x [->|Hx]%elem_of_cons; [exact Hk | by apply Hks].
  - unfold StandardSeries.process, StandardSeries.map_from_hs.
    rewrite Hhigh, Hkey, Hchips. simpl. by rewrite Hkeys.
  - apply NoDup_elements.
  - intros x. rewrite elem_of_elements, elem_of_difference, elem_of_list_to_set,
      elem_of_singleton. by rewrite Hkeys.
Qed.

Lemma standard_series_process_witness :
  ∃ hs rest,
    StandardSeries.get_hs_key
      (ChipSeries.set_chips (StandardSeries.__init__ Fixture.device "cMU" None)
         (Some [(5, Fixture.reference); (250, Fixture.reference); (50, Fixture.reference)]))
    = Py.Ok hs
    ∧ hs ∈ [5; 250; 50]
    ∧ (∀ k, k ∈ [5; 250; 50] → k ≤ hs)
    ∧ StandardSeries.process
        (ChipSeries.set_chips (StandardSeries.__init__ Fixture.device "cMU" None)
           (Some [(5, Fixture.reference); (250, Fixture.reference); (50, Fixture.reference)]))
        "chamber"
      = ([Chip.Stamp hs; Chip.FindChambers hs]
           ++ (rest ≫= λ key,
                 [Chip.Stamp key; Chip.MapTo hs key [("features", "chamber")]]),
         Py.Ok ())
    ∧ NoDup rest
    ∧ ∀ k, k ∈ rest ↔ k ∈ [5; 250; 50] ∧ k ≠ hs.
Proof.
  apply (standard_series_process
           (ChipSeries.set_chips (StandardSeries.__init__ Fixture.device "cMU" None)
              (Some [(5, Fixture.reference); (250, Fixture.reference); (50, Fixture.reference)]))
           [(5, Fixture.reference); (250, Fixture.reference); (50, Fixture.reference)]
           "chamber").
  - reflexivity.
  - discriminate.
Defined.

Example standard_series_process_run :
  StandardSeries.process
    (ChipSeries.set_chips (StandardSeries.__init__ Fixture.device "cMU" None)
       (Some [(5, Fixture.reference); (250, Fixture.reference); (50, Fixture.reference)]))
    "chamber"
  = ([Chip.Stamp 250; Chip.FindChambers 250;
      Chip.Stamp 5; Chip.MapTo 250 5 [("features", "chamber")];
      Chip.Stamp 50; Chip.MapTo 250 50 [("features", "chamber")]],
     Py.Ok ()).
Proof. vm_compute. reflexivity. Qed.

(** * Properties of [ChipQuant] *)
Section chip_quant.
Context `{Chip.Library}.

Lemma process_sets_flag q reference mapped_features :
  ChipQuant.processed (ChipQuant.process q reference mapped_features).1.1 = true →
  ChipQuant.processed q = true ∨ is_Some (ChipQuant.chip q).
Proof.
  unfold ChipQuant.process.
  destruct (ChipQuant.chip q) as [c|] eqn:Hc; [eauto|].
  simpl. auto.
Qed.

Lemma process_keeps_chip q reference mapped_features :
  ChipQuant.chip (ChipQuant.process q reference mapped_features).1.1 = ChipQuant.chip q.
Proof.
  unfold ChipQuant.process.
  destruct (ChipQuant.chip q) as [c|] eqn:Hc; [|done].
  destruct reference; [done|].
  repeat case_match; simpl; done.
Qed.

(** A processed quantification holds a chip. *)
Lemma quant_reachable_processed q :
  ChipQuant.reachable q → ChipQuant.processed q = true → is_Some (ChipQuant.chip q).
Proof.
  induction 1 as [| q path channel exposure Hq IH | q reference mf Hq IH]; simpl.
  - discriminate.
  - eauto.
  - intros Hp. rewrite process_keeps_chip.
    destruct (process_sets_flag _ _ _ Hp); auto.
Qed.

(** C4: [summarize()] raises its [ValueError] if and only if [processed]
    is false; a processed quantification returns the summary table of the
    chip it holds; the object is the same after the call. *)
Theorem quant_summarize_guard (q : ChipQuant.t) :
  ((ChipQuant.summarize q).2 = Py.Raise (Py.ValueError "Must first Process ChipQuant")
   ↔ ChipQuant.processed q = false)
  ∧ (∀ c, ChipQuant.processed q = true → ChipQuant.chip q = Some c →
          (ChipQuant.summarize q).2 = Py.Ok (Chip.chip_summarize c))
  ∧ (ChipQuant.summarize q).1 = q.
Proof.
  unfold ChipQuant.summarize.
  destruct (ChipQuant.processed q) eqn:Hp.
  - destruct (ChipQuant.chip q) as [c|] eqn:Hc; simpl.
    + split_and!; [split; discriminate | intros ? _ [= <-]; done | done].
    + split_and!; [split; discriminate | intros ? _ [=] | done].
  - simpl. split_and!; [done | intros ? [=] | done].
Qed.

(** On every object the class leads to, the call fails in no other way:
    it raises if and only if [processed] is false. *)
Lemma quant_summarize_reachable (q : ChipQuant.t) :
  ChipQuant.reachable q →
  (Py.is_ok (ChipQuant.summarize q).2 = false ↔ ChipQuant.processed q = false).
Proof.
  intros Hq. unfold ChipQuant.summarize.
  destruct (ChipQuant.processed q) eqn:Hp; [|done].
  destruct (quant_reachable_processed q Hq Hp) as [c ->]. done.
Qed.

(** For a truthy export root the test of the directory is never reached:
    the lookup of [isdir] in [os] ends the call, and no file is written. *)
Lemma save_summary_image_root (q : ChipQuant.t) c (root : string) fs :
  ChipQuant.chip q = Some c → root ≠ "" →
  ChipQuant.save_summary_image q (Some root) fs
  = (fs, Py.Raise (Py.AttributeError "module 'os' has no attribute 'isdir'")).
Proof.
  intros Hc Hroot. unfold ChipQuant.save_summary_image. rewrite Hc.
  destruct root; [done|]. reflexivity.
Qed.

(** Without an export root the image goes to [SummaryImages] next to the
    image the chip was loaded from, when that directory can be made and the
    file can be written. *)
Lemma save_summary_image_default (q : ChipQuant.t) c fs :
  ChipQuant.chip q = Some c →
  let target := Os.path_join (Path.str (Path.parent (Chip.data_ref c))) "SummaryImages" in
  ChipQuant.save_summary_image q None fs
  = match Os.makedirs_exist_ok fs target with
    | (fs, Some e) => (fs, Py.Raise (Py.OSError e))
    | (fs, None) =>
        match Os.write_file
                fs (Os.path_join target ("Summary_" +:+ Path.stem (Chip.data_ref c) +:+ ".tif"))
                (Chip.summary_image c "button") with
        | (fs, Some e) => (fs, Py.Raise (Py.OSError e))
        | (fs, None) => (fs, Py.Ok ())
        end
    end.
Proof.
  intros Hc. unfold ChipQuant.save_summary_image. rewrite Hc. reflexivity.
Qed.

End chip_quant.

(** C2: with the existing directory [/export] as export root,
    [save_summary_image] of a loaded quantification ends in an
    [AttributeError] and leaves the file system as it was: no image is
    written, and the [ValueError] of the missing directory cannot be
    reached either. *)
Theorem save_summary_image_existing_root :
  Os.path_isdir Fixture.fs "/export" = true
  ∧ @ChipQuant.save_summary_image Fixture.library Fixture.quant (Some "/export") Fixture.fs
    = (Fixture.fs, Py.Raise (Py.AttributeError "module 'os' has no attribute 'isdir'"))
  ∧ @ChipQuant.save_summary_image Fixture.library Fixture.quant (Some "/missing") Fixture.fs
    = (Fixture.fs, Py.Raise (Py.AttributeError "module 'os' has no attribute 'isdir'")).
Proof. split_and!; vm_compute; reflexivity. Qed.

Example quant_summarize_run :
  @ChipQuant.summarize Fixture.library Fixture.quant
  = (Fixture.quant,
     Py.Ok (Frame.mk ["id"; "median"]
              [(1, [Frame.VStr "pin_b"; Frame.VInt 501]);
               (0, [Frame.VStr "pin_a"; Frame.VInt 500])]))
  ∧ @ChipQuant.summarize Fixture.library
      (ChipQuant.load_file (ChipQuant.__init__ Fixture.device "Button Quant" None)
                           "/data/img_1.tif" "egfp" 500)
    = (ChipQuant.load_file (ChipQuant.__init__ Fixture.device "Button Quant" None)
                           "/data/img_1.tif" "egfp" 500,
       Py.Raise (Py.ValueError "Must first Process ChipQuant")).
Proof. split; vm_compute; reflexivity. Qed.

Example save_summary_image_default_run :
  @ChipQuant.save_summary_image Fixture.library Fixture.quant None Fixture.fs
  = (Os.mkfs ["/data"; "/export"; "/data/SummaryImages"]
             [("/data/img_1.tif", "raster"); ("/data/img_2.tif", "raster");
              ("/data/img_5.tif", "raster");
              ("/data/SummaryImages/Summary_img_1.tif",
               "button overlay of /data/img_1.tif")],
     Py.Ok ()).
Proof. vm_compute. reflexivity. Qed.

(** * Properties of [TurnoverAssay] *)
Section turnover_assay.
Context `{Chip.Library}.

Lemma list_ascii_app (a b : string) :
  String.list_ascii_of_string (a +:+ b)
  = String.list_ascii_of_string a ++ String.list_ascii_of_string b.
Proof.
  induction a as [|c a IH]; [reflexivity|].
  change (c :: String.list_ascii_of_string (a +:+ b)
          = c :: (String.list_ascii_of_string a ++ String.list_ascii_of_string b)).
  rewrite IH. reflexivity.
Qed.

Lemma append_inj_r (a b s : string) : a +:+ s = b +:+ s → a = b.
Proof.
  intros Heq. apply (f_equal String.list_ascii_of_string) in Heq.
  rewrite !list_ascii_app in Heq. apply app_inv_tail in Heq.
  apply (f_equal String.string_of_list_ascii) in Heq.
  rewrite !String.string_of_list_ascii_of_string in Heq. exact Heq.
Qed.

(** The table the loop keeps for a quant is the whole summary under
    suffixed labels: the [id] column is still there, as [id] with the
    suffix. *)
Lemma cleaned_keeps_id (quant : ChipQuant.t) (df : Frame.t) :
  TurnoverAssay.cleaned quant = Py.Ok df →
  ∃ c, ChipQuant.chip quant = Some c
       ∧ "id" ∈ Frame.columns (Chip.chip_summarize c)
       ∧ df = Frame.add_suffix (Chip.chip_summarize c)
                ("_" +:+ Py.replace " " "_" (ChipQuant.description quant))
       ∧ "id" +:+ "_" +:+ Py.replace " " "_" (ChipQuant.description quant)
         ∈ Frame.columns df.
Proof.
  unfold TurnoverAssay.cleaned.
  destruct (ChipQuant.chip quant) as [c|]; [|discriminate].
  destruct (Frame.drop (Chip.chip_summarize c) ["id"]) as [toAdd|e] eqn:Hdrop;
    [|discriminate].
  simpl. intros [= <-]. exists c.
  assert (Hid : "id" ∈ Frame.columns (Chip.chip_summarize c)).
  { unfold Frame.drop in Hdrop. simpl in Hdrop.
    destruct (bool_decide ("id" ∈ Frame.columns (Chip.chip_summarize c))) eqn:Hin;
      [by apply bool_decide_eq_true_1 in Hin | discriminate]. }
  split_and!; [done | done | done |].
  unfold Frame.add_suffix. simpl.
  apply list_elem_of_fmap. by exists "id".
Qed.

(** C1, at the loop of [merge_summarize] (lines 683-687): for a quant whose
    chip has a summary with an [id] column, the table without that column
    is computed, and the table that is appended to the list to join is not
    that one but the whole summary under the suffix.  The appended table
    has as many columns as the summary and among them [id] with the suffix,
    which the table without [id] would not have under the same suffix: the
    [id] column of the quant is not dropped. *)
Theorem merge_summarize_keeps_id (quant : ChipQuant.t) (c : Chip.ChipImage) :
  ChipQuant.chip quant = Some c →
  "id" ∈ Frame.columns (Chip.chip_summarize c) →
  let suffix := "_" +:+ Py.replace " " "_" (ChipQuant.description quant) in
  let appended := Frame.add_suffix (Chip.chip_summarize c) suffix in
  TurnoverAssay.cleaned quant = Py.Ok appended
  ∧ "id" +:+ suffix ∈ Frame.columns appended
  ∧ length (Frame.columns appended) = length (Frame.columns (Chip.chip_summarize c))
  ∧ Frame.rows appended = Frame.rows (Chip.chip_summarize c)
  ∧ ∃ toAdd,
      Frame.drop (Chip.chip_summarize c) ["id"] = Py.Ok toAdd
      ∧ ("id" ∉ Frame.columns toAdd)
      ∧ ("id" +:+ suffix ∉ Frame.columns (Frame.add_suffix toAdd suffix)).
Proof.
  intros Hc Hid suffix appended.
  assert (Hdrop : Frame.drop (Chip.chip_summarize c) ["id"]
                  = Py.Ok (Frame.mk
                             (List.filter (λ col, negb (bool_decide (col ∈ ["id"])))
                                          (Frame.columns (Chip.chip_summarize c)))
                             ((λ r : Frame.row,
                                 (r.1, Frame.without (Frame.columns (Chip.chip_summarize c))
                                                     r.2 ["id"]))
                                <$> Frame.rows (Chip.chip_summarize c)))).
  { unfold Frame.drop. cbn [List.find]. rewrite (bool_decide_eq_true_2 _ Hid). reflexivity. }
  assert (Hnot : "id" ∉ List.filter (λ col, negb (bool_decide (col ∈ ["id"])))
                                    (Frame.columns (Chip.chip_summarize c))).
  { intros Hin. apply list_elem_of_In, filter_In in Hin as [_ Hkeep].
    rewrite bool_decide_eq_true_2 in Hkeep by left. discriminate Hkeep. }
  split_and!.
  - unfold TurnoverAssay.cleaned. rewrite Hc, Hdrop. reflexivity.
  - unfold appended, Frame.add_suffix. cbn [Frame.columns].
    apply list_elem_of_fmap. exists "id". split; [reflexivity|exact Hid].
  - unfold appended, Frame.add_suffix. cbn [Frame.columns]. apply length_fmap.
  - reflexivity.
  - eexists. split; [exact Hdrop|]. cbn [Frame.columns]. split; [exact Hnot|].
    unfold Frame.add_suffix. cbn [Frame.columns].
    intros (col & Heq & Hcol)%list_elem_of_fmap.
    apply append_inj_r in Heq. subst col. exact (Hnot Hcol).
Qed.

End turnover_assay.

Lemma merge_summarize_keeps_id_witness :
  ChipQuant.chip Fixture.quant = Some (Chip.mk Fixture.device (Path.of_str "/data/img_1.tif")
                                               [] (Chip.corners Fixture.device)
                                               (Chip.pinlist Fixture.device) "egfp" 500)
  ∧ @TurnoverAssay.cleaned Fixture.library Fixture.quant
    = Py.Ok (Frame.mk ["id_Button_Quant"; "median_Button_Quant"]
                      [(1, [Frame.VStr "pin_b"; Frame.VInt 501]);
                       (0, [Frame.VStr "pin_a"; Frame.VInt 500])])
  ∧ "id_Button_Quant" ∈ ["id_Button_Quant"; "median_Button_Quant"].
Proof.
  assert (Hc : ChipQuant.chip Fixture.quant
               = Some (Chip.mk Fixture.device (Path.of_str "/data/img_1.tif")
                               [] (Chip.corners Fixture.device)
                               (Chip.pinlist Fixture.device) "egfp" 500))
    by reflexivity.
  destruct (@merge_summarize_keeps_id Fixture.library Fixture.quant _ Hc)
    as (Hcleaned & Hid & _).
  - by_decision.
  - split_and!; [exact Hc|exact Hcleaned|exact Hid].
Defined.

(** * Properties of [AssaySeries] *)

Lemma refs_lookup (a b : list string) (c : string) (d : Z) (n i : nat) ref :
  AssaySeries.refs a b c d n !! i = Some ref
  ↔ ∃ x y, ref = (x, y, c, d) ∧ a !! i = Some x ∧ b !! i = Some y ∧ (i < n)%nat.
Proof.
  unfold AssaySeries.refs. split.
  - intros (((x & y) & c') & d' & -> & Hxyc & Hd)%lookup_zip_with_Some.
    apply lookup_zip_with_Some in Hxyc as ((x' & y') & c'' & [= <- <-] & Hxy & Hc).
    apply lookup_zip_with_Some in Hxy as (x' & y' & [= <- <-] & Hx & Hy).
    apply lookup_replicate in Hc as [-> Hi]. apply lookup_replicate in Hd as [-> _].
    exists x, y. subst. split_and!; done.
  - intros (x & y & -> & Hx & Hy & Hi).
    apply lookup_zip_with_Some. exists (x, y, c), d. split_and!; [done| |by apply lookup_replicate].
    apply lookup_zip_with_Some. exists (x, y), c. split_and!; [done| |by apply lookup_replicate].
    apply lookup_zip_with_Some. by exists x, y.
Qed.

Lemma refs_descriptions (a b : list string) (c : string) (d : Z) (n : nat) :
  (AssaySeries.refs a b c d n).*1.*1.*1 = take (min (length b) n) a.
Proof.
  unfold AssaySeries.refs. revert b n.
  induction a as [|x a IH]; intros [|y b] [|n]; simpl; try done.
  f_equal. apply IH.
Qed.



Lemma length_keys {K V} (d : Py.dict K V) : length (Py.keys d) = length d.
Proof. apply length_fmap. Qed.

Lemma refs_elem_keys (a b : list string) (c : string) (d : Z) (n : nat) ref :
  ref ∈ AssaySeries.refs a b c d n → ref.1.1.1 ∈ a.
Proof.
  intros (i & Hi)%list_elem_of_lookup_1.
  apply refs_lookup in Hi as (x & y & -> & Hx & _). simpl.
  by eapply list_elem_of_lookup_2.
Qed.





Example load_quants_broadcast_run :
  (λ '(self', r),
     (r, (λ a, (λ q, Chip.data_ref <$> ChipQuant.chip q) <$> Assay.quants a)
           <$> Py.values (AssaySeries.assays self')))
    (AssaySeries.load_quants Fixture.assay_series ["any"] ["/q/b.tif"] "egfp" 100)
  = (Py.Ok (), [[Some (Path.of_str "/q/b.tif")]; [Some (Path.of_str "/q/b.tif")]]).
Proof. vm_compute. reflexivity. Qed.

Lemma mapM_raise {A B} (f : A → Py.res B) (l : list A) e :
  mapM f l = Py.Raise e → ∃ x, x ∈ l ∧ f x = Py.Raise e.
Proof.
  induction l as [|x l IH]; simpl; [discriminate|].
  destruct (f x) as [y|e'] eqn:Hx; simpl.
  - destruct (mapM f l) as [ys|e'']; simpl; [discriminate|].
    intros [= ->]. destruct IH as (x' & Hin & Hx'); [done|].
    exists x'. split; [by right | done].
  - intros [= ->]. exists x. split; [left | done].
Qed.

Lemma int_raise (s : string) e :
  Py.int s = Py.Raise e → e = Py.int_error s ∨ ∃ n, e = Py.int_limit_error n.
Proof.
  unfold Py.int. cbv zeta.
  destruct (match Py.rstrip (Py.lstrip s) with
            | String "-" t => (true, Py.unsigned t)
            | String "+" t => (false, Py.unsigned t)
            | _ => (false, Py.unsigned (Py.rstrip (Py.lstrip s)))
            end) as [negative [| n | z]].
  - intros [= <-]. left. reflexivity.
  - intros [= <-]. right. exists n. reflexivity.
  - discriminate.
Qed.

(** What [glob] raises depends on the pattern alone. *)
Lemma glob_raise fs (d : Path.t) (pattern : string) e :
  Os.glob fs d pattern = Py.Raise e → Os.glob_error pattern = Some e.
Proof.
  unfold Os.glob. destruct (Os.glob_error pattern) as [e'|]; [|discriminate].
  intros [= ->]. reflexivity.
Qed.

Lemma glob_error_cases (pattern : string) e :
  Os.glob_error pattern = Some e →
  e ∈ [Py.ValueError "Unacceptable pattern: ''";
       Py.NotImplementedError "Non-relative patterns are unsupported";
       Py.IndexError "tuple index out of range";
       Py.AttributeError "'_TerminatingSelector' object has no attribute 'select_from'";
       Py.ValueError "Invalid pattern: '**' can only be an entire path component"].
Proof.
  unfold Os.glob_error.
  repeat case_match; intros [= <-]; set_solver.
Qed.

Lemma index_of_error path e :
  ChipSeries.index_of path = Py.Raise e → e ≠ AssaySeries.load_kin_error.
Proof.
  unfold ChipSeries.index_of, Py.last_item.
  destruct (last _) as [txt|]; simpl.
  - intros [->|[n ->]]%int_raise Heq; discriminate Heq.
  - intros [= <-] Heq. discriminate Heq.
Qed.

Lemma load_files_error fs self root channel exposure indexes custom_glob self' e :
  ChipSeries.load_files fs self root channel exposure indexes custom_glob
  = (self', Py.Raise e) →
  e ≠ AssaySeries.load_kin_error.
Proof.
  unfold ChipSeries.load_files. cbv zeta.
  destruct (negb _); [|discriminate].
  destruct (Os.glob _ _ _) as [found|e'] eqn:Hglob.
  - destruct (mapM _ _) as [items|e'] eqn:Hmap; [discriminate|].
    intros [= _ ->]. apply mapM_raise in Hmap as (path & _ & Hpath).
    destruct (ChipSeries.index_of path) as [k|e''] eqn:Hidx; [discriminate|].
    simpl in Hpath. injection Hpath as ->. by eapply index_of_error.
  - intros [= _ ->]. apply glob_raise, glob_error_cases in Hglob.
    repeat (apply elem_of_cons in Hglob as [->|Hglob]; [intros Heq; discriminate Heq|]).
    by apply elem_of_nil in Hglob.
Qed.

Lemma load_kin_loop_error fs (self : AssaySeries.t) kin_refs self' e :
  AssaySeries.load_kin_loop fs self kin_refs = (self', Py.Raise e) →
  e ≠ AssaySeries.load_kin_error.
Proof.
  revert self. induction kin_refs as [|[[[desc p] chan] exp] rest IH]; intros self; simpl.
  - discriminate.
  - destruct (AssaySeries.new_timecourse _ _ _ _ _ _) as [t [[]|e']] eqn:Hload.
    + destruct (Py.get _ _); [apply IH | intros [= _ <-] Heq; discriminate Heq].
    + intros [= _ <-]. by eapply load_files_error.
Qed.

Lemma load_kin_loop_ok fs (self : AssaySeries.t) kin_refs :
  NoDup kin_refs.*1.*1.*1 →
  (∀ ref, ref ∈ kin_refs → ref.1.1.1 ∈ Py.keys (AssaySeries.assays self)) →
  (∀ desc p chan exp,
     (desc, p, chan, exp) ∈ kin_refs →
     (AssaySeries.new_timecourse fs (AssaySeries.device self) desc p chan exp).2 = Py.Ok ()) →
  ∃ assays',
    AssaySeries.load_kin_loop fs self kin_refs
    = (AssaySeries.set_assays self assays', Py.Ok ())
    ∧ Py.keys assays' = Py.keys (AssaySeries.assays self)
    ∧ (∀ i desc p chan exp a,
         kin_refs !! i = Some (desc, p, chan, exp) →
         Py.get (AssaySeries.assays self) desc = Some a →
         Py.get assays' desc
         = Some (Assay.set_series a
                   (AssaySeries.new_timecourse fs (AssaySeries.device self)
                                               desc p chan exp).1))
    ∧ (∀ k, k ∉ kin_refs.*1.*1.*1 → Py.get assays' k = Py.get (AssaySeries.assays self) k).
Proof.
  revert self.
  induction kin_refs as [|[[[desc p] chan] exp] rest IH]; intros self Hnd Hin Hload.
  - exists (AssaySeries.assays self). simpl. split_and!; [by destruct self | done | | done].
    intros i ?????; by rewrite lookup_nil.
  - simpl in Hnd. apply NoDup_cons in Hnd as [Hdesc Hnd]. simpl.
    assert (Hk : desc ∈ Py.keys (AssaySeries.assays self)).
    { apply (Hin (desc, p, chan, exp)). left. }
    specialize (Hload desc p chan exp) as Hhead.
    destruct (AssaySeries.new_timecourse fs (AssaySeries.device self) desc p chan exp)
      as [t r] eqn:Ht.
    simpl in Hhead. rewrite Hhead by left.
    destruct (Py.get (AssaySeries.assays self) desc) as [a|] eqn:Hget;
      [|by apply get_None in Hget].
    set (self1 := AssaySeries.set_assays self _).
    destruct (IH self1 Hnd) as (assays' & Hloop & Hkeys & Hhit & Hmiss).
    { intros ref Href. unfold self1. simpl. rewrite keys_set by done.
      apply Hin. by right. }
    { intros desc' p' chan' exp' Href. apply Hload. by right. }
    exists assays'. split_and!.
    + rewrite Hloop. by destruct self.
    + rewrite Hkeys. unfold self1. simpl. by rewrite keys_set.
    + intros [|i] desc' p' chan' exp' a' Hi Ha'.
      * injection Hi as <- <- <- <-. rewrite Hmiss by done.
        unfold self1. simpl. rewrite get_set_eq, Ht. simpl. congruence.
      * simpl in Hi. assert (desc' ≠ desc).
        { intros ->. apply Hdesc. apply list_elem_of_lookup_2 in Hi.
          do 3 apply (list_elem_of_fmap_2 fst) in Hi. exact Hi. }
        apply (Hhit i); [done|]. unfold self1. simpl.
        by rewrite get_set_ne.
    + intros k Hk'. simpl in Hk'. apply not_elem_of_cons in Hk' as [Hne Hk'].
      rewrite Hmiss by done. unfold self1. simpl. by rewrite get_set_ne.
Qed.

Lemma mapM_all_ok {A B} (f : A → Py.res B) (l : list A) :
  Forall (λ x, Py.is_ok (f x) = true) l → ∃ ys, mapM f l = Py.Ok ys.
Proof.
  induction 1 as [|x l Hx _ [ys IH]]; [by exists []|].
  simpl in *. destruct (f x) as [y|e]; [|simpl in Hx; discriminate Hx].
  rewrite IH. simpl. eauto.
Qed.

(** The timecourse of a directory whose files all have a key. *)
Lemma new_timecourse_loaded fs (device : Chip.Device) (desc p chan : string) (exp : Z) :
  Forall (λ path, Py.is_ok (ChipSeries.index_of path) = true)
         (ChipSeries.img_paths fs p None) →
  ∃ items,
    mapM (λ path, k ← ChipSeries.index_of path; Py.Ok (k, path))
         (ChipSeries.img_paths fs p None) = Py.Ok items
    ∧ AssaySeries.new_timecourse fs device desc p chan exp
      = (ChipSeries.mk ChipSeries.Time device None "time_s" desc
           (Some (Py.of_items
                    (List.map
                       (λ '(identifier, source),
                          (identifier,
                           Chip.mk device source [("time_s", identifier)]
                                   (Chip.corners device) (Chip.pinlist device) chan exp))
                       (Py.of_items items))))
           (Some p),
         Py.Ok ()).
Proof.
  intros Hall.
  destruct (mapM_all_ok (λ path, k ← ChipSeries.index_of path; Py.Ok (k, path))
                        (ChipSeries.img_paths fs p None)) as [items Hitems].
  { eapply Forall_impl; [exact Hall|]. intros path Hpath. simpl in *.
    destruct (ChipSeries.index_of path); [reflexivity|simpl in Hpath; discriminate Hpath]. }
  exists items. split; [exact Hitems|].
  revert Hitems. unfold AssaySeries.new_timecourse, ChipSeries.load_files, ChipSeries.img_paths.
  cbv zeta. cbn [Py.truthy_str Py.truthy_list negb].
  unfold Os.glob.
  assert (Hpattern : Os.glob_error ChipSeries.default_glob = None) by (vm_compute; reflexivity).
  rewrite Hpattern. intros ->. reflexivity.
Qed.

(** C6: [load_kin] raises its [ValueError] if and only if the number of
    descriptions is not the number of assays.  With as many descriptions
    as assays and as many paths, the descriptions distinct keys of the
    assays and every file found in a directory named by a key, the call
    returns and changes only the assays, whose keys stay in place; every
    assay is named by one position of the descriptions and no other; and
    the assay at a position keeps its fields but the series, which is a
    timecourse of the device under the description of the assay, rooted
    at the path at that position, with a chip for every file found there
    under the key of the file, of the channel and the exposure of the
    call. *)
Theorem load_kin_spec fs (self : AssaySeries.t) (descriptions paths : list string)
    (channel : string) (exposure : Z) :
  ((AssaySeries.load_kin fs self descriptions paths channel exposure).2
   = Py.Raise AssaySeries.load_kin_error
   ↔ length descriptions ≠ length (AssaySeries.assays self))
  ∧ (length descriptions = length (AssaySeries.assays self) →
     length paths = length descriptions →
     NoDup descriptions →
     (∀ desc, desc ∈ descriptions → desc ∈ Py.keys (AssaySeries.assays self)) →
     (∀ p, p ∈ paths →
           Forall (λ path, Py.is_ok (ChipSeries.index_of path) = true)
                  (ChipSeries.img_paths fs p None)) →
     ∃ self',
       AssaySeries.load_kin fs self descriptions paths channel exposure = (self', Py.Ok ())
       ∧ self' = AssaySeries.mk (AssaySeries.device self) (AssaySeries.assays self')
                                (AssaySeries.chamber_ref self) (AssaySeries.button_ref self)
                                (AssaySeries.chamber_root self)
                                (AssaySeries.button_root self) (AssaySeries.attrs self)
       ∧ Py.keys (AssaySeries.assays self') = Py.keys (AssaySeries.assays self)
       ∧ (∀ k, k ∈ Py.keys (AssaySeries.assays self) →
               ∃ i, descriptions !! i = Some k
                    ∧ ∀ j, descriptions !! j = Some k → j = i)
       ∧ (∀ i desc p a,
            descriptions !! i = Some desc → paths !! i = Some p →
            Py.get (AssaySeries.assays self) desc = Some a →
            ∃ items,
              mapM (λ path, k ← ChipSeries.index_of path; Py.Ok (k, path))
                   (ChipSeries.img_paths fs p None) = Py.Ok items
              ∧ Py.get (AssaySeries.assays self') desc
                = Some (Assay.mk (Assay.device a) (Assay.attrs a) (Assay.description a)
                          (Some (ChipSeries.mk ChipSeries.Time (AssaySeries.device self)
                                   None "time_s" desc
                                   (Some (Py.of_items
                                            (List.map
                                               (λ '(identifier, source),
                                                  (identifier,
                                                   Chip.mk (AssaySeries.device self) source
                                                     [("time_s", identifier)]
                                                     (Chip.corners (AssaySeries.device self))
                                                     (Chip.pinlist (AssaySeries.device self))
                                                     channel exposure))
                                               (Py.of_items items))))
                                   (Some p)))
                          (Assay.quants a)))).
Proof.
  split.
  - unfold AssaySeries.load_kin.
    destruct (length descriptions =? length (AssaySeries.assays self))%nat eqn:Hlen; simpl.
    + apply Nat.eqb_eq in Hlen. split; [|done].
      destruct (AssaySeries.load_kin_loop _ _ _) as [self' [[]|e]] eqn:Hloop; simpl;
        [discriminate|].
      intros [= ->]. by apply load_kin_loop_error in Hloop.
    + apply Nat.eqb_neq in Hlen. done.
  - intros Hlen Hpaths Hnd Hin Hload. unfold AssaySeries.load_kin.
    rewrite (proj2 (Nat.eqb_eq _ _) Hlen). simpl.
    set (kin_refs := AssaySeries.refs _ _ _ _ _).
    assert (Hdescs : kin_refs.*1.*1.*1 = descriptions).
    { unfold kin_refs. rewrite refs_descriptions. apply take_ge. lia. }
    destruct (load_kin_loop_ok fs self kin_refs) as (assays' & Hloop & Hkeys & Hhit & _).
    { by rewrite Hdescs. }
    { intros ref Href. by eapply Hin, refs_elem_keys. }
    { intros desc p chan exp (i & Hi)%list_elem_of_lookup_1.
      apply refs_lookup in Hi as (x & y & [= -> -> -> ->] & Hx & Hy & _).
      destruct (new_timecourse_loaded fs (AssaySeries.device self) x y channel exposure)
        as (items & _ & ->); [|reflexivity].
      apply Hload. by eapply list_elem_of_lookup_2. }
    exists (AssaySeries.set_assays self assays'). split_and!; [done | done | done | |].
    + intros k Hk.
      assert (Hperm : descriptions ≡ₚ Py.keys (AssaySeries.assays self)).
      { apply submseteq_length_Permutation; [by apply NoDup_submseteq|].
        rewrite length_keys. lia. }
      rewrite <-Hperm in Hk. apply list_elem_of_lookup_1 in Hk as [i Hi].
      exists i. split; [done|]. intros j Hj. by eapply NoDup_lookup.
    + intros i desc p a Hi Hp Hget.
      destruct (new_timecourse_loaded fs (AssaySeries.device self) desc p channel exposure)
        as (items & Hitems & Htc).
      { apply Hload. by eapply list_elem_of_lookup_2. }
      exists items. split; [exact Hitems|].
      cbn [AssaySeries.assays AssaySeries.set_assays].
      rewrite (Hhit i desc p channel exposure a); [|
        apply refs_lookup; exists desc, p; split_and!; [done | done | done |];
        apply lookup_lt_Some in Hi; lia | done].
      rewrite Htc. reflexivity.
Qed.

Lemma load_kin_spec_witness :
  NoDup ["mut"; "wt"]
  ∧ ∃ self',
      AssaySeries.load_kin Fixture.kinetics_fs Fixture.assay_series
                           ["mut"; "wt"] ["/k/mut"; "/k/wt"] "egfp" 100
      = (self', Py.Ok ())
      ∧ Py.keys (AssaySeries.assays self') = ["wt"; "mut"]
      ∧ (∀ k, k ∈ ["wt"; "mut"] →
              ∃ i, ["mut"; "wt"] !! i = Some k ∧ ∀ j, ["mut"; "wt"] !! j = Some k → j = i)
      ∧ (∀ i desc p a,
           ["mut"; "wt"] !! i = Some desc → ["/k/mut"; "/k/wt"] !! i = Some p →
           Py.get (AssaySeries.assays Fixture.assay_series) desc = Some a →
           ∃ items,
             mapM (λ path, k ← ChipSeries.index_of path; Py.Ok (k, path))
                  (ChipSeries.img_paths Fixture.kinetics_fs p None) = Py.Ok items
             ∧ Py.get (AssaySeries.assays self') desc
               = Some (Assay.mk (Assay.device a) (Assay.attrs a) (Assay.description a)
                         (Some (ChipSeries.mk ChipSeries.Time Fixture.device
                                  None "time_s" desc
                                  (Some (Py.of_items
                                           (List.map
                                              (λ '(identifier, source),
                                                 (identifier,
                                                  Chip.mk Fixture.device source
                                                    [("time_s", identifier)]
                                                    (Chip.corners Fixture.device)
                                                    (Chip.pinlist Fixture.device)
                                                    "egfp" 100))
                                              (Py.of_items items))))
                                  (Some p)))
                         (Assay.quants a))).
Proof.
  assert (Hnd : NoDup ["mut"; "wt"])
    by (by_decision).
  split; [exact Hnd|].
  destruct (load_kin_spec Fixture.kinetics_fs Fixture.assay_series
                          ["mut"; "wt"] ["/k/mut"; "/k/wt"] "egfp" 100) as [_ Hvalid].
  destruct Hvalid as (self' & Hrun & _ & Hk & Honce & Hhit);
    [reflexivity | reflexivity | exact Hnd | | |].
  - intros desc Hdesc. apply (bool_decide_unpack _).
    repeat (apply elem_of_cons in Hdesc as [-> | Hdesc]; [vm_compute; exact I |]).
    by apply elem_of_nil in Hdesc.
  - intros p Hp.
    repeat (apply elem_of_cons in Hp as [-> | Hp]; [by_decision |]).
    by apply elem_of_nil in Hp.
  - exists self'. split_and!; [exact Hrun | exact Hk | exact Honce | exact Hhit].
Defined.

Example load_kin_run :
  (λ '(self', r),
     (r, (λ a, ChipSeries.key_set <$> Assay.series a)
           <$> Py.values (AssaySeries.assays self')))
    (AssaySeries.load_kin Fixture.kinetics_fs Fixture.assay_series
                          ["mut"; "wt"] ["/k/mut"; "/k/wt"] "egfp" 100)
  = (Py.Ok (), [Some {[ 0; 30 ]}; Some {[ 0 ]}]).
Proof. vm_compute. reflexivity. Qed.

(** * More of the module *)

(** * More on dictionaries *)
Section dict_more.
Context {K V : Type} `{EqDecision K}.
Implicit Types (d : Py.dict K V) (k : K) (v : V) (items : list (K * V)).

Lemma keys_set_fresh d k v : k ∉ Py.keys d → Py.set d k v = d ++ [(k, v)].
Proof.
  unfold Py.keys. induction d as [|[k' v'] d IH]; simpl; intros Hk; [done|].
  apply not_elem_of_cons in Hk as [Hne Hk].
  rewrite decide_False by done. by rewrite IH.
Qed.

Lemma keys_set_any d k v :
  Py.keys (Py.set d k v) = if decide (k ∈ Py.keys d) then Py.keys d else Py.keys d ++ [k].
Proof.
  destruct (decide (k ∈ Py.keys d)) as [Hin|Hout].
  - by apply keys_set.
  - rewrite keys_set_fresh by done. unfold Py.keys. by rewrite fmap_app.
Qed.

Lemma NoDup_keys_set d k v : NoDup (Py.keys d) → NoDup (Py.keys (Py.set d k v)).
Proof.
  intros Hnd. rewrite keys_set_any. case_decide; [done|].
  apply NoDup_app. split_and!; [done | | apply NoDup_singleton].
  intros x Hx ->%list_elem_of_singleton. done.
Qed.

Lemma elem_of_keys_set d k v x :
  x ∈ Py.keys (Py.set d k v) ↔ x = k ∨ x ∈ Py.keys d.
Proof.
  rewrite keys_set_any. case_decide.
  - split; [by right | by intros [->|?]].
  - rewrite elem_of_app, list_elem_of_singleton. tauto.
Qed.

Lemma length_set_le d k v : (length d ≤ length (Py.set d k v) ≤ S (length d))%nat.
Proof.
  rewrite <-!(length_fmap fst). change (fst <$> ?x) with (Py.keys x).
  rewrite keys_set_any. case_decide; [lia|]. rewrite length_app. simpl. lia.
Qed.

Lemma NoDup_keys_fill acc items : NoDup (Py.keys acc) → NoDup (Py.keys (Py.fill acc items)).
Proof.
  revert acc. induction items as [|[k v] items IH]; intros acc Hnd; [done|].
  simpl. by apply IH, NoDup_keys_set.
Qed.

Lemma elem_of_keys_fill acc items x :
  x ∈ Py.keys (Py.fill acc items) ↔ x ∈ Py.keys acc ∨ x ∈ items.*1.
Proof.
  revert acc. induction items as [|[k v] items IH]; intros acc; simpl.
  - split; [by left | intros [?|Hx]; [done | by apply elem_of_nil in Hx]].
  - rewrite IH, elem_of_keys_set, elem_of_cons. tauto.
Qed.

Lemma get_fill acc items k v :
  Py.get (Py.fill acc items) k = Some v → (k, v) ∈ items ∨ Py.get acc k = Some v.
Proof.
  revert acc. induction items as [|[k' v'] items IH]; intros acc; simpl; [by right|].
  intros [Hin|Hget]%IH; [left; by right|].
  destruct (decide (k' = k)) as [->|Hne].
  - rewrite get_set_eq in Hget. injection Hget as ->. left; left.
  - rewrite get_set_ne in Hget by done. by right.
Qed.

Lemma length_fill acc items : (length (Py.fill acc items) ≤ length acc + length items)%nat.
Proof.
  revert acc. induction items as [|[k v] items IH]; intros acc; simpl; [lia|].
  specialize (IH (Py.set acc k v)). pose proof (length_set_le acc k v). lia.
Qed.

Lemma fill_fresh acc items :
  NoDup (Py.keys acc ++ items.*1) → Py.fill acc items = acc ++ items.
Proof.
  revert acc. induction items as [|[k v] items IH]; intros acc Hnd; simpl.
  - by rewrite app_nil_r.
  - simpl in Hnd. rewrite keys_set_fresh.
    + rewrite IH; [by rewrite <-app_assoc|].
      unfold Py.keys. rewrite fmap_app. simpl. by rewrite <-app_assoc.
    + apply NoDup_app in Hnd as (_ & Hdis & _). intros Hk.
      apply (Hdis k Hk). left.
Qed.

Lemma NoDup_keys_of_items items : NoDup (Py.keys (Py.of_items items)).
Proof. apply (NoDup_keys_fill []). constructor. Qed.

Lemma elem_of_keys_of_items items x : x ∈ Py.keys (Py.of_items items) ↔ x ∈ items.*1.
Proof.
  unfold Py.of_items. rewrite (elem_of_keys_fill [] items x).
  split; [intros [Hx|?]; [by apply elem_of_nil in Hx | done] | by right].
Qed.

Lemma get_of_items items k v : Py.get (Py.of_items items) k = Some v → (k, v) ∈ items.
Proof. intros [?|[=]]%(get_fill []). done. Qed.

Lemma length_of_items items : (length (Py.of_items items) ≤ length items)%nat.
Proof. apply (length_fill []). Qed.

Lemma of_items_NoDup items : NoDup items.*1 → Py.of_items items = items.
Proof. intros Hnd. apply (fill_fresh [] items). done. Qed.

End dict_more.

(** * Loading a directory *)

Lemma split_not_nil (sep : ascii) (s : string) : Py.split sep s ≠ [].
Proof.
  induction s as [|c s IH]; simpl; [done|].
  destruct (Ascii.eqb c sep); [done|]. by destruct (Py.split sep s).
Qed.

Lemma mapM_ok {A B} (f : A → Py.res B) (l : list A) (ys : list B) :
  mapM f l = Py.Ok ys → Forall2 (λ x y, f x = Py.Ok y) l ys.
Proof.
  revert ys. induction l as [|x l IH]; simpl; intros ys.
  - intros [= <-]. constructor.
  - destruct (f x) as [y|e] eqn:Hx; simpl; [|discriminate].
    destruct (mapM f l) as [ys'|e]; simpl; [|discriminate].
    intros [= <-]. constructor; [done | by apply IH].
Qed.

Lemma load_files_unfold fs (self : ChipSeries.t) root channel exposure indexes custom_glob :
  ChipSeries.load_files fs self root channel exposure indexes custom_glob
  = let self1 := ChipSeries.set_series_root self (Some root) in
    if negb (Py.truthy_list indexes) then
      match Os.glob fs (Path.of_str root)
                    (if Py.truthy_str custom_glob then default "" custom_glob
                     else ChipSeries.default_glob) with
      | Py.Raise e => (self1, Py.Raise e)
      | Py.Ok _ =>
          match mapM (λ path, k ← ChipSeries.index_of path; Py.Ok (k, path))
                     (ChipSeries.img_paths fs root custom_glob) with
          | Py.Raise e => (self1, Py.Raise e)
          | Py.Ok items =>
              (ChipSeries.set_chips self1
                 (Some (Py.of_items
                          (List.map
                             (λ '(identifier, source),
                                (identifier,
                                 ChipSeries.new_chip self1 identifier source channel
                                                     exposure))
                             (Py.of_items items)))),
               Py.Ok ())
          end
      end
    else (self1, Py.Ok ()).
Proof.
  unfold ChipSeries.load_files, ChipSeries.img_paths. cbv zeta.
  destruct (negb _); [|reflexivity].
  destruct (Os.glob _ _ _); reflexivity.
Qed.

Lemma index_of_raise path e :
  ChipSeries.index_of path = Py.Raise e →
  ∃ txt, last (Py.split "_" (Path.stem path)) = Some txt
         ∧ Py.int txt = Py.Raise e
         ∧ (e = Py.int_error txt ∨ ∃ n, e = Py.int_limit_error n).
Proof.
  unfold ChipSeries.index_of, Py.last_item.
  destruct (last _) as [txt|] eqn:Hlast; simpl.
  - intros Hint. exists txt. split_and!; [done | done |].
    exact (int_raise _ _ Hint).
  - apply last_None in Hlast. by apply split_not_nil in Hlast.
Qed.

(** X1: when [load_files] raises, no indexes were given and the object has
    only its root set; the exception is either the one [glob] has for the
    pattern, which is one of five and does not depend on the file system, or
    it comes from [int] for the text after the last underscore of the stem
    of one of the files found: the [ValueError] of an invalid literal, or
    the one of a literal of too many digits. *)
Theorem load_files_failure fs (self self' : ChipSeries.t) root channel exposure
    indexes custom_glob e :
  ChipSeries.load_files fs self root channel exposure indexes custom_glob
  = (self', Py.Raise e) →
  let pattern :=
    if Py.truthy_str custom_glob then default "" custom_glob else ChipSeries.default_glob in
  self' = ChipSeries.set_series_root self (Some root)
  ∧ Py.truthy_list indexes = false
  ∧ ((Os.glob_error pattern = Some e
      ∧ Os.glob fs (Path.of_str root) pattern = Py.Raise e
      ∧ e ∈ [Py.ValueError "Unacceptable pattern: ''";
             Py.NotImplementedError "Non-relative patterns are unsupported";
             Py.IndexError "tuple index out of range";
             Py.AttributeError
               "'_TerminatingSelector' object has no attribute 'select_from'";
             Py.ValueError "Invalid pattern: '**' can only be an entire path component"])
     ∨ (Os.glob_error pattern = None
        ∧ ∃ path txt,
            path ∈ ChipSeries.img_paths fs root custom_glob
            ∧ last (Py.split "_" (Path.stem path)) = Some txt
            ∧ Py.int txt = Py.Raise e
            ∧ (e = Py.int_error txt ∨ ∃ n, e = Py.int_limit_error n))).
Proof.
  rewrite load_files_unfold. cbv zeta.
  destruct (Py.truthy_list indexes); simpl; [discriminate|].
  destruct (Os.glob _ _ _) as [found|e'] eqn:Hglob.
  - destruct (mapM _ _) as [items|e'] eqn:Hmap; [discriminate|].
    intros [= <- ->]. split_and!; [done | done |]. right. split.
    { unfold Os.glob in Hglob. destruct (Os.glob_error _); [discriminate Hglob|done]. }
    apply mapM_raise in Hmap as (path & Hin & Hpath).
    destruct (ChipSeries.index_of path) as [k|e''] eqn:Hidx; [discriminate|].
    simpl in Hpath. injection Hpath as ->.
    apply index_of_raise in Hidx as (txt & Hlast & Hint & Hwhich).
    by exists path, txt.
  - intros [= <- ->]. split_and!; [done | done |]. left.
    pose proof (glob_raise _ _ _ _ Hglob) as Herr.
    split_and!; [exact Herr | done | exact (glob_error_cases _ _ Herr)].
Qed.

Lemma load_files_failure_witness :
  ChipSeries.load_files Fixture.unnumbered_fs Fixture.timecourse "/data" "egfp" 500 None None
  = (ChipSeries.set_series_root Fixture.timecourse (Some "/data"),
     Py.Raise (Py.int_error "final"))
  ∧ ChipSeries.load_files Fixture.unnumbered_fs Fixture.timecourse "/data" "egfp" 500 None
                          (Some "**.tif")
    = (ChipSeries.set_series_root Fixture.timecourse (Some "/data"),
       Py.Raise (Py.ValueError "Invalid pattern: '**' can only be an entire path component"))
  ∧ Os.glob_error ChipSeries.default_glob = None
  ∧ ∃ path txt,
      path ∈ ChipSeries.img_paths Fixture.unnumbered_fs "/data" None
      ∧ last (Py.split "_" (Path.stem path)) = Some txt
      ∧ Py.int txt = Py.Raise (Py.int_error "final").
Proof.
  assert (Hrun : ChipSeries.load_files Fixture.unnumbered_fs Fixture.timecourse
                                       "/data" "egfp" 500 None None
                 = (ChipSeries.set_series_root Fixture.timecourse (Some "/data"),
                    Py.Raise (Py.int_error "final")))
    by (vm_compute; reflexivity).
  split; [exact Hrun|]. split; [vm_compute; reflexivity|].
  destruct (load_files_failure _ _ _ _ _ _ _ _ _ Hrun)
    as (_ & _ & [(Herr & _)|(Hnone & path & txt & Hin & Hlast & Hint & _)]).
  - vm_compute in Herr. discriminate Herr.
  - split; [exact Hnone|]. exists path, txt. split_and!; [exact Hin|exact Hlast|exact Hint].
Defined.

Lemma get_map_values {K A B} `{EqDecision K} (g : K → A → B) (d : Py.dict K A) k :
  Py.get (List.map (λ '(k, v), (k, g k v)) d) k = g k <$> Py.get d k.
Proof.
  induction d as [|[k' v'] d IH]; simpl; [done|].
  destruct (decide (k' = k)) as [->|Hne]; [done | exact IH].
Qed.

Lemma keys_map_values {K A B} (g : K → A → B) (d : Py.dict K A) :
  Py.keys (List.map (λ '(k, v), (k, g k v)) d) = Py.keys d.
Proof.
  unfold Py.keys. induction d as [|[k' v'] d IH]; simpl; [done|]. f_equal. exact IH.
Qed.

Lemma load_files_ok_sets_chips fs (self self' : ChipSeries.t) root channel exposure
    indexes custom_glob :
  Py.truthy_list indexes = false →
  ChipSeries.load_files fs self root channel exposure indexes custom_glob
  = (self', Py.Ok ()) →
  is_Some (ChipSeries.chips self').
Proof.
  intros Hidx. rewrite load_files_unfold. cbv zeta. rewrite Hidx. simpl.
  destruct (Os.glob _ _ _); [|discriminate].
  destruct (mapM _ _) as [items|e']; [|discriminate].
  intros [= <-]. simpl. eauto.
Qed.

(** X2: after a [load_files] without indexes that returns, the chips are a
    dictionary of distinct keys with at most one entry per file found; each
    chip is the one made of a file found, under the number its stem ends in;
    and the number of every file found is a key. *)
Theorem load_files_chips fs (self self' : ChipSeries.t) root channel exposure
    indexes custom_glob :
  Py.truthy_list indexes = false →
  ChipSeries.load_files fs self root channel exposure indexes custom_glob
  = (self', Py.Ok ()) →
  ∃ d,
    self' = ChipSeries.set_chips (ChipSeries.set_series_root self (Some root)) (Some d)
    ∧ NoDup (Py.keys d)
    ∧ (length d ≤ length (ChipSeries.img_paths fs root custom_glob))%nat
    ∧ (∀ k c, Py.get d k = Some c →
              Chip.data_ref c ∈ ChipSeries.img_paths fs root custom_glob
              ∧ ChipSeries.index_of (Chip.data_ref c) = Py.Ok k
              ∧ c = ChipSeries.new_chip self k (Chip.data_ref c) channel exposure)
    ∧ (∀ path, path ∈ ChipSeries.img_paths fs root custom_glob →
               ∃ k, ChipSeries.index_of path = Py.Ok k ∧ k ∈ Py.keys d).
Proof.
  intros Hidx. rewrite load_files_unfold. cbv zeta. rewrite Hidx. simpl.
  destruct (Os.glob _ _ _); [|discriminate].
  destruct (mapM _ _) as [items|e'] eqn:Hmap; [|discriminate].
  intros [= <-]. apply mapM_ok in Hmap.
  set (record := Py.of_items items).
  set (g := λ (identifier : Z) (source : Path.t),
              ChipSeries.new_chip (ChipSeries.set_series_root self (Some root))
                                  identifier source channel exposure).
  assert (Hrec : NoDup (Py.keys record)) by apply NoDup_keys_of_items.
  assert (Hchips : Py.of_items (List.map (λ '(k, v), (k, g k v)) record)
                   = List.map (λ '(k, v), (k, g k v)) record).
  { apply of_items_NoDup. change (NoDup (Py.keys (List.map (λ '(k, v), (k, g k v)) record))).
    by rewrite keys_map_values. }
  assert (Hitems : ∀ k path, (k, path) ∈ items →
            path ∈ ChipSeries.img_paths fs root custom_glob
            ∧ ChipSeries.index_of path = Py.Ok k).
  { intros k path (i & Hi)%list_elem_of_lookup_1.
    destruct (Forall2_lookup_r _ _ _ _ _ Hmap Hi) as (path' & Hpath' & Hf).
    destruct (ChipSeries.index_of path') as [k'|] eqn:Hk'; [|discriminate].
    simpl in Hf. injection Hf as <- <-.
    split; [by eapply list_elem_of_lookup_2 | done]. }
  exists (List.map (λ '(k, v), (k, g k v)) record). split_and!.
  - by rewrite <-Hchips.
  - by rewrite keys_map_values.
  - rewrite length_map. etrans; [apply length_of_items|].
    by rewrite <-(Forall2_length _ _ _ Hmap).
  - intros k c. rewrite get_map_values.
    destruct (Py.get record k) as [source|] eqn:Hget; [|discriminate].
    simpl. intros [= <-]. apply get_of_items in Hget.
    destruct (Hitems k source Hget) as [Hin Hindex]. done.
  - intros path (i & Hi)%list_elem_of_lookup_1.
    destruct (Forall2_lookup_l _ _ _ _ _ Hmap Hi) as ([k path'] & Hkp & Hf).
    destruct (ChipSeries.index_of path) as [k'|] eqn:Hk'; [|discriminate].
    simpl in Hf. injection Hf as <- <-. exists k'. split; [done|].
    rewrite keys_map_values. apply elem_of_keys_of_items.
    apply list_elem_of_lookup_2 in Hkp.
    by apply (list_elem_of_fmap_2 fst) in Hkp.
Qed.

Lemma load_files_chips_witness :
  ∃ d,
    Fixture.loaded
    = ChipSeries.set_chips (ChipSeries.set_series_root Fixture.timecourse (Some "/data"))
                           (Some d)
    ∧ NoDup (Py.keys d)
    ∧ (length d ≤ length (ChipSeries.img_paths Fixture.fs "/data" (Some "*.tif")))%nat
    ∧ (∀ k c, Py.get d k = Some c →
              Chip.data_ref c ∈ ChipSeries.img_paths Fixture.fs "/data" (Some "*.tif")
              ∧ ChipSeries.index_of (Chip.data_ref c) = Py.Ok k
              ∧ c = ChipSeries.new_chip Fixture.timecourse k (Chip.data_ref c) "egfp" 500)
    ∧ (∀ path, path ∈ ChipSeries.img_paths Fixture.fs "/data" (Some "*.tif") →
               ∃ k, ChipSeries.index_of path = Py.Ok k ∧ k ∈ Py.keys d).
Proof.
  apply (load_files_chips Fixture.fs Fixture.timecourse Fixture.loaded "/data" "egfp" 500
                          None (Some "*.tif")).
  - reflexivity.
  - vm_compute. reflexivity.
Defined.

(** * Adding one file *)

(** X3: [add_file] on a series that has a dictionary of chips returns; the
    identifier then maps to the chip of the given path, every other key maps
    to what it did, a new identifier comes last in the order of the keys and
    one that is present keeps its place. *)
Theorem add_file_lookup (self : ChipSeries.t) (d : Py.dict Z Chip.ChipImage)
    (identifier : Z) (path channel : string) (exposure : Z) :
  ChipSeries.chips self = Some d →
  ∃ d',
    ChipSeries.add_file self identifier path channel exposure
    = (ChipSeries.set_chips self (Some d'), Py.Ok ())
    ∧ Py.get d' identifier
      = Some (ChipSeries.new_chip self identifier (Path.of_str path) channel exposure)
    ∧ (∀ k, k ≠ identifier → Py.get d' k = Py.get d k)
    ∧ Py.keys d'
      = (if decide (identifier ∈ Py.keys d) then Py.keys d else Py.keys d ++ [identifier])
    ∧ (NoDup (Py.keys d) → NoDup (Py.keys d')).
Proof.
  intros Hd. unfold ChipSeries.add_file. rewrite Hd.
  eexists. split; [reflexivity|]. split_and!.
  - apply get_set_eq.
  - intros k Hk. by apply get_set_ne.
  - apply keys_set_any.
  - apply NoDup_keys_set.
Qed.

Lemma add_file_lookup_witness :
  ∃ d',
    ChipSeries.add_file Fixture.loaded 2 "/data/again_2.tif" "egfp" 500
    = (ChipSeries.set_chips Fixture.loaded (Some d'), Py.Ok ())
    ∧ Py.get d' 2
      = Some (ChipSeries.new_chip Fixture.loaded 2 (Path.of_str "/data/again_2.tif")
                                  "egfp" 500)
    ∧ (∀ k, k ≠ 2 → Py.get d' k = Py.get (default [] (ChipSeries.chips Fixture.loaded)) k)
    ∧ Py.keys d'
      = (if decide (2 ∈ Py.keys (default [] (ChipSeries.chips Fixture.loaded)))
         then Py.keys (default [] (ChipSeries.chips Fixture.loaded))
         else Py.keys (default [] (ChipSeries.chips Fixture.loaded)) ++ [2])
    ∧ (NoDup (Py.keys (default [] (ChipSeries.chips Fixture.loaded))) → NoDup (Py.keys d')).
Proof.
  apply (add_file_lookup Fixture.loaded (default [] (ChipSeries.chips Fixture.loaded))
                         2 "/data/again_2.tif" "egfp" 500).
  vm_compute. reflexivity.
Defined.

(** X4: [add_file] on a series whose chips are [None] raises a [TypeError] and
    leaves the object as it was; this is still so after a [load_files] with
    indexes, and no longer after a [load_files] without indexes that
    returned. *)
Theorem add_file_needs_chips fs (self : ChipSeries.t) (identifier : Z)
    (path channel root : string) (exposure : Z) (indexes : option (list Z))
    (custom_glob : option string) :
  ChipSeries.chips self = None →
  let loaded := ChipSeries.load_files fs self root channel exposure indexes custom_glob in
  ChipSeries.add_file self identifier path channel exposure
  = (self, Py.Raise (Py.TypeError "'NoneType' object does not support item assignment"))
  ∧ (Py.truthy_list indexes = true →
     ChipSeries.add_file loaded.1 identifier path channel exposure
     = (loaded.1, Py.Raise (Py.TypeError "'NoneType' object does not support item assignment")))
  ∧ (Py.truthy_list indexes = false → loaded.2 = Py.Ok () →
     (ChipSeries.add_file loaded.1 identifier path channel exposure).2 = Py.Ok ()).
Proof.
  intros Hnone loaded. split_and!.
  - unfold ChipSeries.add_file. by rewrite Hnone.
  - intros Hidx. unfold loaded, ChipSeries.load_files, ChipSeries.add_file.
    rewrite Hidx. simpl. by rewrite Hnone.
  - intros Hidx Hok. destruct loaded as [self' r] eqn:Hload. simpl in *. subst r.
    apply load_files_ok_sets_chips in Hload as [d Hd]; [|done].
    unfold ChipSeries.add_file. by rewrite Hd.
Qed.

Lemma add_file_needs_chips_witness :
  ChipSeries.chips Fixture.timecourse = None
  ∧ ChipSeries.add_file Fixture.timecourse 9 "/data/img_9.tif" "egfp" 500
    = (Fixture.timecourse,
       Py.Raise (Py.TypeError "'NoneType' object does not support item assignment"))
  ∧ (ChipSeries.add_file Fixture.loaded 9 "/data/img_9.tif" "egfp" 500).2 = Py.Ok ().
Proof.
  assert (Hnone : ChipSeries.chips Fixture.timecourse = None) by reflexivity.
  destruct (add_file_needs_chips Fixture.fs Fixture.timecourse 9 "/data/img_9.tif" "egfp"
                                 "/data" 500 None (Some "*.tif") Hnone)
    as (Hfresh & _ & Hloaded).
  split_and!; [exact Hnone|exact Hfresh|].
  apply Hloaded; [reflexivity|vm_compute; reflexivity].
Defined.

(** * Processing a quantification *)
Section quant_more.
Context `{Chip.Library}.

(** X5: [ChipQuant.process] returns exactly when a chip is loaded and either
    a reference is given or the feature name is one of [button], [chamber],
    [all]; on success the quant is marked processed and keeps its chip, on
    failure the quant is unchanged; a loaded chip is stamped first, also
    when the feature name is then refused, and with a reference the calls
    are the stamp and one mapping from the reference. *)
Theorem quant_process_outcomes (q : ChipQuant.t) (reference : option Chip.ChipImage)
    (mapped_features : string) :
  let '(q', calls, r) := ChipQuant.process q reference mapped_features in
  (r = Py.Ok ()
   ↔ is_Some (ChipQuant.chip q)
     ∧ (is_Some reference ∨ mapped_features ∈ ["button"; "chamber"; "all"]))
  ∧ (r = Py.Ok () →
     ChipQuant.processed q' = true ∧ ChipQuant.chip q' = ChipQuant.chip q
     ∧ ChipQuant.description q' = ChipQuant.description q)
  ∧ (r ≠ Py.Ok () → q' = q)
  ∧ (∀ c, ChipQuant.chip q = Some c → head calls = Some (Chip.Stamp c))
  ∧ (ChipQuant.chip q = None → calls = [])
  ∧ (∀ ref c, reference = Some ref → ChipQuant.chip q = Some c →
              calls = [Chip.Stamp c; Chip.MapTo ref c [("features", mapped_features)]]).
Proof.
  unfold ChipQuant.process.
  destruct (ChipQuant.chip q) as [c|] eqn:Hc.
  - assert (Hsome : is_Some (Some c)) by eauto.
    destruct reference as [ref|].
    + split_and!; try done; try (by intros; simplify_eq).
      split; [intros _; split; eauto | done].
    + destruct (String.eqb mapped_features "button") eqn:Hb;
        [|destruct (String.eqb mapped_features "chamber") eqn:Hch;
          [|destruct (String.eqb mapped_features "all") eqn:Ha]];
        rewrite ?String.eqb_eq, ?String.eqb_neq in *; subst;
        (split_and!; try done; try (by intros; simplify_eq)).
      * split; [intros _; split; [done | right; by left] | done].
      * split; [intros _; split; [done | right; right; by left] | done].
      * split; [intros _; split; [done | right; right; right; by left] | done].
      * split; [done|]. intros [_ [[? [=]]|Hin]].
        repeat (apply elem_of_cons in Hin as [->|Hin]; [done|]).
        by apply elem_of_nil in Hin.
  - split_and!; try done. split; [done | intros [[? [=]] _]].
Qed.

(** X6: [load_file] replaces the chip and leaves the processed flag: on a
    processed quant [summarize] then returns the summary of the new chip,
    which was never stamped or mapped; on a fresh one it still raises. *)
Theorem load_file_keeps_processed (q : ChipQuant.t) (path channel : string)
    (exposure : Z) :
  let q' := ChipQuant.load_file q path channel exposure in
  let c := Chip.mk (ChipQuant.device q) (Path.of_str path) []
                   (Chip.corners (ChipQuant.device q))
                   (Chip.pinlist (ChipQuant.device q)) channel exposure in
  ChipQuant.processed q' = ChipQuant.processed q
  ∧ ChipQuant.chip q' = Some c
  ∧ (ChipQuant.processed q = true →
     ChipQuant.summarize q' = (q', Py.Ok (Chip.chip_summarize c)))
  ∧ (ChipQuant.processed q = false →
     ChipQuant.summarize q'
     = (q', Py.Raise (Py.ValueError "Must first Process ChipQuant"))).
Proof.
  intros q' c. split_and!; [done | done | |].
  - intros Hp. unfold ChipQuant.summarize.
    replace (ChipQuant.processed q') with true by (symmetry; exact Hp). done.
  - intros Hp. unfold ChipQuant.summarize.
    replace (ChipQuant.processed q') with false by (symmetry; exact Hp). done.
Qed.

Lemma bind_process_kwrds_other (process_kwrds : Py.dict string string) k :
  k ∈ Py.keys process_kwrds → k ≠ "mapped_features" →
  ∃ msg, ChipQuant.bind_process_kwrds process_kwrds = Py.Raise (Py.TypeError msg).
Proof.
  intros Hk Hne. unfold ChipQuant.bind_process_kwrds.
  case_bool_decide; [eauto|].
  destruct (List.find _ _) as [k'|] eqn:Hfind.
  - destruct (String.eqb k' "self"); eauto.
  - apply list_elem_of_In in Hk.
    apply (find_none _ _ Hfind) in Hk.
    apply negb_false_iff, String.eqb_eq in Hk. done.
Qed.

Lemma process_ok_inv (q q' : ChipQuant.t) reference mapped_features calls :
  ChipQuant.process q reference mapped_features = (q', calls, Py.Ok ()) →
  ∃ c, ChipQuant.chip q = Some c ∧ ChipQuant.chip q' = Some c
       ∧ ChipQuant.processed q' = true.
Proof.
  unfold ChipQuant.process.
  destruct (ChipQuant.chip q) as [c|] eqn:Hc; [|discriminate].
  intros Hrun. exists c. split; [done|].
  destruct reference; repeat case_match; simplify_eq; simpl; done.
Qed.

Lemma process_raise_inv (q q' : ChipQuant.t) reference mapped_features calls e :
  ChipQuant.process q reference mapped_features = (q', calls, Py.Raise e) →
  q' = q
  ∧ e ≠ Py.ValueError "Must first Process ChipQuant"
  ∧ (ChipQuant.chip q = None
     ∨ reference = None ∧ mapped_features ∉ ["button"; "chamber"; "all"]).
Proof.
  unfold ChipQuant.process.
  destruct (ChipQuant.chip q) as [c|] eqn:Hc.
  - destruct reference; [discriminate|].
    destruct (String.eqb mapped_features "button") eqn:Hb; [discriminate|].
    destruct (String.eqb mapped_features "chamber") eqn:Hch; [discriminate|].
    destruct (String.eqb mapped_features "all") eqn:Ha; [discriminate|].
    intros [= <- <- <-]. split_and!; [done | discriminate |].
    right. split; [done|]. apply String.eqb_neq in Hb, Hch, Ha.
    intros Hin. repeat (apply elem_of_cons in Hin as [->|Hin]; [done|]).
    by apply elem_of_nil in Hin.
  - intros [= <- <- <-]. split_and!; [done | discriminate | by left].
Qed.

(** X7: [ChipQuant.process_summarize] never raises the [ValueError] of an
    unprocessed quant; any keyword other than [mapped_features] ends it with
    a [TypeError] before a chip is touched; and with a loaded chip and
    keywords that bind, it returns the summary of the chip and leaves the
    quant processed. *)
Theorem process_summarize_outcomes (q : ChipQuant.t) (reference : option Chip.ChipImage)
    (process_kwrds : Py.dict string string) :
  let '(q', calls, r) := ChipQuant.process_summarize q reference process_kwrds in
  r ≠ Py.Raise (Py.ValueError "Must first Process ChipQuant")
  ∧ (∀ k, k ∈ Py.keys process_kwrds → k ≠ "mapped_features" →
          q' = q ∧ calls = [] ∧ ∃ msg, r = Py.Raise (Py.TypeError msg))
  ∧ (∀ c mapped_features,
       ChipQuant.chip q = Some c →
       ChipQuant.bind_process_kwrds process_kwrds = Py.Ok mapped_features →
       is_Some reference ∨ mapped_features ∈ ["button"; "chamber"; "all"] →
       r = Py.Ok (Chip.chip_summarize c)
       ∧ ChipQuant.processed q' = true ∧ ChipQuant.chip q' = Some c).
Proof.
  unfold ChipQuant.process_summarize.
  destruct (ChipQuant.bind_process_kwrds process_kwrds) as [mf|e] eqn:Hbind.
  - destruct (ChipQuant.process q reference mf) as [[q1 calls] [[]|e]] eqn:Hproc.
    + apply process_ok_inv in Hproc as (c & Hc & Hc1 & Hp).
      unfold ChipQuant.summarize. rewrite Hp, Hc1. split_and!.
      * discriminate.
      * intros k Hk Hne.
        destruct (bind_process_kwrds_other _ _ Hk Hne) as [msg Hmsg]. congruence.
      * intros c' mf' Hc' _ _. split_and!; [congruence | done | congruence].
    + apply process_raise_inv in Hproc as (-> & Hguard & Hwhy). split_and!.
      * congruence.
      * intros k Hk Hne.
        destruct (bind_process_kwrds_other _ _ Hk Hne) as [msg Hmsg]. congruence.
      * intros c mf' Hc [= <-] Hvalid.
        destruct Hwhy as [Hnone|[-> Hinvalid]]; [congruence|].
        destruct Hvalid as [[? [=]]|Hin]; done.
  - split_and!.
    + intros [= ->]. revert Hbind. unfold ChipQuant.bind_process_kwrds.
      repeat case_match; discriminate.
    + intros k Hk Hne.
      destruct (bind_process_kwrds_other _ _ Hk Hne) as [msg Hmsg].
      split_and!; [done | done |]. exists msg. congruence.
    + intros c mf Hc [=].
Qed.

End quant_more.

(** * A standard series without chips to map onto *)

(** X8: [StandardSeries.process] at the edges: without a dictionary of chips
    it raises an [AttributeError] and with an empty one the [ValueError] of
    [max], in both cases before any call on a chip; with one chip that chip
    is the high standard, it is stamped and its chambers are found, and
    nothing is mapped. *)
Theorem standard_series_process_edges (self : ChipSeries.t) (featuretype : string) :
  (ChipSeries.chips self = None →
   StandardSeries.process self featuretype
   = ([], Py.Raise (Py.AttributeError "'NoneType' object has no attribute 'keys'")))
  ∧ (ChipSeries.chips self = Some [] →
     StandardSeries.process self featuretype
     = ([], Py.Raise (Py.ValueError "max() arg is an empty sequence")))
  ∧ (∀ k c, ChipSeries.chips self = Some [(k, c)] →
            StandardSeries.process self featuretype
            = ([Chip.Stamp k; Chip.FindChambers k], Py.Ok ())).
Proof.
  unfold StandardSeries.process, StandardSeries.map_from_hs,
    StandardSeries.get_highstandard, StandardSeries.get_hs_key.
  split_and!.
  - intros ->. reflexivity.
  - intros ->. reflexivity.
  - intros k c ->. simpl. rewrite decide_True by done. simpl.
    match goal with
    | |- context [elements ?X] => replace (elements X) with (@nil Z)
    end; [done|].
    symmetry. apply elements_empty_iff. intros x.
    rewrite elem_of_difference, elem_of_union, !elem_of_singleton.
    split; [intros [[?|[]%not_elem_of_empty] ?]; done | intros []%not_elem_of_empty].
Qed.

(** * Merging the summaries of an assay *)
Section turnover_more.
Context `{Chip.Library}.

Lemma cleaned_outcome (quant : ChipQuant.t) (c : Chip.ChipImage) :
  ChipQuant.chip quant = Some c →
  TurnoverAssay.cleaned quant
  = if bool_decide ("id" ∈ Frame.columns (Chip.chip_summarize c))
    then Py.Ok (Frame.add_suffix (Chip.chip_summarize c)
                  ("_" +:+ Py.replace " " "_" (ChipQuant.description quant)))
    else Py.Raise (Py.KeyError "['id'] not found in axis").
Proof.
  intros Hc. unfold TurnoverAssay.cleaned, Frame.drop. rewrite Hc. simpl.
  by destruct (bool_decide ("id" ∈ Frame.columns (Chip.chip_summarize c))).
Qed.

Lemma mapM_cleaned_raise (quants : list ChipQuant.t) :
  Forall (λ q, is_Some (ChipQuant.chip q)) quants →
  Exists (λ q, ∀ c, ChipQuant.chip q = Some c →
                    "id" ∉ Frame.columns (Chip.chip_summarize c)) quants →
  mapM TurnoverAssay.cleaned quants = Py.Raise (Py.KeyError "['id'] not found in axis").
Proof.
  induction 1 as [|q quants [c Hc] Hall IH]; intros Hex.
  - by apply Exists_nil in Hex.
  - simpl. rewrite (cleaned_outcome q c Hc). case_bool_decide as Hid; simpl.
    + apply Exists_cons in Hex as [Hq|Hex]; [by destruct (Hq c Hc)|].
      by rewrite IH.
    + done.
Qed.

(** X9: when every quant of an assay has a chip and the summary of one of
    them has no [id] column, [merge_summarize] raises the [KeyError] of the
    dropped column, whatever the series of the assay is. *)
Theorem merge_summarize_needs_id (a : Assay.t) :
  Forall (λ q, is_Some (ChipQuant.chip q)) (Assay.quants a) →
  Exists (λ q, ∀ c, ChipQuant.chip q = Some c →
                    "id" ∉ Frame.columns (Chip.chip_summarize c)) (Assay.quants a) →
  TurnoverAssay.merge_summarize a = Py.Raise (Py.KeyError "['id'] not found in axis").
Proof.
  intros Hall Hex. unfold TurnoverAssay.merge_summarize.
  by rewrite (mapM_cleaned_raise _ Hall Hex).
Qed.

Lemma mapM_cleaned_ok (quants : list ChipQuant.t) :
  Forall (λ q, ∃ c, ChipQuant.chip q = Some c
                    ∧ "id" ∈ Frame.columns (Chip.chip_summarize c)) quants →
  ∃ tables, mapM TurnoverAssay.cleaned quants = Py.Ok tables.
Proof.
  induction 1 as [|q quants (c & Hc & Hid) _ [tables IH]]; [by exists []|].
  simpl. rewrite (cleaned_outcome q c Hc), (bool_decide_eq_true_2 _ Hid), IH.
  simpl. eauto.
Qed.

(** X10: where every quant has a chip with an [id] column in its summary
    and the series of the assay summarizes, [merge_summarize] raises: the
    join is given a list of tables and two suffixes, which it refuses; for
    an assay without quants, this is where [summarize] of its series returns
    the table. *)
Theorem merge_summarize_join_refused (a : Assay.t) (s : ChipSeries.t) (kin : Frame.t) :
  Forall (λ q, ∃ c, ChipQuant.chip q = Some c
                    ∧ "id" ∈ Frame.columns (Chip.chip_summarize c)) (Assay.quants a) →
  Assay.series a = Some s →
  ChipSeries.summarize s = Py.Ok kin →
  TurnoverAssay.merge_summarize a
  = Py.Raise (Py.ValueError "Suffixes not supported when joining multiple DataFrames").
Proof.
  intros Hquants Hs Hkin. unfold TurnoverAssay.merge_summarize.
  destruct (mapM_cleaned_ok _ Hquants) as [tables ->].
  cbn [mbind Py.res_bind]. rewrite Hs, Hkin. reflexivity.
Qed.

Lemma merge_summarize_not_ok (a : Assay.t) (df : Frame.t) :
  TurnoverAssay.merge_summarize a ≠ Py.Ok df.
Proof.
  unfold TurnoverAssay.merge_summarize.
  destruct (mapM TurnoverAssay.cleaned (Assay.quants a)); [|discriminate].
  cbn [mbind Py.res_bind]. destruct (Assay.series a) as [s|]; [|discriminate].
  destruct (ChipSeries.summarize s); discriminate.
Qed.

(** X11: [merge_summarize] never returns a table.  It raises what the
    summary of a quant raises, or the [AttributeError] of a series that is
    [None], or what [summarize] of the series raises, or else the
    [ValueError] of the join. *)
Theorem merge_summarize_never_returns (a : Assay.t) :
  ∃ e,
    TurnoverAssay.merge_summarize a = Py.Raise e
    ∧ ((∃ q, q ∈ Assay.quants a ∧ TurnoverAssay.cleaned q = Py.Raise e)
       ∨ (Assay.series a = None
          ∧ e = Py.AttributeError "'NoneType' object has no attribute 'summarize'")
       ∨ (∃ s, Assay.series a = Some s ∧ ChipSeries.summarize s = Py.Raise e)
       ∨ e = Py.ValueError "Suffixes not supported when joining multiple DataFrames").
Proof.
  unfold TurnoverAssay.merge_summarize.
  destruct (mapM TurnoverAssay.cleaned (Assay.quants a)) as [tables|e] eqn:Hmap.
  - cbn [mbind Py.res_bind]. destruct (Assay.series a) as [s|].
    + destruct (ChipSeries.summarize s) as [kin|e] eqn:Hkin.
      * eexists. split; [reflexivity|]. right. right. right. reflexivity.
      * exists e. split; [reflexivity|]. right. right. left. by exists s.
    + eexists. split; [reflexivity|]. right. left. done.
  - exists e. split; [reflexivity|]. left.
    apply mapM_raise in Hmap as (q & Hq & Hraise). by exists q.
Qed.

End turnover_more.

Lemma merge_summarize_needs_id_witness :
  @TurnoverAssay.merge_summarize Fixture.bare_library Fixture.turnover
  = Py.Raise (Py.KeyError "['id'] not found in axis").
Proof.
  apply (@merge_summarize_needs_id Fixture.bare_library Fixture.turnover).
  - by_decision.
  - left. intros c _. by_decision.
Defined.

Lemma merge_summarize_join_refused_witness :
  Py.is_ok (@ChipSeries.summarize Fixture.library Fixture.loaded) = true
  ∧ @TurnoverAssay.merge_summarize Fixture.library Fixture.turnover
    = Py.Raise (Py.ValueError "Suffixes not supported when joining multiple DataFrames")
  ∧ @TurnoverAssay.merge_summarize
      Fixture.library
      (Assay.set_series (Assay.__init__ Fixture.device "wt" None) Fixture.loaded)
    = Py.Raise (Py.ValueError "Suffixes not supported when joining multiple DataFrames").
Proof.
  destruct (@ChipSeries.summarize Fixture.library Fixture.loaded) as [kin|e] eqn:Hkin;
    [|vm_compute in Hkin; discriminate Hkin].
  split_and!; [reflexivity| |].
  - apply (@merge_summarize_join_refused Fixture.library Fixture.turnover Fixture.loaded kin);
      [|reflexivity|exact Hkin].
    repeat constructor. eexists. split; [reflexivity|]. by_decision.
  - apply (@merge_summarize_join_refused
             Fixture.library
             (Assay.set_series (Assay.__init__ Fixture.device "wt" None) Fixture.loaded)
             Fixture.loaded kin); [constructor|reflexivity|exact Hkin].
Defined.

(** * The assays of a series of assays *)

(** X12: the constructor of [AssaySeries] makes one fresh assay per distinct
    description: the keys are distinct and are the descriptions given, each
    maps to an assay of that description without series or quants, and for
    descriptions without repetition the keys are in the order given. *)
Theorem assay_series_init (device : Chip.Device) (descriptions : list string)
    (chamber_ref button_ref : Chip.ChipImage) (attrs : option (list (string * string))) :
  let s := AssaySeries.__init__ device descriptions chamber_ref button_ref attrs in
  NoDup (Py.keys (AssaySeries.assays s))
  ∧ (∀ d, d ∈ Py.keys (AssaySeries.assays s) ↔ d ∈ descriptions)
  ∧ (∀ d, d ∈ descriptions →
          Py.get (AssaySeries.assays s) d = Some (Assay.__init__ device d None))
  ∧ (length (AssaySeries.assays s) ≤ length descriptions)%nat
  ∧ (NoDup descriptions → Py.keys (AssaySeries.assays s) = descriptions).
Proof.
  intros s. unfold s, AssaySeries.__init__. cbn [AssaySeries.assays].
  rewrite map_is_fmap.
  set (items := (λ description, (description, Assay.__init__ device description None))
                  <$> descriptions).
  assert (Hfst : items.*1 = descriptions).
  { unfold items. rewrite <-list_fmap_compose. apply list_fmap_id. }
  split_and!.
  - apply NoDup_keys_of_items.
  - intros d. by rewrite elem_of_keys_of_items, Hfst.
  - intros d Hd.
    assert (Hk : d ∈ Py.keys (Py.of_items items))
      by (by rewrite elem_of_keys_of_items, Hfst).
    apply get_is_Some in Hk as [a Ha]. rewrite Ha. f_equal.
    apply get_of_items in Ha.
    apply list_elem_of_fmap in Ha as (d' & [= -> ->] & _). done.
  - etrans; [apply length_of_items|]. unfold items. by rewrite length_fmap.
  - intros Hnd. rewrite of_items_NoDup by (by rewrite Hfst). exact Hfst.
Qed.

Lemma quants_added_refl a : AssaySeries.quants_added a a.
Proof. exists []. rewrite app_nil_r. split; [by destruct a | constructor]. Qed.

Lemma quants_added_trans a b c : AssaySeries.quants_added a b → AssaySeries.quants_added b c → AssaySeries.quants_added a c.
Proof.
  intros (n1 & -> & H1) (n2 & -> & H2). exists (n1 ++ n2). simpl.
  rewrite app_assoc. split; [done | by apply Forall_app].
Qed.

Lemma load_quants_loop_frame (self : AssaySeries.t) bq_refs :
  ∃ assays',
    (AssaySeries.load_quants_loop self bq_refs).1 = AssaySeries.set_assays self assays'
    ∧ Py.keys assays' = Py.keys (AssaySeries.assays self)
    ∧ ∀ k a, Py.get (AssaySeries.assays self) k = Some a →
             ∃ a', Py.get assays' k = Some a' ∧ AssaySeries.quants_added a a'.
Proof.
  revert self. induction bq_refs as [|[[[desc p] chan] exp] rest IH]; intros self; simpl.
  - exists (AssaySeries.assays self). split_and!; [by destruct self | done |].
    intros k a Ha. exists a. split; [done | apply quants_added_refl].
  - destruct (Py.get (AssaySeries.assays self) desc) as [a|] eqn:Hget; simpl.
    + set (self1 := AssaySeries.set_assays self _).
      destruct (IH self1) as (assays' & Hrun & Hkeys & Hall).
      assert (Hk : desc ∈ Py.keys (AssaySeries.assays self))
        by (apply get_is_Some; eauto).
      exists assays'. split_and!.
      * rewrite Hrun. by destruct self.
      * rewrite Hkeys. unfold self1. simpl. by apply keys_set.
      * intros k a0 Ha0. destruct (decide (k = desc)) as [->|Hne].
        -- destruct (Hall desc (Assay.add_quant a (AssaySeries.new_quant self p chan exp)))
             as (a' & Ha' & Hadd).
           { unfold self1. simpl. apply get_set_eq. }
           exists a'. split; [done|]. eapply quants_added_trans; [|exact Hadd].
           rewrite Hget in Ha0. injection Ha0 as <-.
           exists [AssaySeries.new_quant self p chan exp]. split; [done|].
           constructor; [|constructor]. split_and!; [eauto | done | done].
        -- apply Hall. unfold self1. simpl. by rewrite get_set_ne.
    + exists (AssaySeries.assays self). split_and!; [by destruct self | done |].
      intros k a Ha. exists a. split; [done | apply quants_added_refl].
Qed.

(** X13: in every outcome [load_quants] changes nothing but the assays: the
    keys and their order stay, and each assay differs at most by quants of
    [Button_Quant], loaded and not processed, added at the end. *)
Theorem load_quants_frame (self : AssaySeries.t) (descriptions paths : list string)
    (channel : string) (exposure : Z) :
  let '(self', r) := AssaySeries.load_quants self descriptions paths channel exposure in
  self' = AssaySeries.set_assays self (AssaySeries.assays self')
  ∧ Py.keys (AssaySeries.assays self') = Py.keys (AssaySeries.assays self)
  ∧ ∀ k a, Py.get (AssaySeries.assays self) k = Some a →
           ∃ a', Py.get (AssaySeries.assays self') k = Some a' ∧ AssaySeries.quants_added a a'.
Proof.
  unfold AssaySeries.load_quants.
  destruct (negb _).
  - split_and!; [by destruct self | done |].
    intros k a Ha. exists a. split; [done | apply quants_added_refl].
  - destruct (length descriptions =? 1)%nat;
    match goal with
    | |- context [AssaySeries.load_quants_loop self ?refs] =>
        destruct (load_quants_loop_frame self refs) as (assays' & Hrun & Hkeys & Hall);
        destruct (AssaySeries.load_quants_loop self refs) as [self' r]
    end;
    simpl in Hrun; subst self'; simpl; done.
Qed.

Lemma load_kin_loop_frame fs (self : AssaySeries.t) kin_refs :
  ∃ assays',
    (AssaySeries.load_kin_loop fs self kin_refs).1 = AssaySeries.set_assays self assays'
    ∧ Py.keys assays' = Py.keys (AssaySeries.assays self)
    ∧ ∀ k a, Py.get (AssaySeries.assays self) k = Some a →
             ∃ a', Py.get assays' k = Some a' ∧ AssaySeries.series_assigned fs self k a a'.
Proof.
  revert self. induction kin_refs as [|[[[desc p] chan] exp] rest IH]; intros self; simpl.
  - exists (AssaySeries.assays self). split_and!; [by destruct self | done |].
    intros k a Ha. exists a. split; [done | by left].
  - destruct (AssaySeries.new_timecourse fs (AssaySeries.device self) desc p chan exp)
      as [t [[]|e]] eqn:Ht; simpl.
    + destruct (Py.get (AssaySeries.assays self) desc) as [a|] eqn:Hget; simpl.
      * set (self1 := AssaySeries.set_assays self _).
        destruct (IH self1) as (assays' & Hrun & Hkeys & Hall).
        assert (Hk : desc ∈ Py.keys (AssaySeries.assays self))
          by (apply get_is_Some; eauto).
        exists assays'. split_and!.
        -- rewrite Hrun. by destruct self.
        -- rewrite Hkeys. unfold self1. simpl. by apply keys_set.
        -- intros k a0 Ha0. destruct (decide (k = desc)) as [->|Hne].
           ++ destruct (Hall desc (Assay.set_series a t)) as (a' & Ha' & Hassigned).
              { unfold self1. simpl. apply get_set_eq. }
              exists a'. split; [done|].
              rewrite Hget in Ha0. injection Ha0 as <-.
              destruct Hassigned as [->|(p' & chan' & exp' & ->)]; right.
              ** exists p, chan, exp. by rewrite Ht.
              ** exists p', chan', exp'. by destruct a.
           ++ destruct (Hall k a0) as (a' & Ha' & Hassigned).
              { unfold self1. simpl. by rewrite get_set_ne. }
              exists a'. split; [done|]. exact Hassigned.
      * exists (AssaySeries.assays self). split_and!; [by destruct self | done |].
        intros k a Ha. exists a. split; [done | by left].
    + exists (AssaySeries.assays self). split_and!; [by destruct self | done |].
      intros k a Ha. exists a. split; [done | by left].
Qed.

(** X14: in every outcome [load_kin] changes nothing but the assays: the keys
    and their order stay, and each assay keeps its quants and differs at
    most by a timecourse of its own description in place of its series. *)
Theorem load_kin_frame fs (self : AssaySeries.t) (descriptions paths : list string)
    (channel : string) (exposure : Z) :
  let '(self', r) := AssaySeries.load_kin fs self descriptions paths channel exposure in
  self' = AssaySeries.set_assays self (AssaySeries.assays self')
  ∧ Py.keys (AssaySeries.assays self') = Py.keys (AssaySeries.assays self)
  ∧ ∀ k a, Py.get (AssaySeries.assays self) k = Some a →
           ∃ a', Py.get (AssaySeries.assays self') k = Some a'
                 ∧ AssaySeries.series_assigned fs self k a a'
                 ∧ Assay.quants a' = Assay.quants a.
Proof.
  unfold AssaySeries.load_kin.
  destruct (negb _).
  - split_and!; [by destruct self | done |].
    intros k a Ha. exists a. split_and!; [done | by left | done].
  - match goal with
    | |- context [AssaySeries.load_kin_loop fs self ?refs] =>
        destruct (load_kin_loop_frame fs self refs) as (assays' & Hrun & Hkeys & Hall);
        destruct (AssaySeries.load_kin_loop fs self refs) as [self' r]
    end.
    simpl in Hrun. subst self'. simpl. split_and!; [done | done |].
    intros k a Ha. destruct (Hall k a Ha) as (a' & Ha' & Hassigned).
    exists a'. split_and!; [done | done |].
    by destruct Hassigned as [->|(p & chan & exp & ->)].
Qed.

Lemma load_quants_loop_raise (self self' : AssaySeries.t) bq_refs e :
  AssaySeries.load_quants_loop self bq_refs = (self', Py.Raise e) →
  ∃ d, e = Py.KeyError d ∧ d ∈ bq_refs.*1.*1.*1 ∧ d ∉ Py.keys (AssaySeries.assays self).
Proof.
  revert self. induction bq_refs as [|[[[desc p] chan] exp] rest IH]; intros self; simpl.
  - discriminate.
  - destruct (Py.get (AssaySeries.assays self) desc) as [a|] eqn:Hget.
    + intros (d & -> & Hd & Hout)%IH. exists d. split_and!; [done | by right |].
      simpl in Hout. rewrite keys_set in Hout; [done|]. apply get_is_Some; eauto.
    + intros [= <- <-]. exists desc. split_and!; [done | left | by apply get_None].
Qed.

(** X15: [load_quants] raises either its [ValueError], when descriptions and
    paths differ in number, and the object is then unchanged; or a
    [KeyError] for a description that is no key of the assays, which needs
    as many paths as descriptions and more or fewer than one. *)
Theorem load_quants_failure (self self' : AssaySeries.t) (descriptions paths : list string)
    (channel : string) (exposure : Z) e :
  AssaySeries.load_quants self descriptions paths channel exposure = (self', Py.Raise e) →
  (e = AssaySeries.load_quants_error ∧ length descriptions ≠ length paths ∧ self' = self)
  ∨ (∃ d, e = Py.KeyError d ∧ d ∈ descriptions
          ∧ (d ∉ Py.keys (AssaySeries.assays self))
          ∧ length descriptions = length paths ∧ length descriptions ≠ 1%nat).
Proof.
  unfold AssaySeries.load_quants.
  destruct (length descriptions =? length paths)%nat eqn:Hlen; simpl.
  - apply Nat.eqb_eq in Hlen.
    destruct (length descriptions =? 1)%nat eqn:Hone.
    + intros (d & -> & Hd & Hout)%load_quants_loop_raise.
      rewrite refs_descriptions in Hd. apply subseteq_take in Hd. done.
    + apply Nat.eqb_neq in Hone.
      intros (d & -> & Hd & Hout)%load_quants_loop_raise. right. exists d.
      rewrite refs_descriptions in Hd. apply subseteq_take in Hd. done.
  - apply Nat.eqb_neq in Hlen. intros [= <- <-]. by left.
Qed.

Lemma load_quants_failure_witness :
  (AssaySeries.load_quants Fixture.assay_series ["wt"; "ko"] ["/q/w.tif"; "/q/k.tif"]
                           "egfp" 100).2
  = Py.Raise (Py.KeyError "ko")
  ∧ ∃ d, Py.KeyError "ko" = Py.KeyError d ∧ d ∈ ["wt"; "ko"]
         ∧ (d ∉ Py.keys (AssaySeries.assays Fixture.assay_series)).
Proof.
  assert (Hrun : AssaySeries.load_quants Fixture.assay_series ["wt"; "ko"]
                                         ["/q/w.tif"; "/q/k.tif"] "egfp" 100
                 = ((AssaySeries.load_quants Fixture.assay_series ["wt"; "ko"]
                                             ["/q/w.tif"; "/q/k.tif"] "egfp" 100).1,
                    Py.Raise (Py.KeyError "ko")))
    by (vm_compute; reflexivity).
  split; [vm_compute; reflexivity|].
  destruct (load_quants_failure _ _ _ _ _ _ _ Hrun)
    as [(Herr & _)|(d & Hd & Hin & Hout & _)]; [discriminate Herr|].
  exists d. split_and!; [exact Hd|exact Hin|exact Hout].
Defined.

Lemma refs_app (a a' b b' : list string) (c : string) (d : Z) :
  length a = length b →
  AssaySeries.refs (a ++ a') (b ++ b') c d (length a) = AssaySeries.refs a b c d (length a).
Proof.
  intros Hlen. apply list_eq. intros i. apply option_eq. intros ref.
  rewrite !refs_lookup. split.
  - intros (x & y & -> & Hx & Hy & Hi). exists x, y.
    rewrite lookup_app_l in Hx by done. rewrite lookup_app_l in Hy by lia. done.
  - intros (x & y & -> & Hx & Hy & Hi). exists x, y.
    rewrite !lookup_app_l by lia. done.
Qed.

(** X16: descriptions and paths beyond the number of assays are not read by
    [load_quants]: with as many descriptions as assays, the call with further
    descriptions and paths after them equals the call without. *)
Theorem load_quants_ignores_surplus (self : AssaySeries.t)
    (descriptions paths more_descriptions more_paths : list string)
    (channel : string) (exposure : Z) :
  length descriptions = length (AssaySeries.assays self) →
  length paths = length descriptions →
  length more_paths = length more_descriptions →
  length descriptions ≠ 1%nat →
  length (descriptions ++ more_descriptions) ≠ 1%nat →
  AssaySeries.load_quants self (descriptions ++ more_descriptions) (paths ++ more_paths)
                          channel exposure
  = AssaySeries.load_quants self descriptions paths channel exposure.
Proof.
  intros Hn Hp Hmore Hone Hone'. unfold AssaySeries.load_quants.
  rewrite (proj2 (Nat.eqb_eq (length (descriptions ++ more_descriptions))
                             (length (paths ++ more_paths))))
    by (rewrite !length_app; lia).
  rewrite (proj2 (Nat.eqb_eq (length descriptions) (length paths))) by lia.
  rewrite (proj2 (Nat.eqb_neq _ _) Hone), (proj2 (Nat.eqb_neq _ _) Hone').
  simpl. rewrite <-Hn. by rewrite refs_app.
Qed.

Lemma load_quants_ignores_surplus_witness :
  AssaySeries.load_quants Fixture.assay_series (["wt"; "mut"] ++ ["ko"])
                          (["/q/w.tif"; "/q/m.tif"] ++ ["/q/k.tif"]) "egfp" 100
  = AssaySeries.load_quants Fixture.assay_series ["wt"; "mut"] ["/q/w.tif"; "/q/m.tif"]
                            "egfp" 100.
Proof.
  apply (load_quants_ignores_surplus Fixture.assay_series ["wt"; "mut"]
                                     ["/q/w.tif"; "/q/m.tif"] ["ko"] ["/q/k.tif"]
                                     "egfp" 100).
  - reflexivity.
  - reflexivity.
  - reflexivity.
  - intros Hone. discriminate Hone.
  - intros Hone. discriminate Hone.
Defined.

(** X17: [load_kin] does not compare the number of paths with anything: with
    fewer paths than descriptions it returns, and the assays of the
    descriptions beyond the paths are left as they were; with no path at all
    no assay changes. *)
Theorem load_kin_fewer_paths fs (self : AssaySeries.t) (descriptions paths : list string)
    (channel : string) (exposure : Z) :
  length descriptions = length (AssaySeries.assays self) →
  NoDup descriptions →
  (∀ desc, desc ∈ descriptions → desc ∈ Py.keys (AssaySeries.assays self)) →
  (∀ desc p, desc ∈ descriptions → p ∈ paths →
             (AssaySeries.new_timecourse fs (AssaySeries.device self)
                                         desc p channel exposure).2 = Py.Ok ()) →
  ∃ assays',
    AssaySeries.load_kin fs self descriptions paths channel exposure
    = (AssaySeries.set_assays self assays', Py.Ok ())
    ∧ (∀ i desc, descriptions !! i = Some desc → (length paths ≤ i)%nat →
                 Py.get assays' desc = Py.get (AssaySeries.assays self) desc)
    ∧ (paths = [] → assays' = AssaySeries.assays self).
Proof.
  intros Hlen Hnd Hin Hload. unfold AssaySeries.load_kin.
  rewrite (proj2 (Nat.eqb_eq _ _) Hlen). simpl.
  set (kin_refs := AssaySeries.refs _ _ _ _ _).
  assert (Hdescs : kin_refs.*1.*1.*1 = take (length paths) descriptions).
  { unfold kin_refs. rewrite refs_descriptions.
    destruct (decide (length paths ≤ length (AssaySeries.assays self))%nat).
    - by rewrite Nat.min_l.
    - rewrite Nat.min_r by lia. rewrite !take_ge by lia. done. }
  destruct (load_kin_loop_ok fs self kin_refs) as (assays' & Hloop & Hkeys & _ & Hmiss).
  { rewrite Hdescs. eapply sublist_NoDup; [exact Hnd | apply sublist_take]. }
  { intros ref Href. by eapply Hin, refs_elem_keys. }
  { intros desc p chan exp (i & Hi)%list_elem_of_lookup_1.
    apply refs_lookup in Hi as (x & y & [= -> -> -> ->] & Hx & Hy & _).
    apply Hload; by eapply list_elem_of_lookup_2. }
  exists assays'. split_and!; [done | |].
  - intros i desc Hi Hge. apply Hmiss. rewrite Hdescs.
    intros (j & Hj & Hlt)%elem_of_take.
    assert (i = j) by (by eapply NoDup_lookup). lia.
  - intros ->. unfold kin_refs, AssaySeries.refs in Hloop.
    rewrite zip_with_nil_r in Hloop. simpl in Hloop.
    injection Hloop as Hloop. apply (f_equal AssaySeries.assays) in Hloop.
    symmetry. exact Hloop.
Qed.

Lemma load_kin_fewer_paths_witness :
  ∃ assays',
    AssaySeries.load_kin Fixture.kinetics_fs Fixture.assay_series ["wt"; "mut"] ["/k/wt"]
                         "egfp" 100
    = (AssaySeries.set_assays Fixture.assay_series assays', Py.Ok ())
    ∧ (∀ i desc, ["wt"; "mut"] !! i = Some desc → (length ["/k/wt"] ≤ i)%nat →
                 Py.get assays' desc = Py.get (AssaySeries.assays Fixture.assay_series) desc)
    ∧ (["/k/wt"] = [] → assays' = AssaySeries.assays Fixture.assay_series).
Proof.
  apply (load_kin_fewer_paths Fixture.kinetics_fs Fixture.assay_series ["wt"; "mut"]
                              ["/k/wt"] "egfp" 100).
  - reflexivity.
  - by_decision.
  - intros desc Hdesc. apply (bool_decide_unpack _).
    repeat (apply elem_of_cons in Hdesc as [-> | Hdesc]; [vm_compute; exact I |]).
    by apply elem_of_nil in Hdesc.
  - intros desc p Hdesc Hp.
    repeat (apply elem_of_cons in Hdesc as [-> | Hdesc];
            [repeat (apply elem_of_cons in Hp as [-> | Hp]; [vm_compute; reflexivity |]);
             by apply elem_of_nil in Hp |]).
    by apply elem_of_nil in Hdesc.
Defined.

(** ** Paths and their texts *)

Lemma split_sep_app (sep : ascii) (a b : string) :
  Py.split sep (a +:+ String sep b) = Py.split sep a ++ Py.split sep b.
Proof.
  induction a as [|c a IH]; simpl.
  - rewrite Ascii.eqb_refl. reflexivity.
  - destruct (Ascii.eqb c sep); [rewrite IH; reflexivity|].
    rewrite IH. destruct (Py.split sep a) as [|w ws] eqn:Hsplit; [|reflexivity].
    exfalso. exact (split_not_nil sep a Hsplit).
Qed.

Lemma split_pieces (sep : ascii) (s x : string) :
  x ∈ Py.split sep s → Py.split sep x = [x].
Proof.
  revert x. induction s as [|c s IH]; intros x; simpl.
  - intros ->%list_elem_of_singleton. reflexivity.
  - destruct (Ascii.eqb c sep) eqn:Hc.
    + intros [->|Hx]%elem_of_cons; [reflexivity|exact (IH x Hx)].
    + destruct (Py.split sep s) as [|w ws] eqn:Hsplit.
      * intros ->%list_elem_of_singleton. simpl. rewrite Hc. reflexivity.
      * intros [->|Hx]%elem_of_cons.
        -- simpl. rewrite Hc, (IH w); [reflexivity|left].
        -- apply IH. right. exact Hx.
Qed.

Lemma split_join (sep : ascii) (l : list string) :
  Forall (λ x, Py.split sep x = [x]) l → l ≠ [] →
  Py.split sep (Py.join (String sep "") l) = l.
Proof.
  induction 1 as [|x l Hx Hl IH]; [congruence|]. intros _.
  destruct l as [|y l]; [exact Hx|].
  change (Py.join (String sep "") (x :: y :: l))
    with (x +:+ String sep (Py.join (String sep "") (y :: l))).
  rewrite split_sep_app, Hx, IH; [reflexivity|discriminate].
Qed.

Lemma component_prefix (x rest : string) :
  Path.component x → String.prefix "/" (x +:+ rest) = false.
Proof.
  intros [Hsplit Hkept]. destruct x as [|c x]; [discriminate Hkept|].
  simpl in *. destruct (Ascii.eqb c "/") eqn:Hc.
  - discriminate Hsplit.
  - destruct c as [[] [] [] [] [] [] [] []]; try reflexivity. discriminate Hc.
Qed.

Lemma app_empty_r (s : string) : s +:+ "" = s.
Proof.
  induction s as [|c s IH]; [reflexivity|].
  change (String c (s +:+ "") = String c s). rewrite IH. reflexivity.
Qed.

Lemma join_cons (x : string) (l : list string) :
  ∃ rest, Py.join "/" (x :: l) = x +:+ rest.
Proof.
  destruct l as [|y l].
  - exists "". rewrite app_empty_r. reflexivity.
  - eexists. reflexivity.
Qed.

Lemma filter_kept_components (l : list string) :
  Forall Path.component l → List.filter Path.kept l = l.
Proof.
  induction 1 as [|x l [_ Hx] _ IH]; [reflexivity|].
  simpl. rewrite Hx, IH. reflexivity.
Qed.

Lemma of_str_well_formed (s : string) : Path.well_formed (Path.of_str s).
Proof.
  unfold Path.well_formed, Path.of_str. simpl.
  apply Forall_forall. intros x Hx.
  apply list_elem_of_In, filter_In in Hx as [Hx%list_elem_of_In Hkept].
  split; [exact (split_pieces _ _ _ Hx)|exact Hkept].
Qed.

Lemma well_formed_split (l : list string) :
  Forall Path.component l → Forall (λ x, Py.split "/" x = [x]) l.
Proof. intros Hl. eapply Forall_impl; [exact Hl|]. intros x [Hx _]. exact Hx. Qed.

Lemma prefix_empty (s : string) : String.prefix "" s = true.
Proof. destruct s; reflexivity. Qed.

Lemma prefix_cons (c : ascii) (s : string) :
  String.prefix "/" (String c s) = if ascii_dec "/" c then true else false.
Proof.
  change (String.prefix "/" (String c s))
    with (match ascii_dec "/" c with left _ => String.prefix "" s | right _ => false end).
  destruct (ascii_dec "/" c); [apply prefix_empty|reflexivity].
Qed.

Lemma prefix_slash (s : string) : String.prefix "/" ("/" +:+ s) = true.
Proof. exact (prefix_empty s). Qed.

(** The text of a path reads back as the path. *)
Lemma of_str_str (p : Path.t) : Path.well_formed p → Path.of_str (Path.str p) = p.
Proof.
  destruct p as [[] parts]; unfold Path.well_formed, Path.of_str, Path.str;
    cbn [Path.anchored Path.parts]; intros Hwf.
  - rewrite prefix_slash.
    change (Py.split "/" ("/" +:+ Py.join "/" parts))
      with ("" :: Py.split "/" (Py.join "/" parts)).
    f_equal. destruct parts as [|x l]; [reflexivity|].
    rewrite (split_join "/" (x :: l) (well_formed_split _ Hwf)) by discriminate.
    change (List.filter Path.kept ("" :: x :: l)) with (List.filter Path.kept (x :: l)).
    exact (filter_kept_components _ Hwf).
  - destruct parts as [|x l]; [reflexivity|].
    rewrite (split_join "/" (x :: l) (well_formed_split _ Hwf)) by discriminate.
    rewrite (filter_kept_components _ Hwf).
    destruct (join_cons x l) as [rest ->].
    rewrite component_prefix; [reflexivity|].
    inversion Hwf; assumption.
Qed.

Lemma str_prefix (p : Path.t) :
  Path.well_formed p → String.prefix "/" (Path.str p) = Path.anchored p.
Proof.
  intros Hwf. rewrite <- (of_str_str p Hwf) at 2. reflexivity.
Qed.

Lemma substring_last (s : string) :
  String.substring (String.length s - 1) 1 s = "/" → ∃ s', s = s' +:+ "/".
Proof.
  induction s as [|c s IH]; [discriminate|].
  simpl String.length. replace (S (String.length s) - 1)%nat with (String.length s) by lia.
  destruct s as [|d s].
  - simpl. intros [= ->]. exists "". reflexivity.
  - simpl String.length. simpl String.substring at 1.
    simpl String.length in IH. replace (S (String.length s) - 1)%nat with (String.length s) in IH by lia.
    intros Hsub. destruct (IH Hsub) as [s' ->]. exists (String c s'). reflexivity.
Qed.

Lemma endswith_slash (s : string) : Py.endswith s "/" = true → ∃ s', s = s' +:+ "/".
Proof.
  unfold Py.endswith. intros [_ Heq%String.eqb_eq]%andb_prop.
  apply substring_last. exact Heq.
Qed.

Lemma prefix_app (a b : string) :
  a ≠ "" → String.prefix "/" (a +:+ b) = String.prefix "/" a.
Proof.
  destruct a as [|c a]; [congruence|]. intros _.
  change (String.prefix "/" (String c (a +:+ b)) = String.prefix "/" (String c a)).
  rewrite !prefix_cons. reflexivity.
Qed.

Lemma filter_kept_split_app (a b : string) :
  List.filter Path.kept (Py.split "/" (a +:+ String "/" b))
  = List.filter Path.kept (Py.split "/" a) ++ List.filter Path.kept (Py.split "/" b).
Proof. rewrite split_sep_app. apply List.filter_app. Qed.

Lemma app_assoc_str (a b c : string) : (a +:+ b) +:+ c = a +:+ (b +:+ c).
Proof.
  induction a as [|x a IH]; [reflexivity|].
  change (String x ((a +:+ b) +:+ c) = String x (a +:+ (b +:+ c))). rewrite IH. reflexivity.
Qed.

(** [Path(os.path.join(a, b))]: an absolute [b] alone, else the components
    of [a] and then those of [b]. *)
Lemma of_str_path_join (a b : string) :
  Path.of_str (Os.path_join a b)
  = if String.prefix "/" b then Path.of_str b
    else Path.mk (String.prefix "/" a)
                 (Path.parts (Path.of_str a) ++ Path.parts (Path.of_str b)).
Proof.
  unfold Os.path_join. destruct (String.prefix "/" b) eqn:Hb; [reflexivity|].
  destruct (String.eqb a "") eqn:Ha.
  - apply String.eqb_eq in Ha as ->. cbn [orb]. change ("" +:+ b) with b.
    unfold Path.of_str. cbn [Path.parts].
    change (String.prefix "/" "") with false.
    change (List.filter Path.kept (Py.split "/" "")) with (@nil string).
    rewrite Hb. reflexivity.
  - assert (a ≠ "") as Hne by (intros ->; discriminate Ha).
    cbn [orb]. destruct (Py.endswith a "/") eqn:Hend.
    + destruct (endswith_slash a Hend) as [a' ->].
      unfold Path.of_str. rewrite prefix_app by exact Hne. cbn [Path.parts]. f_equal.
      rewrite app_assoc_str. change ("/" +:+ b) with (String "/" b).
      rewrite filter_kept_split_app.
      rewrite <- (app_empty_r (a' +:+ "/")) at 1.
      rewrite app_assoc_str. change ("/" +:+ "") with (String "/" "").
      rewrite filter_kept_split_app.
      change (List.filter Path.kept (Py.split "/" "")) with (@nil string).
      rewrite app_nil_r. reflexivity.
    + unfold Path.of_str. rewrite prefix_app by exact Hne. cbn [Path.parts]. f_equal.
      change ("/" +:+ b) with (String "/" b). apply filter_kept_split_app.
Qed.

Lemma parent_well_formed (p : Path.t) : Path.well_formed p → Path.well_formed (Path.parent p).
Proof.
  unfold Path.well_formed, Path.parent. intros Hwf.
  destruct (Path.parts p) as [|x l] eqn:Hparts; [rewrite Hparts; constructor|].
  cbn [Path.parts]. apply Forall_forall. intros y Hy.
  rewrite Forall_forall in Hwf. apply Hwf.
  destruct (exists_last (l := x :: l)) as (l' & z & Heq); [discriminate|].
  rewrite Heq in Hy |- *. rewrite removelast_last in Hy. apply elem_of_app. left. exact Hy.
Qed.

Lemma parent_parts (p : Path.t) : Path.parts (Path.parent p) = removelast (Path.parts p).
Proof. unfold Path.parent. destruct (Path.parts p) eqn:Hp; [rewrite Hp|]; reflexivity. Qed.

Lemma parent_child (p : Path.t) (n : string) : Path.parent (Path.child p n) = p.
Proof.
  unfold Path.parent, Path.child. cbn [Path.parts Path.anchored].
  destruct (Path.parts p ++ [n]) eqn:Happ.
  - destruct (Path.parts p); discriminate Happ.
  - rewrite <- Happ, removelast_last. destruct p; reflexivity.
Qed.

Lemma name_child (p : Path.t) (n : string) : Path.name (Path.child p n) = n.
Proof. unfold Path.name, Path.child. cbn [Path.parts]. rewrite last_snoc. reflexivity. Qed.

Lemma listdir_component fs (d : Path.t) (n : string) :
  n ∈ Os.listdir fs d → Path.component n.
Proof.
  unfold Os.listdir. intros (p & _ & Hsome)%list_elem_of_omap.
  simpl in Hsome. case_bool_decide as Hdec; [|discriminate Hsome].
  injection Hsome as <-. destruct Hdec as [Hparts _].
  pose proof (of_str_well_formed p) as Hwf. unfold Path.well_formed in Hwf.
  rewrite Forall_forall in Hwf. apply Hwf. unfold Path.name.
  destruct (last (Path.parts (Path.of_str p))) as [z|] eqn:Hlast.
  - apply last_Some in Hlast as [l' Hlast]. rewrite Hlast.
    apply elem_of_app. right. left.
  - apply last_None in Hlast. contradiction.
Qed.

Lemma child_well_formed (p : Path.t) (n : string) :
  Path.well_formed p → Path.component n → Path.well_formed (Path.child p n).
Proof.
  unfold Path.well_formed, Path.child. cbn [Path.parts]. intros Hp Hn.
  apply Forall_app. split; [exact Hp|]. constructor; [exact Hn|constructor].
Qed.

(** What [load_files] makes of one listed file: [Path(os.path.join(r.parent, r / n))]. *)
Lemma rebuilt_path (r : Path.t) (n : string) :
  Path.well_formed r → Path.component n →
  Path.of_str (Os.path_join (Path.str (Path.parent r)) (Path.str (Path.child r n)))
  = Path.mk (Path.anchored r)
            (if Path.anchored r then Path.parts r ++ [n]
             else removelast (Path.parts r) ++ Path.parts r ++ [n]).
Proof.
  intros Hr Hn.
  pose proof (child_well_formed r n Hr Hn) as Hchild.
  pose proof (parent_well_formed r Hr) as Hparent.
  rewrite of_str_path_join, (str_prefix _ Hchild).
  cbn [Path.child Path.anchored].
  destruct (Path.anchored r) eqn:Hanch.
  - rewrite (of_str_str _ Hchild). unfold Path.child. rewrite Hanch. reflexivity.
  - rewrite (str_prefix _ Hparent), (of_str_str _ Hchild), (of_str_str _ Hparent).
    rewrite parent_parts. cbn [Path.child Path.parts].
    unfold Path.parent. destruct (Path.parts r); cbn [Path.anchored]; rewrite ?Hanch; reflexivity.
Qed.

Lemma path_isdir_str fs (p : string) :
  Os.path_isdir fs (Path.str (Path.of_str p)) = Os.path_isdir fs p.
Proof.
  unfold Os.path_isdir. rewrite (of_str_str _ (of_str_well_formed p)). reflexivity.
Qed.

Lemma stem_child (p : Path.t) (n : string) :
  Path.stem (Path.child p n) = Path.stem_of_name n.
Proof. unfold Path.stem. rewrite name_child. reflexivity. Qed.

(** ** What [glob] finds *)

Lemma first_occurrences_subseteq (l : list Path.t) (x : Path.t) :
  x ∈ Os.first_occurrences l → x ∈ l.
Proof.
  unfold Os.first_occurrences.
  assert (Hgen : ∀ seen, x ∈ foldl (λ seen p, if bool_decide (p ∈ seen) then seen
                                                else seen ++ [p]) seen l →
                         x ∈ seen ∨ x ∈ l).
  { induction l as [|p l IH]; intros seen; simpl; [by left|].
    intros [Hx|Hx]%IH; [|right; by right].
    case_bool_decide; [by left|].
    apply elem_of_app in Hx as [Hx|Hx%list_elem_of_singleton]; [by left|].
    right. subst. left. }
  intros [Hx|Hx]%Hgen; [by apply elem_of_nil in Hx|done].
Qed.

(** What lies below a directory: a path of the same kind whose components
    start with those of the directory. *)
Lemma iterate_directories_below depth fs (d img : Path.t) :
  Path.well_formed d →
  img ∈ Os.iterate_directories depth fs d →
  Path.well_formed img ∧ Path.anchored img = Path.anchored d
  ∧ ∃ names, Path.parts img = Path.parts d ++ names.
Proof.
  revert d. induction depth as [|depth IH]; intros d Hd; simpl.
  - intros ->%list_elem_of_singleton. split_and!; [done|done|]. exists []. by rewrite app_nil_r.
  - intros [->|Himg]%elem_of_cons.
    { split_and!; [done|done|]. exists []. by rewrite app_nil_r. }
    apply list_elem_of_bind in Himg as (sub & Himg & Hsub).
    apply list_elem_of_In, filter_In in Hsub as [Hsub%list_elem_of_In _].
    apply list_elem_of_fmap in Hsub as (name & -> & Hname).
    destruct (IH (Path.child d name)) as (Hwf & Hanch & names & Hparts); [|exact Himg|].
    { apply child_well_formed; [exact Hd|exact (listdir_component _ _ _ Hname)]. }
    split_and!; [exact Hwf|exact Hanch|].
    exists (name :: names). rewrite Hparts. unfold Path.child. cbn [Path.parts].
    by rewrite <- app_assoc.
Qed.

Lemma select_below fs (parts : list string) (d img : Path.t) :
  Forall (λ pat, pat = "" ∨ Path.component pat) parts →
  Path.well_formed d →
  img ∈ Os.select fs parts d →
  Path.well_formed img ∧ Path.anchored img = Path.anchored d
  ∧ ∃ names, Path.parts img = Path.parts d ++ names.
Proof.
  intros Hparts. revert d.
  induction Hparts as [|pat rest Hpat _ IH]; intros d Hd; cbn [Os.select].
  - intros ->%list_elem_of_singleton. split_and!; [done|done|]. exists []. by rewrite app_nil_r.
  - destruct (String.eqb pat "") eqn:Hempty.
    { intros ->%list_elem_of_singleton. split_and!; [done|done|].
      exists []. by rewrite app_nil_r. }
    destruct Hpat as [->|Hpat]; [discriminate Hempty|].
    assert (Hstep : ∀ sub, Path.well_formed sub → Path.anchored sub = Path.anchored d →
                           (∃ names, Path.parts sub = Path.parts d ++ names) →
                           img ∈ Os.select fs rest sub →
                           Path.well_formed img ∧ Path.anchored img = Path.anchored d
                           ∧ ∃ names, Path.parts img = Path.parts d ++ names).
    { intros sub Hsub Hanch [names Hnames] Himg.
      destruct (IH sub Hsub Himg) as (Hwf & Hanch' & names' & Hparts').
      split_and!; [exact Hwf|congruence|].
      exists (names ++ names'). rewrite Hparts', Hnames. by rewrite <- app_assoc. }
    destruct (String.eqb pat "**").
    + intros Himg%first_occurrences_subseteq.
      apply list_elem_of_bind in Himg as (sub & Himg & Hsub).
      destruct (iterate_directories_below _ _ _ _ Hd Hsub) as (Hwf & Hanch & Hnames).
      exact (Hstep sub Hwf Hanch Hnames Himg).
    + destruct (Os.is_wildcard_pattern pat).
      * intros Himg. apply list_elem_of_bind in Himg as (name & Himg & Hname).
        apply list_elem_of_In, filter_In in Hname as [Hname%list_elem_of_In _].
        apply (Hstep (Path.child d name)); [|reflexivity| |exact Himg].
        -- apply child_well_formed; [exact Hd|exact (listdir_component _ _ _ Hname)].
        -- exists [name]. reflexivity.
      * destruct (if match rest with [] => false | _ => true end
                  then Os.is_dir fs (Path.child d pat)
                  else Os.exists_ fs (Path.child d pat)); [|intros Himg; by apply elem_of_nil in Himg].
        intros Himg. apply (Hstep (Path.child d pat)); [|reflexivity| |exact Himg].
        -- apply child_well_formed; [exact Hd|exact Hpat].
        -- exists [pat]. reflexivity.
Qed.

Lemma pattern_parts_components (pattern : string) :
  Forall (λ pat, pat = "" ∨ Path.component pat) (Os.pattern_parts pattern).
Proof.
  unfold Os.pattern_parts. apply Forall_app. split.
  - eapply Forall_impl; [exact (of_str_well_formed pattern)|]. intros pat Hpat. by right.
  - destruct (Py.endswith pattern "/"); [|constructor].
    constructor; [by left|constructor].
Qed.

Lemma glob_below fs (root pattern : string) (found : list Path.t) (img : Path.t) :
  Os.glob fs (Path.of_str root) pattern = Py.Ok found →
  img ∈ found →
  Os.path_isdir fs root = true
  ∧ Path.well_formed img ∧ Path.anchored img = Path.anchored (Path.of_str root)
  ∧ ∃ names, Path.parts img = Path.parts (Path.of_str root) ++ names.
Proof.
  unfold Os.glob. destruct (Os.glob_error pattern); [discriminate|].
  rewrite path_isdir_str. intros [= <-].
  destruct (Os.path_isdir fs root); [|intros Himg; by apply elem_of_nil in Himg].
  intros Himg. split; [reflexivity|].
  exact (select_below _ _ _ _ (pattern_parts_components pattern)
                      (of_str_well_formed root) Himg).
Qed.

(** What [load_files] makes of a path found: the path itself for an
    absolute root, and for a relative one the components of the root but
    its last before it. *)
Lemma rebuilt_found (r img : Path.t) :
  Path.well_formed r → Path.well_formed img → Path.anchored img = Path.anchored r →
  Path.of_str (Os.path_join (Path.str (Path.parent r)) (Path.str img))
  = Path.mk (Path.anchored r)
            (if Path.anchored r then Path.parts img
             else removelast (Path.parts r) ++ Path.parts img).
Proof.
  intros Hr Himg Hanch.
  pose proof (parent_well_formed r Hr) as Hparent.
  rewrite of_str_path_join, (str_prefix _ Himg), Hanch.
  destruct (Path.anchored r) eqn:Hr_anch.
  - rewrite (of_str_str _ Himg). destruct img as [a ps]. cbn in Hanch |- *. by subst a.
  - rewrite (str_prefix _ Hparent), (of_str_str _ Himg), (of_str_str _ Hparent).
    rewrite parent_parts.
    unfold Path.parent. destruct (Path.parts r); cbn [Path.anchored]; rewrite ?Hr_anch; reflexivity.
Qed.

(** X18: the files [load_files] makes chips of are the paths [glob] finds
    from [root] whose stem has no [ChamberBorders] or has [Summary], each
    joined to the parent of [root] again.  A path found lies below [root];
    joined again it is itself for an absolute root, and for a relative
    root it has the components of the root but its last before it, so that
    a relative root of two components or more names its images twice over.
    For a pattern of one component with a wildcard in it, the paths found
    are the entries of [root] that match it. *)
Theorem load_files_sources fs (root : string) (custom_glob : option string) :
  let r := Path.of_str root in
  let pattern :=
    if Py.truthy_str custom_glob then default "" custom_glob else ChipSeries.default_glob in
  (∀ path,
     path ∈ ChipSeries.img_paths fs root custom_glob
     ↔ ∃ found img,
         Os.glob fs r pattern = Py.Ok found
         ∧ img ∈ found
         ∧ (Py.contains "ChamberBorders" (Path.stem img) = false
            ∨ Py.contains "Summary" (Path.stem img) = true)
         ∧ path = Path.mk (Path.anchored r)
                          (if Path.anchored r then Path.parts img
                           else removelast (Path.parts r) ++ Path.parts img))
  ∧ (∀ found img,
       Os.glob fs r pattern = Py.Ok found → img ∈ found →
       Os.path_isdir fs root = true
       ∧ Path.anchored img = Path.anchored r
       ∧ ∃ names, Path.parts img = Path.parts r ++ names)
  ∧ (Os.pattern_parts pattern = [pattern] →
     Os.is_wildcard_pattern pattern = true →
     Py.contains "**" pattern = false →
     Os.glob fs r pattern
     = Py.Ok (if Os.path_isdir fs root
              then Path.child r <$> List.filter (Path.fnmatch pattern) (Os.listdir fs r)
              else [])).
Proof.
  intros r pattern.
  pose proof (of_str_well_formed root) as Hr. fold r in Hr.
  split_and!.
  - intros path. unfold ChipSeries.img_paths. cbv zeta. fold r. fold pattern.
    destruct (Os.glob fs r pattern) as [found|e] eqn:Hglob.
    + split.
      * intros (img & -> & Himg)%list_elem_of_fmap.
        apply list_elem_of_In, filter_In in Himg as [Himg%list_elem_of_In Hkeep].
        exists found, img. split_and!; [reflexivity|exact Himg| |].
        -- apply orb_prop in Hkeep as [Hkeep%negb_true_iff|Hkeep]; [left|right]; exact Hkeep.
        -- destruct (glob_below _ _ _ _ _ Hglob Himg) as (_ & Hwf & Hanch & _).
           exact (rebuilt_found r img Hr Hwf Hanch).
      * intros (found' & img & [= <-] & Himg & Hkeep & ->).
        apply list_elem_of_fmap. exists img. split.
        -- destruct (glob_below _ _ _ _ _ Hglob Himg) as (_ & Hwf & Hanch & _).
           symmetry. exact (rebuilt_found r img Hr Hwf Hanch).
        -- apply list_elem_of_In, filter_In. split; [apply list_elem_of_In; exact Himg|].
           apply orb_true_iff.
           destruct Hkeep as [Hkeep|Hkeep]; [left; apply negb_true_iff|right]; exact Hkeep.
    + split; [intros Hpath; by apply elem_of_nil in Hpath|].
      intros (found & img & Hfound & _). discriminate Hfound.
  - intros found img Hglob Himg.
    destruct (glob_below _ _ _ _ _ Hglob Himg) as (Hdir & _ & Hanch & Hnames).
    split_and!; [exact Hdir|exact Hanch|exact Hnames].
  - intros Hparts Hwild Hstars.
    assert (Hrec : String.eqb pattern "**" = false).
    { destruct (String.eqb pattern "**") eqn:Heq; [|reflexivity].
      apply String.eqb_eq in Heq. rewrite Heq in Hstars. discriminate Hstars. }
    assert (Hne : String.eqb pattern "" = false).
    { destruct (String.eqb pattern "") eqn:Heq; [|reflexivity].
      apply String.eqb_eq in Heq. rewrite Heq in Hwild. discriminate Hwild. }
    assert (Hrel : String.prefix "/" pattern = false).
    { pose proof (pattern_parts_components pattern) as Hcomp. rewrite Hparts in Hcomp.
      apply Forall_cons in Hcomp as [[Hcomp|Hcomp] _].
      - rewrite Hcomp in Hne. discriminate Hne.
      - pose proof (component_prefix pattern "" Hcomp) as Hprefix.
        rewrite app_empty_r in Hprefix. exact Hprefix. }
    assert (Herr : Os.glob_error pattern = None).
    { unfold Os.glob_error. rewrite Hne, Hrel, Hparts.
      destruct pattern as [|c rest]; [discriminate Hne|].
      cbn [existsb]. rewrite Hstars. reflexivity. }
    destruct (Os.path_isdir fs root) eqn:Hdir.
    + apply glob_of_listing; [exact Herr|exact Hparts|exact Hrec|exact Hwild|].
      unfold r. rewrite path_isdir_str. exact Hdir.
    + unfold Os.glob. rewrite Herr. unfold r. rewrite path_isdir_str, Hdir. reflexivity.
Qed.

Lemma img_paths_missing_root fs root custom_glob :
  Os.path_isdir fs root = false → ChipSeries.img_paths fs root custom_glob = [].
Proof.
  intros Hdir. unfold ChipSeries.img_paths, Os.glob. cbv zeta.
  rewrite path_isdir_str, Hdir. destruct (Os.glob_error _); reflexivity.
Qed.

(** X19: when [root] is no directory, a [load_files] without indexes reads
    no file name: it raises what [glob] has for the pattern, if the
    pattern is one it refuses, and otherwise returns and sets the chips to
    the empty dictionary. *)
Theorem load_files_missing_root fs (self : ChipSeries.t) root channel exposure
    indexes custom_glob :
  Py.truthy_list indexes = false →
  Os.path_isdir fs root = false →
  ChipSeries.load_files fs self root channel exposure indexes custom_glob
  = match Os.glob_error (if Py.truthy_str custom_glob then default "" custom_glob
                         else ChipSeries.default_glob) with
    | Some e => (ChipSeries.set_series_root self (Some root), Py.Raise e)
    | None =>
        (ChipSeries.set_chips (ChipSeries.set_series_root self (Some root)) (Some []),
         Py.Ok ())
    end.
Proof.
  intros Hidx Hdir. rewrite load_files_unfold. cbv zeta. rewrite Hidx.
  rewrite (img_paths_missing_root _ _ _ Hdir). cbn [negb].
  unfold Os.glob. destruct (Os.glob_error _); reflexivity.
Qed.

Lemma load_files_missing_root_witness :
  ChipSeries.load_files Fixture.fs Fixture.timecourse "/nowhere" "egfp" 500 None None
  = (ChipSeries.set_chips (ChipSeries.set_series_root Fixture.timecourse (Some "/nowhere"))
                          (Some []),
     Py.Ok ())
  ∧ ChipSeries.load_files Fixture.fs Fixture.timecourse "/nowhere" "egfp" 500 None
                          (Some "/abs*.tif")
    = (ChipSeries.set_series_root Fixture.timecourse (Some "/nowhere"),
       Py.Raise (Py.NotImplementedError "Non-relative patterns are unsupported")).
Proof.
  split.
  - apply (load_files_missing_root Fixture.fs Fixture.timecourse "/nowhere" "egfp" 500
                                   None None).
    + reflexivity.
    + vm_compute. reflexivity.
  - apply (load_files_missing_root Fixture.fs Fixture.timecourse "/nowhere" "egfp" 500
                                   None (Some "/abs*.tif")).
    + reflexivity.
    + vm_compute. reflexivity.
Defined.

Lemma of_str_join_component (root fn : string) :
  Path.component fn →
  Path.of_str (Os.path_join root fn) = Path.child (Path.of_str root) fn.
Proof.
  intros Hfn. rewrite of_str_path_join.
  pose proof (component_prefix fn "" Hfn) as Hprefix. rewrite app_empty_r in Hprefix.
  rewrite Hprefix. unfold Path.child, Path.of_str at 2. cbn [Path.parts Path.anchored].
  destruct Hfn as [-> Hkept]. cbn [List.filter]. rewrite Hkept. reflexivity.
Qed.

Section saving.
Context `{Chip.Library} `{Frame.Writer}.

(** X20: a series loaded from a directory saves its summary in that
    directory: after a [load_files] without indexes that returned, and when
    [summarize] returns, [save_summary] without [outPath] returns and writes
    exactly the file [dname_description_kind.csv.bz2] of [root], provided
    that name is one path component and no directory has it; the same holds
    for [Timecourse.save_summary]. *)
Theorem save_summary_in_root fs (self self' : ChipSeries.t) root channel exposure
    indexes custom_glob (kind : string) (df : Frame.t) :
  Py.truthy_list indexes = false →
  ChipSeries.load_files fs self root channel exposure indexes custom_glob
  = (self', Py.Ok ()) →
  ChipSeries.summarize self' = Py.Ok df →
  Path.component (ChipSeries.summary_name self kind) →
  Os.path_isdir fs (Os.path_join root (ChipSeries.summary_name self kind)) = false →
  ChipSeries.save_summary_as kind self' None fs
  = (Os.imsave fs (Os.path_join root (ChipSeries.summary_name self kind))
               (Frame.csv_bz2 df), Io.Returned)
  ∧ (kind = "Timecourse" →
     Timecourse.save_summary self' None fs = ChipSeries.save_summary_as kind self' None fs).
Proof.
  intros Hidx Hload Hsum Hfn Hfree.
  assert (Hdir : Os.path_isdir fs root = true).
  { destruct (Os.path_isdir fs root) eqn:Hdir; [reflexivity|].
    rewrite load_files_unfold in Hload. cbv zeta in Hload. rewrite Hidx in Hload.
    rewrite (img_paths_missing_root _ _ _ Hdir) in Hload. cbn [negb] in Hload.
    destruct (Os.glob _ _ _); [|discriminate Hload].
    injection Hload as <-. discriminate Hsum. }
  assert (Hself : ChipSeries.series_root self' = Some root
                  ∧ ChipSeries.summary_name self' kind = ChipSeries.summary_name self kind).
  { rewrite load_files_unfold in Hload. cbv zeta in Hload. rewrite Hidx in Hload.
    cbn [negb] in Hload. destruct (Os.glob _ _ _); [|discriminate Hload].
    destruct (mapM _ _); [|discriminate Hload].
    injection Hload as <-. split; reflexivity. }
  destruct Hself as [Hroot Hname].
  split.
  - unfold ChipSeries.save_summary_as. cbn [Py.truthy_str]. rewrite Hsum, Hroot, Hname.
    unfold Io.to_csv, Io.join_target, Os.write_file. rewrite Hfree.
    rewrite (of_str_join_component _ _ Hfn), parent_child, path_isdir_str, Hdir.
    reflexivity.
  - intros ->. unfold Timecourse.save_summary, ChipSeries.save_summary_as.
    cbn [Py.truthy_str]. rewrite Hsum. reflexivity.
Qed.

End saving.

Lemma save_summary_in_root_witness :
  ∃ df,
    @ChipSeries.summarize Fixture.library Fixture.loaded = Py.Ok df
    ∧ @ChipSeries.save_summary_as Fixture.library Fixture.writer "Timecourse"
                                  Fixture.loaded None Fixture.fs
      = (Os.imsave Fixture.fs
                   (Os.path_join "/data" (ChipSeries.summary_name Fixture.timecourse
                                                                  "Timecourse"))
                   (@Frame.csv_bz2 Fixture.writer df), Io.Returned)
    ∧ ("Timecourse" = "Timecourse" →
       @Timecourse.save_summary Fixture.library Fixture.writer Fixture.loaded None Fixture.fs
       = @ChipSeries.save_summary_as Fixture.library Fixture.writer "Timecourse"
                                     Fixture.loaded None Fixture.fs).
Proof.
  destruct (@ChipSeries.summarize Fixture.library Fixture.loaded) as [df|e] eqn:Hsum;
    [|vm_compute in Hsum; discriminate Hsum].
  exists df. split; [reflexivity|].
  apply (@save_summary_in_root Fixture.library Fixture.writer Fixture.fs Fixture.timecourse
           Fixture.loaded "/data" "egfp" 500 None (Some "*.tif") "Timecourse" df).
  - reflexivity.
  - vm_compute. reflexivity.
  - exact Hsum.
  - split; vm_compute; reflexivity.
  - vm_compute. reflexivity.
Defined.

(** * The summary of a series of assays, and the folder parsers *)

Section assay_series_more.
Context `{Chip.Library} `{Frame.Writer} `{AssaySeries.Finder}.

(** X21: [AssaySeries.summarize] never returns a table: without assays it
    raises the [ValueError] of concatenating nothing, and with assays what
    [merge_summarize] of one of them raises, the first in the order of the
    keys. *)
Theorem assay_series_summarize_never_returns (self : AssaySeries.t) :
  ∃ e,
    AssaySeries.summarize self = Py.Raise e
    ∧ ((AssaySeries.assays self = []
        ∧ e = Py.ValueError "No objects to concatenate")
       ∨ ∃ a rest,
           Py.values (AssaySeries.assays self) = a :: rest
           ∧ TurnoverAssay.merge_summarize a = Py.Raise e).
Proof.
  unfold AssaySeries.summarize.
  destruct (AssaySeries.assays self) as [|[k a] assays].
  - eexists. split; [reflexivity|]. left. done.
  - cbn [Py.values fmap list_fmap snd mapM].
    destruct (TurnoverAssay.merge_summarize a) as [df|e] eqn:Hmerge.
    + by apply merge_summarize_not_ok in Hmerge.
    + exists e. split; [reflexivity|]. right. by exists a, (assays.*2).
Qed.

(** X22: [AssaySeries.save_summary] writes nothing and raises what
    [summarize] raises, whatever the object, the target and the file system
    are. *)
Theorem assay_series_save_never_writes (self : AssaySeries.t) (outPath : option string)
    (fs : Os.FileSystem) :
  ∃ e,
    AssaySeries.summarize self = Py.Raise e
    ∧ AssaySeries.save_summary self outPath fs = (fs, Io.Raised e).
Proof.
  unfold AssaySeries.save_summary.
  destruct (AssaySeries.summarize self) as [df|e] eqn:Hsum.
  - exfalso. revert Hsum. unfold AssaySeries.summarize.
    destruct (mapM _ (Py.values (AssaySeries.assays self))) as [summaries|e] eqn:Hmap;
      [|discriminate].
    apply mapM_ok in Hmap. destruct Hmap as [|a s assays summaries Ha _]; [discriminate|].
    destruct (TurnoverAssay.merge_summarize a) as [m|e] eqn:Hmerge; [|discriminate Ha].
    by apply merge_summarize_not_ok in Hmerge.
  - exists e. split; reflexivity.
Qed.

(** ** The folder parsers *)

Lemma mapM_some_raise {A B} (f : A → Py.res B) (l : list A) (x : A) :
  x ∈ l → Py.is_ok (f x) = false → ∃ e, mapM f l = Py.Raise e.
Proof.
  induction l as [|y l IH]; [intros Hx; inversion Hx|].
  intros Hx Hfx. simpl. destruct (f y) as [b|e] eqn:Hy; [|eauto].
  apply elem_of_cons in Hx as [->|Hx]; [rewrite Hy in Hfx; discriminate Hfx|].
  destruct (IH Hx Hfx) as [e ->]. simpl. eauto.
Qed.

Lemma matched_files_raise fs root pattern file_handles descriptors e :
  AssaySeries.matched_files fs root pattern file_handles descriptors = Py.Raise e →
  ∃ i handle desc,
    file_handles !! i = Some handle ∧ descriptors !! i = Some desc
    ∧ AssaySeries.first_match fs root pattern handle = Py.Raise e.
Proof.
  unfold AssaySeries.matched_files.
  destruct (mapM _ _) as [items|e'] eqn:Hmap; [discriminate|].
  intros [= ->]. apply mapM_raise in Hmap as ([handle desc] & Hin & Hraise).
  apply list_elem_of_lookup_1 in Hin as [i Hi].
  apply lookup_zip_with_Some in Hi as (h & d & [= -> ->] & Hh & Hd).
  exists i, h, d. split_and!; [exact Hh|exact Hd|].
  destruct (AssaySeries.first_match fs root pattern h); [discriminate Hraise|].
  cbn [mbind Py.res_bind] in Hraise. injection Hraise as ->. reflexivity.
Qed.

Lemma matched_files_ok fs root pattern file_handles descriptors paths :
  length file_handles = length descriptors →
  NoDup (zip file_handles descriptors) →
  Forall2 (λ handle p, AssaySeries.first_match fs root pattern handle = Py.Ok p)
          file_handles paths →
  ∃ files, AssaySeries.matched_files fs root pattern file_handles descriptors = Py.Ok files
           ∧ Py.values files = paths.
Proof.
  intros Hlen Hnd Hall. unfold AssaySeries.matched_files.
  assert (Hmap : mapM (λ '(handle, desc),
                         m ← AssaySeries.first_match fs root pattern handle;
                         Py.Ok ((handle, desc), m))
                      (zip file_handles descriptors)
                 = Py.Ok (zip (zip file_handles descriptors) paths)).
  { clear Hnd. revert descriptors Hlen.
    induction Hall as [|handle p hs ps Hp _ IH]; intros [|d ds] Hlen;
      try discriminate Hlen; [reflexivity|].
    simpl. rewrite Hp. simpl. rewrite (IH ds) by (simpl in Hlen; lia). reflexivity. }
  rewrite Hmap. eexists. split; [reflexivity|].
  rewrite of_items_NoDup.
  - unfold Py.values. apply snd_zip.
    rewrite length_zip_with, <- (Forall2_length _ _ _ Hall). lia.
  - rewrite fst_zip; [exact Hnd|].
    rewrite length_zip_with, <- (Forall2_length _ _ _ Hall). lia.
Qed.

(** X23: in every outcome [parse_kineticsFolders] sets [chamber_root] to
    [root] and changes nothing else but the assays, whose keys, quants and
    descriptions stay. *)
Theorem parse_kinetics_frame fs (self : AssaySeries.t) (root : string)
    (file_handles descriptors : list string) (channel : string) (exposure : Z)
    (pattern : option string) :
  let self' := (AssaySeries.parse_kineticsFolders fs self root file_handles descriptors
                  channel exposure pattern).1 in
  self' = AssaySeries.set_assays (AssaySeries.set_chamber_root self (Some root))
                                 (AssaySeries.assays self')
  ∧ Py.keys (AssaySeries.assays self') = Py.keys (AssaySeries.assays self)
  ∧ ∀ k a, Py.get (AssaySeries.assays self) k = Some a →
           ∃ a', Py.get (AssaySeries.assays self') k = Some a'
                 ∧ Assay.quants a' = Assay.quants a
                 ∧ Assay.description a' = Assay.description a.
Proof.
  intros self'. unfold self', AssaySeries.parse_kineticsFolders. cbv zeta.
  set (self1 := AssaySeries.set_chamber_root self (Some root)).
  destruct (AssaySeries.matched_files _ _ _ _ _) as [files|e].
  - unfold AssaySeries.load_kin. destruct (negb _).
    + cbn [fst]. split_and!; [reflexivity|reflexivity|]. intros k a Ha. eauto.
    + match goal with
      | |- context [AssaySeries.load_kin_loop fs self1 ?refs] =>
          destruct (load_kin_loop_frame fs self1 refs) as (assays' & -> & Hkeys & Hall)
      end.
      cbn [AssaySeries.assays AssaySeries.set_assays].
      split_and!; [reflexivity|exact Hkeys|].
      intros k a Ha. destruct (Hall k a Ha) as (a' & Ha' & Hassigned).
      exists a'. split; [exact Ha'|].
      destruct Hassigned as [->|(p & chan & exp & ->)]; split; reflexivity.
  - cbn [fst]. split_and!; [reflexivity|reflexivity|]. intros k a Ha. eauto.
Qed.

(** X24: when every handle formats and one of the handles paired with a
    descriptor matches no folder, [parse_kineticsFolders] raises
    [IndexError], and no timecourse is loaded, also for the handles that do
    match: the object has only [chamber_root] set. *)
Theorem parse_kinetics_no_match fs (self : AssaySeries.t) (root : string)
    (file_handles descriptors : list string) (channel : string) (exposure : Z)
    (pattern : option string) (i : nat) (handle desc : string) :
  let pat := if Py.truthy_str pattern then default "" pattern
             else AssaySeries.kinetics_pattern in
  Forall (λ h, Py.is_ok (AssaySeries.format pat h) = true) file_handles →
  file_handles !! i = Some handle →
  descriptors !! i = Some desc →
  (∀ formatted, AssaySeries.format pat handle = Py.Ok formatted →
                AssaySeries.glob_glob fs (Os.path_join root formatted) = []) →
  AssaySeries.parse_kineticsFolders fs self root file_handles descriptors channel
                                    exposure pattern
  = (AssaySeries.set_chamber_root self (Some root),
     Py.Raise (Py.IndexError "list index out of range")).
Proof.
  intros pat Hformat Hhandle Hdesc Hnone.
  unfold AssaySeries.parse_kineticsFolders. cbv zeta. fold pat.
  assert (Hfail : Py.is_ok (AssaySeries.first_match fs root pat handle) = false).
  { unfold AssaySeries.first_match.
    destruct (AssaySeries.format pat handle) as [formatted|e]; [|reflexivity].
    cbn [mbind Py.res_bind]. rewrite (Hnone formatted eq_refl). reflexivity. }
  destruct (AssaySeries.matched_files fs root pat file_handles descriptors)
    as [files|e] eqn:Hfiles.
  - exfalso. unfold AssaySeries.matched_files in Hfiles.
    match type of Hfiles with
    | context [mapM ?f ?l] => destruct (mapM_some_raise f l (handle, desc)) as [e He]
    end.
    + apply list_elem_of_lookup. exists i. apply lookup_zip_with_Some. eauto.
    + destruct (AssaySeries.first_match fs root pat handle); [discriminate Hfail|reflexivity].
    + rewrite He in Hfiles. discriminate Hfiles.
  - apply matched_files_raise in Hfiles as (j & h & d & Hh & _ & Hraise).
    f_equal. f_equal.
    unfold AssaySeries.first_match in Hraise.
    rewrite Forall_forall in Hformat.
    specialize (Hformat h (list_elem_of_lookup_2 _ _ _ Hh)).
    destruct (AssaySeries.format pat h) as [formatted|e']; [|discriminate Hformat].
    cbn [mbind Py.res_bind] in Hraise.
    destruct (AssaySeries.glob_glob _ _); [|discriminate Hraise].
    injection Hraise as <-. reflexivity.
Qed.

(** X25: for as many handles as descriptors, distinct as pairs, each handle
    with a first match, [parse_kineticsFolders] is [load_kin] of the
    descriptors and the first matches, on the object with [chamber_root]
    set. *)
Theorem parse_kinetics_loads fs (self : AssaySeries.t) (root : string)
    (file_handles descriptors paths : list string) (channel : string) (exposure : Z)
    (pattern : option string) :
  let pat := if Py.truthy_str pattern then default "" pattern
             else AssaySeries.kinetics_pattern in
  length file_handles = length descriptors →
  NoDup (zip file_handles descriptors) →
  Forall2 (λ handle p, AssaySeries.first_match fs root pat handle = Py.Ok p)
          file_handles paths →
  AssaySeries.parse_kineticsFolders fs self root file_handles descriptors channel
                                    exposure pattern
  = AssaySeries.load_kin fs (AssaySeries.set_chamber_root self (Some root))
                         descriptors paths channel exposure.
Proof.
  intros pat Hlen Hnd Hall.
  unfold AssaySeries.parse_kineticsFolders. cbv zeta. fold pat.
  destruct (matched_files_ok fs root pat _ _ _ Hlen Hnd Hall) as (files & -> & ->).
  reflexivity.
Qed.

(** X26: [parse_quantificationFolders] with one descriptor never loads: it
    raises its [ValueError], the one of [load_quants], or the [TypeError] of
    repeating the values view of a dictionary, and leaves the object as it
    was. *)
Theorem parse_quantification_single fs (self : AssaySeries.t) (root : string)
    (file_handles descriptors : list string) (channel : string) (exposure : Z)
    (pattern : option string) :
  let pat := if Py.truthy_str pattern then default "" pattern
             else AssaySeries.quantification_pattern in
  length descriptors = 1%nat →
  ∃ e, AssaySeries.parse_quantificationFolders fs self root file_handles descriptors
                                               channel exposure pattern
       = (self, Py.Raise e)
       ∧ e ∈ [AssaySeries.parse_error pat; AssaySeries.load_quants_error;
              Py.TypeError "unsupported operand type(s) for *: 'dict_values' and 'int'"].
Proof.
  intros pat Hlen. unfold AssaySeries.parse_quantificationFolders. cbv zeta. fold pat.
  destruct (AssaySeries.matched_files _ _ _ _ _) as [files|e].
  - unfold AssaySeries.load_quants_of_view.
    destruct (negb _).
    + eexists. split; [reflexivity|]. right. left.
    + rewrite Hlen. eexists. split; [reflexivity|]. right. right. left.
  - eexists. split; [reflexivity|]. left.
Qed.

(** X27: whatever fails while the files are matched,
    [parse_quantificationFolders] raises its [ValueError] with the pattern in
    use and leaves the object as it was; and for as many handles as
    descriptors, two or more, distinct as pairs, each handle with a first
    match, it is [load_quants] of the descriptors and the first matches. *)
Theorem parse_quantification_loads fs (self : AssaySeries.t) (root : string)
    (file_handles descriptors paths : list string) (channel : string) (exposure : Z)
    (pattern : option string) :
  let pat := if Py.truthy_str pattern then default "" pattern
             else AssaySeries.quantification_pattern in
  (∀ e, AssaySeries.matched_files fs root pat file_handles descriptors = Py.Raise e →
        AssaySeries.parse_quantificationFolders fs self root file_handles descriptors
                                                channel exposure pattern
        = (self, Py.Raise (AssaySeries.parse_error pat)))
  ∧ (length file_handles = length descriptors →
     (1 < length descriptors)%nat →
     NoDup (zip file_handles descriptors) →
     Forall2 (λ handle p, AssaySeries.first_match fs root pat handle = Py.Ok p)
             file_handles paths →
     AssaySeries.parse_quantificationFolders fs self root file_handles descriptors
                                             channel exposure pattern
     = AssaySeries.load_quants self descriptors paths channel exposure).
Proof.
  intros pat. unfold AssaySeries.parse_quantificationFolders. cbv zeta. fold pat. split.
  - intros e ->. reflexivity.
  - intros Hlen Hmany Hnd Hall.
    destruct (matched_files_ok fs root pat _ _ _ Hlen Hnd Hall) as (files & -> & ->).
    unfold AssaySeries.load_quants_of_view.
    assert (Hpaths : length descriptors = length paths)
      by (rewrite <- Hlen; exact (Forall2_length _ _ _ Hall)).
    rewrite <- Hpaths, Nat.eqb_refl. cbn [negb].
    destruct (length descriptors =? 1)%nat eqn:Hone; [|reflexivity].
    apply Nat.eqb_eq in Hone. lia.
Qed.

End assay_series_more.

Lemma parse_kinetics_no_match_witness :
  @AssaySeries.parse_kineticsFolders Fixture.finder Fixture.folders_fs Fixture.assay_series
                                     "/run" ["wt"; "ko"] ["wt"; "mut"] "egfp" 100 None
  = (AssaySeries.set_chamber_root Fixture.assay_series (Some "/run"),
     Py.Raise (Py.IndexError "list index out of range")).
Proof.
  apply (@parse_kinetics_no_match Fixture.finder Fixture.folders_fs Fixture.assay_series
           "/run" ["wt"; "ko"] ["wt"; "mut"] "egfp" 100 None 1%nat "ko" "mut").
  - repeat constructor.
  - reflexivity.
  - reflexivity.
  - intros formatted [= <-]. vm_compute. reflexivity.
Defined.

Lemma parse_kinetics_loads_witness :
  @AssaySeries.parse_kineticsFolders Fixture.finder Fixture.folders_fs Fixture.assay_series
                                     "/run" ["wt"; "mut"] ["wt"; "mut"] "egfp" 100 None
  = AssaySeries.load_kin Fixture.folders_fs
                         (AssaySeries.set_chamber_root Fixture.assay_series (Some "/run"))
                         ["wt"; "mut"]
                         ["/run/1_wt_a/r1/StitchedImages"; "/run/2_mut_a/r1/StitchedImages"]
                         "egfp" 100.
Proof.
  apply (@parse_kinetics_loads Fixture.finder Fixture.folders_fs Fixture.assay_series
           "/run" ["wt"; "mut"] ["wt"; "mut"]
           ["/run/1_wt_a/r1/StitchedImages"; "/run/2_mut_a/r1/StitchedImages"]
           "egfp" 100 None).
  - reflexivity.
  - by_decision.
  - repeat constructor; vm_compute; reflexivity.
Defined.

Lemma parse_quantification_single_witness :
  ∃ e,
    @AssaySeries.parse_quantificationFolders Fixture.finder Fixture.folders_fs
      Fixture.assay_series "/bq" ["wt"] ["wt"] "egfp" 100 None
    = (Fixture.assay_series, Py.Raise e)
    ∧ e ∈ [AssaySeries.parse_error AssaySeries.quantification_pattern;
           AssaySeries.load_quants_error;
           Py.TypeError "unsupported operand type(s) for *: 'dict_values' and 'int'"].
Proof.
  apply (@parse_quantification_single Fixture.finder Fixture.folders_fs Fixture.assay_series
           "/bq" ["wt"] ["wt"] "egfp" 100 None).
  reflexivity.
Defined.

Lemma parse_quantification_loads_witness :
  @AssaySeries.parse_quantificationFolders Fixture.finder Fixture.folders_fs
    Fixture.assay_series "/bq" ["wt"; "mut"] ["wt"; "mut"] "egfp" 100 None
  = AssaySeries.load_quants
      Fixture.assay_series ["wt"; "mut"]
      ["/bq/1_wt_a/r1/StitchedImages/BGSubtracted_StitchedImg_1.tif";
       "/bq/2_mut_a/r1/StitchedImages/BGSubtracted_StitchedImg_1.tif"]
      "egfp" 100.
Proof.
  destruct (@parse_quantification_loads Fixture.finder Fixture.folders_fs
              Fixture.assay_series "/bq" ["wt"; "mut"] ["wt"; "mut"]
              ["/bq/1_wt_a/r1/StitchedImages/BGSubtracted_StitchedImg_1.tif";
               "/bq/2_mut_a/r1/StitchedImages/BGSubtracted_StitchedImg_1.tif"]
              "egfp" 100 None) as [_ Hloads].
  apply Hloads.
  - reflexivity.
  - cbn [length]. lia.
  - by_decision.
  - repeat constructor; vm_compute; reflexivity.
Defined.

(** * Files written *)

Section dict_app.
Context {K V : Type} `{EqDecision K}.
Implicit Types d : Py.dict K V.

Lemma get_app_fresh d1 d2 k : k ∉ Py.keys d1 → Py.get (d1 ++ d2) k = Py.get d2 k.
Proof.
  induction d1 as [|[k' v'] d1 IH]; [reflexivity|].
  intros Hk. simpl. destruct (decide (k' = k)) as [->|Hne].
  - exfalso. apply Hk. left.
  - apply IH. intros Hin. apply Hk. right. exact Hin.
Qed.

Lemma set_app_fresh d1 d2 k v :
  k ∉ Py.keys d1 → Py.set (d1 ++ d2) k v = d1 ++ Py.set d2 k v.
Proof.
  induction d1 as [|[k' v'] d1 IH]; [reflexivity|].
  intros Hk. simpl. destruct (decide (k' = k)) as [->|Hne].
  - exfalso. apply Hk. left.
  - f_equal. apply IH. intros Hin. apply Hk. right. exact Hin.
Qed.

End dict_app.

Lemma imsave_keeps fs (q img p : string) :
  p ∈ Py.keys (Os.files fs) → p ∈ Py.keys (Os.files (Os.imsave fs q img)).
Proof. intros Hp. unfold Os.imsave. cbn [Os.files]. apply elem_of_keys_set. right. exact Hp. Qed.

Lemma imsave_writes fs (q img : string) :
  Path.str (Path.of_str q) ∈ Py.keys (Os.files (Os.imsave fs q img)).
Proof. unfold Os.imsave. cbn [Os.files]. apply elem_of_keys_set. left. reflexivity. Qed.

Section writing.
Context `{Chip.Library} `{Frame.Writer}.

(** X28: [Timecourse.save_summary] with a truthy [outPath] raises the
    [AttributeError] of [os.isdir] before the series is summarized and
    writes nothing; with none it is the [save_summary] of a series under the
    kind [Timecourse]. *)
Theorem timecourse_save_summary_target (self : ChipSeries.t) (outPath : option string)
    (fs : Os.FileSystem) :
  Timecourse.save_summary self outPath fs
  = if Py.truthy_str outPath
    then (fs, Io.Raised (Py.AttributeError "module 'os' has no attribute 'isdir'"))
    else ChipSeries.save_summary_as "Timecourse" self outPath fs.
Proof.
  unfold Timecourse.save_summary, ChipSeries.save_summary_as.
  destruct (Py.truthy_str outPath) eqn:Hpath; [reflexivity|].
  destruct (ChipSeries.summarize self); reflexivity.
Qed.

(** ** Making directories *)

Lemma mkdir_files fs (p : Path.t) : Os.files (Os.mkdir fs p).1 = Os.files fs.
Proof. unfold Os.mkdir. repeat case_match; reflexivity. Qed.

Lemma mkdir_directories fs (p : Path.t) (d : string) :
  d ∈ Os.directories fs → d ∈ Os.directories (Os.mkdir fs p).1.
Proof.
  intros Hd. unfold Os.mkdir. repeat case_match; try exact Hd;
    cbn [fst Os.directories]; apply elem_of_app; left; exact Hd.
Qed.

Lemma makedirs_upto_unfold fs (p : Path.t) (m : nat) :
  Os.makedirs_upto fs p (S m)
  = let name := Path.mk (Path.anchored p) (take (S m) (Path.parts p)) in
    let head := Path.mk (Path.anchored p) (take m (Path.parts p)) in
    let above :=
      if (0 <? m)%nat && negb (Os.exists_ fs head)
      then Os.makedirs_upto fs p m else (fs, None) in
    match above.2 with
    | Some (Py.FileExistsError _) | None =>
        match Os.mkdir above.1 name with
        | (fs, Some e) => if Os.is_dir fs name then (fs, None) else (fs, Some e)
        | (fs, None) => (fs, None)
        end
    | Some e => (above.1, Some e)
    end.
Proof.
  cbn [Os.makedirs_upto]. cbv zeta.
  destruct ((0 <? m)%nat && negb (Os.exists_ fs _)); [|reflexivity].
  destruct (Os.makedirs_upto fs p m) as [fs1 [[]|]]; reflexivity.
Qed.

#[local] Ltac set_above :=
  match goal with
  | |- context [if ?c then Os.makedirs_upto ?fs ?p ?m else ?e] =>
      set (above := if c then Os.makedirs_upto fs p m else e)
  end.

Lemma makedirs_upto_files fs (p : Path.t) (n : nat) :
  Os.files (Os.makedirs_upto fs p n).1 = Os.files fs.
Proof.
  induction n as [|m IH]; [reflexivity|].
  rewrite makedirs_upto_unfold. cbv zeta.
  set_above.
  assert (Habove : Os.files above.1 = Os.files fs).
  { unfold above. destruct (_ && _); [exact IH|reflexivity]. }
  set (name := Path.mk _ (take (S m) _)).
  pose proof (mkdir_files above.1 name) as Hmk.
  destruct above.2 as [[]|]; try exact Habove;
    destruct (Os.mkdir above.1 name) as [fs2 [e|]]; cbn [fst] in Hmk;
    try destruct (Os.is_dir fs2 name); cbn [fst]; congruence.
Qed.

Lemma makedirs_upto_directories fs (p : Path.t) (n : nat) (d : string) :
  d ∈ Os.directories fs → d ∈ Os.directories (Os.makedirs_upto fs p n).1.
Proof.
  intros Hd. induction n as [|m IH]; [exact Hd|].
  rewrite makedirs_upto_unfold. cbv zeta.
  set_above.
  assert (Habove : d ∈ Os.directories above.1).
  { unfold above. destruct (_ && _); [exact IH|exact Hd]. }
  set (name := Path.mk _ (take (S m) _)).
  pose proof (mkdir_directories above.1 name d Habove) as Hmk.
  destruct above.2 as [[]|]; try exact Habove;
    destruct (Os.mkdir above.1 name) as [fs2 [e|]]; cbn [fst] in Hmk;
    try destruct (Os.is_dir fs2 name); cbn [fst]; exact Hmk.
Qed.

(** When the call returns, the path is a directory. *)
Lemma makedirs_upto_made fs (p : Path.t) (m : nat) :
  (Os.makedirs_upto fs p (S m)).2 = None →
  Os.is_dir (Os.makedirs_upto fs p (S m)).1
            (Path.mk (Path.anchored p) (take (S m) (Path.parts p))) = true.
Proof.
  rewrite makedirs_upto_unfold. cbv zeta.
  set_above.
  set (name := Path.mk _ (take (S m) _)).
  assert (Hmk : ∀ fs2 r, Os.mkdir above.1 name = (fs2, r) →
                  (match r with
                   | Some e => if Os.is_dir fs2 name then (fs2, None) else (fs2, Some e)
                   | None => (fs2, None)
                   end).2 = None →
                  Os.is_dir (match r with
                             | Some e => if Os.is_dir fs2 name then (fs2, None)
                                         else (fs2, Some e)
                             | None => (fs2, None)
                             end).1 name = true).
  { intros fs2 [e|] Hrun.
    - destruct (Os.is_dir fs2 name) eqn:Hdir; [intros _; exact Hdir|discriminate].
    - intros _. cbn [fst]. revert Hrun. unfold Os.mkdir.
      repeat case_match; try discriminate; intros [= <-];
        unfold Os.is_dir; cbn [Os.directories]; apply bool_decide_eq_true_2;
        apply elem_of_app; right; left. }
  destruct above.2 as [[]|]; try discriminate;
    destruct (Os.mkdir above.1 name) as [fs2 r] eqn:Hrun; exact (Hmk fs2 r eq_refl).
Qed.

Lemma is_file_files fs fs' (q : Path.t) :
  Os.files fs' = Os.files fs → Os.is_file fs' q = Os.is_file fs q.
Proof. unfold Os.is_file. intros ->. reflexivity. Qed.

(** With no regular file on the way, the call returns. *)
Lemma makedirs_upto_clear fs (p : Path.t) (n : nat) :
  (n ≤ length (Path.parts p))%nat →
  (∀ k, (k ≤ n)%nat →
        Os.is_file fs (Path.mk (Path.anchored p) (take k (Path.parts p))) = false) →
  (Os.makedirs_upto fs p n).2 = None.
Proof.
  induction n as [|m IH]; [reflexivity|]. intros Hlen Hclear.
  assert (IHm : (Os.makedirs_upto fs p m).2 = None).
  { apply IH; [lia|]. intros k Hk. apply Hclear. lia. }
  pose proof (makedirs_upto_files fs p m) as Hfiles.
  rewrite makedirs_upto_unfold. cbv zeta.
  set (head := Path.mk _ (take m _)).
  set (name := Path.mk _ (take (S m) _)).
  assert (Hhead_file : Os.is_file fs head = false) by (apply Hclear; lia).
  assert (Hname_file : Os.is_file fs name = false) by (apply Hclear; lia).
  set_above.
  assert (Habove : above.2 = None ∧ Os.files above.1 = Os.files fs
                   ∧ (m = 0%nat ∨ Os.is_dir above.1 head = true)).
  { unfold above. destruct (0 <? m)%nat eqn:Hm; cbn [andb].
    - destruct (Os.exists_ fs head) eqn:Hex; cbn [negb].
      + split_and!; [reflexivity|reflexivity|]. right.
        unfold Os.exists_ in Hex. rewrite Hhead_file, orb_false_r in Hex. exact Hex.
      + split_and!; [exact IHm|exact Hfiles|]. right.
        destruct m as [|m']; [discriminate Hm|].
        exact (makedirs_upto_made fs p m' IHm).
    - split_and!; [reflexivity|reflexivity|]. left.
      apply Nat.ltb_ge in Hm. lia. }
  destruct Habove as (-> & Hsame & Hhead).
  assert (Hparent : Path.parent name = head).
  { unfold name, head, Path.parent. cbn [Path.parts Path.anchored].
    destruct (take (S m) (Path.parts p)) eqn:Htake.
    - assert (Hn : length (take (S m) (Path.parts p)) = S m) by (rewrite length_take; lia).
      rewrite Htake in Hn. discriminate Hn.
    - rewrite <- Htake, removelast_firstn by lia. reflexivity. }
  unfold Os.mkdir. rewrite Hparent.
  destruct (Os.exists_ above.1 name) eqn:Hex.
  - unfold Os.exists_ in Hex.
    rewrite (is_file_files _ _ _ Hsame), Hname_file, orb_false_r in Hex.
    rewrite Hex. reflexivity.
  - rewrite (is_file_files _ _ _ Hsame), Hhead_file.
    destruct Hhead as [->|Hhead].
    + cbn [take Path.parts head]. reflexivity.
    + rewrite Hhead. cbn [negb]. destruct (Path.parts head); reflexivity.
Qed.

Lemma of_str_eta (p : string) :
  Path.mk (Path.anchored (Path.of_str p))
          (take (length (Path.parts (Path.of_str p))) (Path.parts (Path.of_str p)))
  = Path.of_str p.
Proof. rewrite firstn_all. destruct (Path.of_str p); reflexivity. Qed.

Lemma is_dir_of_str fs (p : string) : Os.is_dir fs (Path.of_str p) = Os.path_isdir fs p.
Proof. reflexivity. Qed.

Lemma makedirs_files fs (p : string) :
  Os.files (Os.makedirs_exist_ok fs p).1 = Os.files fs.
Proof. apply makedirs_upto_files. Qed.

Lemma makedirs_keeps fs (p d : string) :
  Os.path_isdir fs d = true → Os.path_isdir (Os.makedirs_exist_ok fs p).1 d = true.
Proof.
  unfold Os.path_isdir. intros Hd%bool_decide_eq_true_1.
  apply bool_decide_eq_true_2, makedirs_upto_directories, Hd.
Qed.

Lemma makedirs_isdir fs (p : string) :
  Path.parts (Path.of_str p) ≠ [] →
  (Os.makedirs_exist_ok fs p).2 = None →
  Os.path_isdir (Os.makedirs_exist_ok fs p).1 p = true.
Proof.
  unfold Os.makedirs_exist_ok. intros Hparts Hnone.
  destruct (length (Path.parts (Path.of_str p))) as [|m] eqn:Hlen.
  { destruct (Path.parts (Path.of_str p)); [congruence|discriminate Hlen]. }
  pose proof (makedirs_upto_made fs (Path.of_str p) m Hnone) as Hdir.
  rewrite <- Hlen, of_str_eta in Hdir. rewrite Hlen in Hdir. exact Hdir.
Qed.

Lemma makedirs_clear fs (p : string) :
  (∀ k, Os.is_file fs (Path.mk (Path.anchored (Path.of_str p))
                               (take k (Path.parts (Path.of_str p)))) = false) →
  (Os.makedirs_exist_ok fs p).2 = None.
Proof.
  intros Hclear. apply makedirs_upto_clear; [lia|]. intros k _. apply Hclear.
Qed.

(** ** Writing a file *)

Lemma write_file_directories fs (p content : string) :
  Os.directories (Os.write_file fs p content).1 = Os.directories fs.
Proof. unfold Os.write_file. repeat case_match; reflexivity. Qed.

Lemma write_file_keeps fs (p content k : string) :
  k ∈ Py.keys (Os.files fs) → k ∈ Py.keys (Os.files (Os.write_file fs p content).1).
Proof.
  intros Hk. unfold Os.write_file. repeat case_match; try exact Hk.
  apply imsave_keeps, Hk.
Qed.

Lemma write_file_written fs (p content : string) :
  (Os.write_file fs p content).2 = None →
  (Os.write_file fs p content).1 = Os.imsave fs p content.
Proof. unfold Os.write_file. repeat case_match; first [discriminate|reflexivity]. Qed.

Lemma write_file_get_ne fs (p content k : string) :
  Path.str (Path.of_str p) ≠ k →
  Py.get (Os.files (Os.write_file fs p content).1) k = Py.get (Os.files fs) k.
Proof.
  intros Hne. unfold Os.write_file. repeat case_match; try reflexivity.
  unfold Os.imsave. cbn [fst Os.files]. apply get_set_ne, Hne.
Qed.

Lemma isdir_directories fs fs' (d : string) :
  Os.directories fs' = Os.directories fs → Os.path_isdir fs' d = Os.path_isdir fs d.
Proof. unfold Os.path_isdir. intros ->. reflexivity. Qed.

(** ** The summary images of a series *)

Lemma save_images_directories (target featuretype : string) (cs : list Chip.ChipImage) fs :
  Os.directories (ChipSeries.save_images target featuretype cs fs).1 = Os.directories fs.
Proof.
  revert fs. induction cs as [|c cs IH]; intros fs; [reflexivity|].
  cbn [ChipSeries.save_images].
  pose proof (write_file_directories fs (ChipSeries.summary_image_path target c)
                                     (Chip.summary_image c featuretype)) as Hw.
  destruct (Os.write_file fs _ _) as [fs1 [e|]]; cbn [fst] in *; [exact Hw|].
  rewrite IH. exact Hw.
Qed.

Lemma save_images_keeps (target featuretype : string) (cs : list Chip.ChipImage) fs
    (k : string) :
  k ∈ Py.keys (Os.files fs) →
  k ∈ Py.keys (Os.files (ChipSeries.save_images target featuretype cs fs).1).
Proof.
  revert fs. induction cs as [|c cs IH]; intros fs Hk; [exact Hk|].
  cbn [ChipSeries.save_images].
  pose proof (write_file_keeps fs (ChipSeries.summary_image_path target c)
                               (Chip.summary_image c featuretype) k Hk) as Hw.
  destruct (Os.write_file fs _ _) as [fs1 [e|]]; cbn [fst] in *; [exact Hw|].
  apply IH, Hw.
Qed.

Lemma save_images_get_ne (target featuretype : string) (cs : list Chip.ChipImage) fs
    (k : string) :
  (∀ c, c ∈ cs → Path.str (Path.of_str (ChipSeries.summary_image_path target c)) ≠ k) →
  Py.get (Os.files (ChipSeries.save_images target featuretype cs fs).1) k
  = Py.get (Os.files fs) k.
Proof.
  revert fs. induction cs as [|c cs IH]; intros fs Hne; [reflexivity|].
  cbn [ChipSeries.save_images].
  pose proof (write_file_get_ne fs (ChipSeries.summary_image_path target c)
                                (Chip.summary_image c featuretype) k
                                (Hne c ltac:(left))) as Hw.
  destruct (Os.write_file fs _ _) as [fs1 [e|]]; cbn [fst] in *; [exact Hw|].
  rewrite IH; [exact Hw|]. intros c' Hc'. apply Hne. right. exact Hc'.
Qed.

Lemma save_images_written (target featuretype : string) (cs : list Chip.ChipImage) fs :
  (ChipSeries.save_images target featuretype cs fs).2 = Py.Ok () →
  ∀ c, c ∈ cs →
       ∃ c', c' ∈ cs
             ∧ Path.of_str (ChipSeries.summary_image_path target c')
               = Path.of_str (ChipSeries.summary_image_path target c)
             ∧ Py.get (Os.files (ChipSeries.save_images target featuretype cs fs).1)
                      (Path.str (Path.of_str (ChipSeries.summary_image_path target c)))
               = Some (Chip.summary_image c' featuretype).
Proof.
  revert fs. induction cs as [|x cs IH]; intros fs Hok c Hc; [inversion Hc|].
  revert Hok. cbn [ChipSeries.save_images].
  pose proof (write_file_written fs (ChipSeries.summary_image_path target x)
                                 (Chip.summary_image x featuretype)) as Hw.
  destruct (Os.write_file fs _ _) as [fs1 [e|]]; cbn [fst snd] in *; [discriminate|].
  intros Hok. specialize (Hw eq_refl).
  destruct (decide (Exists (λ c2, Path.of_str (ChipSeries.summary_image_path target c2)
                                  = Path.of_str (ChipSeries.summary_image_path target c)) cs))
    as [Hex|Hnex].
  - apply Exists_exists in Hex as (c2 & Hc2 & Heq).
    destruct (IH fs1 Hok c2 Hc2) as (c' & Hc' & Hp & Hget).
    exists c'. split_and!; [right; exact Hc'|congruence|rewrite <- Heq; exact Hget].
  - apply elem_of_cons in Hc as [->|Hc].
    + exists x. split_and!; [left|reflexivity|].
      rewrite save_images_get_ne.
      * rewrite Hw. unfold Os.imsave. cbn [Os.files]. apply get_set_eq.
      * intros c2 Hc2 Hstr. apply Hnex, Exists_exists. exists c2. split; [exact Hc2|].
        rewrite <- (of_str_str _ (of_str_well_formed (ChipSeries.summary_image_path target c2))),
                <- (of_str_str _ (of_str_well_formed (ChipSeries.summary_image_path target x))).
        rewrite Hstr. reflexivity.
    + exfalso. apply Hnex, Exists_exists. exists c. split; [exact Hc|reflexivity].
Qed.

Lemma join_component_parts (root fn : string) :
  Path.component fn → Path.parts (Path.of_str (Os.path_join root fn)) ≠ [].
Proof.
  intros Hfn. rewrite (of_str_join_component _ _ Hfn).
  unfold Path.child. cbn [Path.parts]. intros Hnil.
  destruct (Path.parts (Path.of_str root)); discriminate Hnil.
Qed.

(** X29: with a target root, [save_summary_images] removes no directory and
    no file in any outcome; when no path on the way to the directory
    [SummaryImages] of the root is a regular file, that directory exists
    after the call, also when the call raises, and with the chips [None] it
    raises the [AttributeError] of reading them; and when the call returns,
    the directory exists, the series has chips, and the file of every chip
    holds the image of a chip of the same file path. *)
Theorem save_summary_images_written (self : ChipSeries.t) (outPath : option string)
    (featuretype : string) (fs : Os.FileSystem) (target_root : string) :
  (if Py.truthy_str outPath then outPath else ChipSeries.series_root self)
  = Some target_root →
  let target := Os.path_join target_root "SummaryImages" in
  let '(fs', r) := ChipSeries.save_summary_images self outPath featuretype fs in
  (∀ d, Os.path_isdir fs d = true → Os.path_isdir fs' d = true)
  ∧ (∀ p, p ∈ Py.keys (Os.files fs) → p ∈ Py.keys (Os.files fs'))
  ∧ ((∀ k, Os.is_file fs (Path.mk (Path.anchored (Path.of_str target))
                                  (take k (Path.parts (Path.of_str target)))) = false) →
     Os.path_isdir fs' target = true
     ∧ (ChipSeries.chips self = None →
        r = Py.Raise (Py.AttributeError "'NoneType' object has no attribute 'values'")))
  ∧ (r = Py.Ok () →
     Os.path_isdir fs' target = true
     ∧ ∃ d, ChipSeries.chips self = Some d
            ∧ ∀ c, c ∈ Py.values d →
                   ∃ c', c' ∈ Py.values d
                         ∧ Path.of_str (ChipSeries.summary_image_path target c')
                           = Path.of_str (ChipSeries.summary_image_path target c)
                         ∧ Py.get (Os.files fs')
                                  (Path.str (Path.of_str
                                     (ChipSeries.summary_image_path target c)))
                           = Some (Chip.summary_image c' featuretype)).
Proof.
  intros Htarget target. unfold ChipSeries.save_summary_images. rewrite Htarget.
  fold target.
  assert (Hparts : Path.parts (Path.of_str target) ≠ [])
    by (apply join_component_parts; split; reflexivity).
  pose proof (makedirs_files fs target) as Hfiles.
  pose proof (makedirs_keeps fs target) as Hkeeps.
  pose proof (makedirs_isdir fs target Hparts) as Hmade.
  pose proof (makedirs_clear fs target) as Hclear.
  destruct (Os.makedirs_exist_ok fs target) as [fs1 [e|]]; cbn [fst snd] in *.
  { split_and!.
    - exact Hkeeps.
    - rewrite Hfiles. intros p Hp. exact Hp.
    - intros Hno. discriminate (Hclear Hno).
    - discriminate. }
  specialize (Hmade eq_refl).
  destruct (ChipSeries.chips self) as [d|].
  - pose proof (save_images_directories target featuretype (Py.values d) fs1) as Hdirs.
    pose proof (save_images_keeps target featuretype (Py.values d) fs1) as Hkept.
    pose proof (save_images_written target featuretype (Py.values d) fs1) as Hall.
    destruct (ChipSeries.save_images target featuretype (Py.values d) fs1) as [fs2 r].
    cbn [fst snd] in *.
    assert (Hsame : ∀ dir, Os.path_isdir fs2 dir = Os.path_isdir fs1 dir)
      by (intros dir; apply isdir_directories, Hdirs).
    split_and!.
    + intros dir Hdir. rewrite Hsame. apply Hkeeps, Hdir.
    + intros p Hp. apply Hkept. rewrite Hfiles. exact Hp.
    + intros _. split; [rewrite Hsame; exact Hmade|discriminate].
    + intros Hr. split; [rewrite Hsame; exact Hmade|].
      exists d. split; [reflexivity|]. exact (Hall Hr).
  - split_and!.
    + exact Hkeeps.
    + rewrite Hfiles. intros p Hp. exact Hp.
    + intros _. split; [exact Hmade|reflexivity].
    + discriminate.
Qed.

End writing.

Lemma save_summary_images_written_witness :
  (@ChipSeries.save_summary_images Fixture.library Fixture.loaded None "chamber"
                                   Fixture.fs).2 = Py.Ok ()
  ∧ let target := Os.path_join "/data" "SummaryImages" in
    let '(fs', r) :=
      @ChipSeries.save_summary_images Fixture.library Fixture.loaded None "chamber"
                                      Fixture.fs in
    (∀ d, Os.path_isdir Fixture.fs d = true → Os.path_isdir fs' d = true)
    ∧ (∀ p, p ∈ Py.keys (Os.files Fixture.fs) → p ∈ Py.keys (Os.files fs'))
    ∧ ((∀ k, Os.is_file Fixture.fs
                        (Path.mk (Path.anchored (Path.of_str target))
                                 (take k (Path.parts (Path.of_str target)))) = false) →
       Os.path_isdir fs' target = true
       ∧ (ChipSeries.chips Fixture.loaded = None →
          r = Py.Raise (Py.AttributeError "'NoneType' object has no attribute 'values'")))
    ∧ (r = Py.Ok () →
       Os.path_isdir fs' target = true
       ∧ ∃ d, ChipSeries.chips Fixture.loaded = Some d
              ∧ ∀ c, c ∈ Py.values d →
                     ∃ c', c' ∈ Py.values d
                           ∧ Path.of_str (ChipSeries.summary_image_path target c')
                             = Path.of_str (ChipSeries.summary_image_path target c)
                           ∧ Py.get (Os.files fs')
                                    (Path.str (Path.of_str
                                       (ChipSeries.summary_image_path target c)))
                             = Some (@Chip.summary_image Fixture.library c' "chamber")).
Proof.
  split; [vm_compute; reflexivity|].
  apply (@save_summary_images_written Fixture.library Fixture.loaded None "chamber"
           Fixture.fs "/data").
  reflexivity.
Defined.

(** * Processing the quantifications of a series of assays *)

Section quants_processing.
Context `{Chip.Library}.

(** The summary image of the quant [q] is in place in [fs]: the quant has a
    chip, the directory [SummaryImages] beside the file of the chip exists,
    and so does the file of the image in it. *)
#[local] Abbreviation image_saved fs q :=
  (∃ c, ChipQuant.chip q = Some c
        ∧ Os.path_isdir fs (Os.path_join (Path.str (Path.parent (Chip.data_ref c)))
                                         "SummaryImages") = true
        ∧ Path.str (Path.of_str
            (ChipSeries.summary_image_path
               (Os.path_join (Path.str (Path.parent (Chip.data_ref c))) "SummaryImages") c))
          ∈ Py.keys (Os.files fs)).

(** What the processing of quants raises: a quant without a chip, or the
    file system refusing the directory or the file. *)
#[local] Abbreviation quants_outcome r :=
  (r = Py.Ok ()
   ∨ r = Py.Raise (Py.AttributeError "'NoneType' object has no attribute 'stamp'")
   ∨ ∃ e, r = Py.Raise (Py.OSError e)).

#[local] Abbreviation kept fs fs' :=
  ((∀ d, Os.path_isdir fs d = true → Os.path_isdir fs' d = true)
   ∧ (∀ p, p ∈ Py.keys (Os.files fs) → p ∈ Py.keys (Os.files fs'))).

Lemma save_summary_image_loaded (q : ChipQuant.t) (c : Chip.ChipImage) fs :
  ChipQuant.chip q = Some c →
  let '(fs', r) := ChipQuant.save_summary_image q None fs in
  kept fs fs'
  ∧ (r = Py.Ok () ∨ ∃ e, r = Py.Raise (Py.OSError e))
  ∧ (r = Py.Ok () → image_saved fs' q).
Proof.
  intros Hc. unfold ChipQuant.save_summary_image. rewrite Hc. cbn [Py.truthy_str].
  cbv zeta.
  set (target := Os.path_join (Path.str (Path.parent (Chip.data_ref c))) "SummaryImages").
  assert (Hparts : Path.parts (Path.of_str target) ≠ [])
    by (apply join_component_parts; split; reflexivity).
  pose proof (makedirs_files fs target) as Hfiles.
  pose proof (makedirs_keeps fs target) as Hkeeps.
  pose proof (makedirs_isdir fs target Hparts) as Hmade.
  destruct (Os.makedirs_exist_ok fs target) as [fs1 [e|]]; cbn [fst snd] in *.
  { split_and!.
    - exact Hkeeps.
    - rewrite Hfiles. intros p Hp. exact Hp.
    - right. exists e. reflexivity.
    - discriminate. }
  specialize (Hmade eq_refl).
  set (outDir := Os.path_join target _).
  pose proof (write_file_directories fs1 outDir (Chip.summary_image c "button")) as Hdirs.
  pose proof (write_file_keeps fs1 outDir (Chip.summary_image c "button")) as Hkept.
  pose proof (write_file_written fs1 outDir (Chip.summary_image c "button")) as Hw.
  destruct (Os.write_file fs1 outDir _) as [fs2 [e|]]; cbn [fst snd] in *.
  - split_and!.
    + intros d Hd. rewrite (isdir_directories _ _ _ Hdirs). apply Hkeeps, Hd.
    + intros p Hp. apply Hkept. rewrite Hfiles. exact Hp.
    + right. exists e. reflexivity.
    + discriminate.
  - split_and!.
    + intros d Hd. rewrite (isdir_directories _ _ _ Hdirs). apply Hkeeps, Hd.
    + intros p Hp. apply Hkept. rewrite Hfiles. exact Hp.
    + left. reflexivity.
    + intros _. exists c. split_and!; [reflexivity| |].
      * fold target. rewrite (isdir_directories _ _ _ Hdirs). exact Hmade.
      * rewrite (Hw eq_refl). apply imsave_writes.
Qed.

Lemma image_saved_kept (q : ChipQuant.t) fs fs' :
  kept fs fs' → image_saved fs q → image_saved fs' q.
Proof.
  intros [Hdirs Hfiles] (c & Hc & Hdir & Hfile).
  exists c. split_and!; [exact Hc|apply Hdirs, Hdir|apply Hfiles, Hfile].
Qed.

Lemma process_quant_list_inv (button_ref : Chip.ChipImage) (quants : list ChipQuant.t) fs :
  let '(quants', fs', calls, r) := AssaySeries.process_quant_list button_ref quants fs in
  kept fs fs'
  ∧ quants_outcome r
  ∧ (r = Py.Ok () →
     quants' = (λ q, (ChipQuant.process q (Some button_ref) "button").1.1) <$> quants
     ∧ calls = quants ≫= (λ q, (ChipQuant.process q (Some button_ref) "button").1.2)
     ∧ Forall (λ q, image_saved fs' q) quants).
Proof.
  revert fs. induction quants as [|q quants IH]; intros fs.
  { cbn [AssaySeries.process_quant_list].
    split_and!; [intros d Hd; exact Hd|intros p Hp; exact Hp|left; reflexivity|].
    intros _. split_and!; [reflexivity|reflexivity|constructor]. }
  cbn [AssaySeries.process_quant_list]. rewrite fmap_cons. cbn [mbind list_bind].
  destruct (ChipQuant.chip q) as [c|] eqn:Hc.
  - assert (Hproc : ChipQuant.process q (Some button_ref) "button"
                    = (ChipQuant.mk (ChipQuant.device q) (ChipQuant.description q)
                                    (ChipQuant.attrs q) (ChipQuant.chip q) true,
                       [Chip.Stamp c; Chip.MapTo button_ref c [("features", "button")]],
                       Py.Ok ())).
    { unfold ChipQuant.process. rewrite Hc. reflexivity. }
    rewrite Hproc. cbn [fst snd].
    pose proof (save_summary_image_loaded
                  (ChipQuant.mk (ChipQuant.device q) (ChipQuant.description q)
                                (ChipQuant.attrs q) (ChipQuant.chip q) true) c fs Hc)
      as Hsave.
    destruct (ChipQuant.save_summary_image _ None fs) as [fs1 [[]|e]].
    + destruct Hsave as ((Hdirs1 & Hfiles1) & _ & Hsaved). specialize (Hsaved eq_refl).
      specialize (IH fs1).
      destruct (AssaySeries.process_quant_list button_ref quants fs1)
        as [[[quants' fs'] more] r].
      destruct IH as ((Hdirs & Hfiles) & Hout & Hok).
      split_and!.
      * intros d Hd. apply Hdirs, Hdirs1, Hd.
      * intros p Hp. apply Hfiles, Hfiles1, Hp.
      * exact Hout.
      * intros Hr. destruct (Hok Hr) as (-> & -> & Hall).
        split_and!; [reflexivity|reflexivity|].
        constructor; [|exact Hall].
        destruct Hsaved as (c' & Hc' & Hdir & Hfile). cbn [ChipQuant.chip] in Hc'.
        exists c'. split_and!; [exact Hc'|apply Hdirs, Hdir|apply Hfiles, Hfile].
    + destruct Hsave as (Hkept & [Hr|(e' & Hr)] & _); [discriminate Hr|].
      split_and!; [apply Hkept|apply Hkept|right; right; exists e'; exact Hr|].
      intros Hr'. rewrite Hr in Hr'. discriminate Hr'.
  - assert (Hproc : ChipQuant.process q (Some button_ref) "button"
                    = (q, [], Py.Raise (Py.AttributeError
                                          "'NoneType' object has no attribute 'stamp'"))).
    { unfold ChipQuant.process. rewrite Hc. reflexivity. }
    rewrite Hproc.
    split_and!; [intros d Hd; exact Hd|intros p Hp; exact Hp|right; left; reflexivity|].
    discriminate.
Qed.

Lemma process_quants_loop_inv (self : AssaySeries.t) (done todo : Py.dict string Assay.t) fs :
  AssaySeries.assays self = done ++ todo →
  NoDup (Py.keys (done ++ todo)) →
  let '(self', fs', calls, r) := AssaySeries.process_quants_loop self (Py.keys todo) fs in
  kept fs fs'
  ∧ quants_outcome r
  ∧ (r = Py.Ok () →
     self' = AssaySeries.set_assays self
               (done ++ List.map
                          (λ '(k, a),
                             (k, AssaySeries.set_quants a
                                   ((λ q, (ChipQuant.process
                                             q (Some (AssaySeries.button_ref self))
                                             "button").1.1)
                                      <$> Assay.quants a)))
                          todo)
     ∧ calls = Py.values todo
                 ≫= (λ a, Assay.quants a
                            ≫= (λ q, (ChipQuant.process
                                        q (Some (AssaySeries.button_ref self))
                                        "button").1.2))
     ∧ Forall (λ a, Forall (λ q, image_saved fs' q) (Assay.quants a)) (Py.values todo)).
Proof.
  revert self done fs. induction todo as [|[k a] todo IH]; intros self done fs Hassays Hnd.
  { cbn [Py.keys fmap list_fmap AssaySeries.process_quants_loop].
    split_and!; [intros d Hd; exact Hd|intros p Hp; exact Hp|left; reflexivity|].
    intros _. split_and!; [|reflexivity|constructor].
    simpl. rewrite app_nil_r, <- (app_nil_r done), <- Hassays. destruct self; reflexivity. }
  cbn [Py.keys fmap list_fmap fst AssaySeries.process_quants_loop].
  assert (Hfresh : k ∉ Py.keys done).
  { unfold Py.keys in Hnd. rewrite fmap_app in Hnd.
    apply NoDup_app in Hnd as (_ & Hdisj & _). intros Hk. apply (Hdisj k Hk). left. }
  rewrite Hassays, (get_app_fresh done _ k Hfresh).
  cbn [Py.get]. rewrite decide_True by reflexivity.
  pose proof (process_quant_list_inv (AssaySeries.button_ref self) (Assay.quants a) fs)
    as Hlist.
  destruct (AssaySeries.process_quant_list (AssaySeries.button_ref self) (Assay.quants a) fs)
    as [[[quants1 fs1] calls1] r1].
  destruct Hlist as ((Hdirs1 & Hfiles1) & Hout1 & Hok1).
  rewrite (set_app_fresh done _ k _ Hfresh). cbn [Py.set].
  rewrite decide_True by reflexivity.
  destruct r1 as [[]|e].
  2:{ split_and!; [exact Hdirs1|exact Hfiles1|exact Hout1|discriminate]. }
  destruct (Hok1 eq_refl) as (-> & -> & Hsaved1).
  set (a1 := AssaySeries.set_quants a _).
  set (self1 := AssaySeries.set_assays self (done ++ (k, a1) :: todo)).
  specialize (IH self1 (done ++ [(k, a1)]) fs1).
  change (AssaySeries.process_quants_loop self1 todo.*1 fs1)
    with (AssaySeries.process_quants_loop self1 (Py.keys todo) fs1).
  destruct (AssaySeries.process_quants_loop self1 (Py.keys todo) fs1)
    as [[[self' fs'] more] r].
  destruct IH as ((Hdirs & Hfiles) & Hout & Hok).
  - unfold self1. cbn [AssaySeries.assays AssaySeries.set_assays].
    rewrite <- app_assoc. reflexivity.
  - rewrite <- app_assoc. cbn [app].
    unfold Py.keys in Hnd |- *. rewrite fmap_app in Hnd |- *. exact Hnd.
  - split_and!.
    + intros d Hd. apply Hdirs, Hdirs1, Hd.
    + intros p Hp. apply Hfiles, Hfiles1, Hp.
    + exact Hout.
    + intros Hr. destruct (Hok Hr) as (-> & -> & Hall).
      split_and!.
      * unfold self1. cbn [AssaySeries.button_ref AssaySeries.set_assays].
        rewrite <- app_assoc. destruct self; reflexivity.
      * reflexivity.
      * constructor; [|exact Hall].
        eapply Forall_impl; [exact Hsaved1|].
        intros q Hq. exact (image_saved_kept q fs1 fs' (conj Hdirs Hfiles) Hq).
Qed.

(** X30: with distinct keys of the assays, [process_quants] without a
    subset removes no directory and no file; it returns, or raises the
    [AttributeError] of a quant without a chip or an [OSError] of the file
    system; and when it returns, every quant of every assay is what
    [process] with the button reference makes of it, the assays keep their
    order, the calls are those of the quants in that order, and every quant
    has a chip whose directory [SummaryImages] and summary image exist. *)
Theorem process_quants_all (self : AssaySeries.t) (fs : Os.FileSystem) :
  NoDup (Py.keys (AssaySeries.assays self)) →
  let '(self', fs', calls, r) := AssaySeries.process_quants self None fs in
  ((∀ d, Os.path_isdir fs d = true → Os.path_isdir fs' d = true)
   ∧ (∀ p, p ∈ Py.keys (Os.files fs) → p ∈ Py.keys (Os.files fs')))
  ∧ (r = Py.Ok ()
     ∨ r = Py.Raise (Py.AttributeError "'NoneType' object has no attribute 'stamp'")
     ∨ ∃ e, r = Py.Raise (Py.OSError e))
  ∧ (r = Py.Ok () →
     self' = AssaySeries.set_assays self
               (List.map
                  (λ '(k, a),
                     (k, AssaySeries.set_quants a
                           ((λ q, (ChipQuant.process
                                     q (Some (AssaySeries.button_ref self)) "button").1.1)
                              <$> Assay.quants a)))
                  (AssaySeries.assays self))
     ∧ calls = Py.values (AssaySeries.assays self)
                 ≫= (λ a, Assay.quants a
                            ≫= (λ q, (ChipQuant.process
                                        q (Some (AssaySeries.button_ref self))
                                        "button").1.2))
     ∧ Forall (λ a, Forall
                 (λ q, ∃ c, ChipQuant.chip q = Some c
                         ∧ Os.path_isdir fs'
                             (Os.path_join (Path.str (Path.parent (Chip.data_ref c)))
                                           "SummaryImages") = true
                         ∧ Path.str (Path.of_str
                             (ChipSeries.summary_image_path
                                (Os.path_join (Path.str (Path.parent (Chip.data_ref c)))
                                              "SummaryImages") c))
                           ∈ Py.keys (Os.files fs'))
                 (Assay.quants a))
              (Py.values (AssaySeries.assays self))).
Proof.
  intros Hnd. unfold AssaySeries.process_quants. cbn [Py.truthy_list].
  exact (process_quants_loop_inv self [] (AssaySeries.assays self) fs eq_refl Hnd).
Qed.

End quants_processing.

Lemma process_quants_all_witness :
  (@AssaySeries.process_quants Fixture.library Fixture.quantified None Fixture.fs).2
  = Py.Ok ()
  ∧ let '(self', fs', calls, r) :=
      @AssaySeries.process_quants Fixture.library Fixture.quantified None Fixture.fs in
    ((∀ d, Os.path_isdir Fixture.fs d = true → Os.path_isdir fs' d = true)
     ∧ (∀ p, p ∈ Py.keys (Os.files Fixture.fs) → p ∈ Py.keys (Os.files fs')))
    ∧ (r = Py.Ok ()
       ∨ r = Py.Raise (Py.AttributeError "'NoneType' object has no attribute 'stamp'")
       ∨ ∃ e, r = Py.Raise (Py.OSError e))
    ∧ (r = Py.Ok () →
       self' = AssaySeries.set_assays Fixture.quantified
                 (List.map
                    (λ '(k, a),
                       (k, AssaySeries.set_quants a
                             ((λ q, (ChipQuant.process
                                       q (Some (AssaySeries.button_ref Fixture.quantified))
                                       "button").1.1)
                                <$> Assay.quants a)))
                    (AssaySeries.assays Fixture.quantified))
       ∧ calls = Py.values (AssaySeries.assays Fixture.quantified)
                   ≫= (λ a, Assay.quants a
                              ≫= (λ q, (ChipQuant.process
                                          q (Some (AssaySeries.button_ref Fixture.quantified))
                                          "button").1.2))
       ∧ Forall (λ a, Forall
                   (λ q, ∃ c, ChipQuant.chip q = Some c
                           ∧ Os.path_isdir fs'
                               (Os.path_join (Path.str (Path.parent (Chip.data_ref c)))
                                             "SummaryImages") = true
                           ∧ Path.str (Path.of_str
                               (ChipSeries.summary_image_path
                                  (Os.path_join (Path.str (Path.parent (Chip.data_ref c)))
                                                "SummaryImages") c))
                             ∈ Py.keys (Os.files fs'))
                   (Assay.quants a))
                (Py.values (AssaySeries.assays Fixture.quantified))).
Proof.
  split; [vm_compute; reflexivity|].
  apply (@process_quants_all Fixture.library Fixture.quantified Fixture.fs).
  by_decision.
Defined.
